(** * netmiko/channel.py: the transport channels of netmiko

    A shallow embedding of [src/netmiko/channel.py].  The three channel
    classes ([TelnetChannel], [SSHChannel], [SerialChannel]) and the
    decorators ([ansi_strip], [log_reads], [log_writes]) are translated
    method by method.  Everything the module imports (paramiko, telnetlib,
    pyserial, [time], [re], [netmiko.utilities], [netmiko.session_log])
    is taken as an interface: its behaviour is a parameter of the
    development, so every theorem holds for all behaviours of the
    libraries.  Not translated: [TelnetChannel.establish_connection] and
    [TelnetChannel.login] (they run the login class of
    [netmiko.telnet_state], which drives the channel itself), and the
    [__repr__] methods.  The methods of [SerialChannel] that open and
    read the port are in [SerialChannelIO], over their own interface of
    pyserial.

    Conventions.
    - A Python [str] is a [string]; [bytes] is a [list byte].
    - Python [Optional[T]] is [option T] ([None] is Python's [None]); an
      instance attribute that may have been removed with [del] is an
      [attr].
    - A method of a class whose instances have type [S] is a function
      [World S -> result A * World S]: the world holds the object, the
      state of everything outside the object and the records of the
      module logger.  An exception is the [Raise] result.
    - Seconds are rationals ([Q]); rounding of Python floats is not
      modelled.
    - A [while True] loop takes fuel; running out of fuel is [None]. *)

From Stdlib Require Import String Ascii List ZArith QArith Bool Lia.
From Stdlib Require Import Strings.Byte DecimalString Lqa.
Import ListNotations.
Open Scope string_scope.

Set Implicit Arguments.

(** ** Exceptions and results *)

(** The exception classes that [channel.py] raises, catches or lets
    through.  [AuthenticationException] is, in paramiko, a subclass of
    [SSHException]; [socket_error] is [socket.error], which is the class
    [OSError] itself.  An exception of any other class is an
    [OtherException]: [cls] names its class and [bases] the classes it
    inherits from, which is what an [except] clause looks at (the bases of
    [BrokenPipeError] are [ConnectionError], [OSError] and
    [Exception]). *)
Inductive exn : Type :=
| EOFError (msg : string)
| AttributeError (msg : string)
| KeyError (key : string)
| AssertionError (msg : string)
| UnicodeDecodeError (msg : string)
| re_error (msg : string)
| socket_error (msg : string)
| SSHException (msg : string)
| AuthenticationException (msg : string)
| NetmikoTimeoutException (msg : string)
| NetmikoAuthenticationException (msg : string)
| OtherException (cls : string) (bases : list string) (msg : string).

(** [str(e)] *)
Definition str_exn (e : exn) : string :=
  match e with
  | EOFError m | AttributeError m | KeyError m | AssertionError m
  | UnicodeDecodeError m
  | re_error m | socket_error m | SSHException m
  | AuthenticationException m | NetmikoTimeoutException m
  | NetmikoAuthenticationException m | OtherException _ _ m => m
  end.

(** [isinstance(e, C)] for an exception of another class: [C] is its class
    or one of its bases. *)
Definition inherits (c : string) (e : exn) : bool :=
  match e with
  | OtherException cls bases _ =>
      (cls =? c)%string || existsb (String.eqb c) bases
  | _ => false
  end.

(** [isinstance(e, socket.error)]: [OSError] and every subclass of it. *)
Definition is_socket_error (e : exn) : bool :=
  match e with socket_error _ => true | _ => inherits "OSError" e end.

(** [isinstance(e, paramiko.ssh_exception.SSHException)]: true of the
    class and of its subclasses, those of [AuthenticationException]
    included. *)
Definition is_SSHException (e : exn) : bool :=
  match e with
  | SSHException _ | AuthenticationException _ => true
  | _ => inherits "SSHException" e || inherits "AuthenticationException" e
  end.

(** [isinstance(e, paramiko.ssh_exception.AuthenticationException)] *)
Definition is_AuthenticationException (e : exn) : bool :=
  match e with
  | AuthenticationException _ => true
  | _ => inherits "AuthenticationException" e
  end.

Definition is_UnicodeDecodeError (e : exn) : bool :=
  match e with
  | UnicodeDecodeError _ => true
  | _ => inherits "UnicodeDecodeError" e
  end.

Definition is_AttributeError (e : exn) : bool :=
  match e with
  | AttributeError _ => true
  | _ => inherits "AttributeError" e
  end.

Definition is_EOFError (e : exn) : bool :=
  match e with EOFError _ => true | _ => inherits "EOFError" e end.

(** [isinstance(e, Exception)] *)
Definition is_Exception (e : exn) : bool := true.

Inductive result (A : Type) : Type :=
| Ok (a : A)
| Raise (e : exn).
Arguments Ok {A} a.
Arguments Raise {A} e.

(** An instance attribute: bound to a value, or missing (never assigned,
    or removed with [del]). *)
Inductive attr (A : Type) : Type :=
| Missing
| Bound (a : A).
Arguments Missing {A}.
Arguments Bound {A} a.

(** What [re.search] gives: a match object, [None], or [re.error] for a
    pattern that does not compile. *)
Inductive re_result : Type :=
| Match
| NoMatch
| ReError (msg : string).

(** How one round of a [while True] loop ends. *)
Inductive ctl (A B : Type) : Type :=
| Break (b : B)
| Continue (a : A).
Arguments Break {A B} b.
Arguments Continue {A B} a.

(** ** Strings *)

Definition nl : string := String (ascii_of_nat 10) EmptyString.

(** [needle in hay] on Python strings. *)
Fixpoint contains (needle hay : string) : bool :=
  String.prefix needle hay ||
  match hay with
  | EmptyString => false
  | String _ hay' => contains needle hay'
  end.

(** [c.isspace()] for the characters of a [string]. *)
Definition isspace (c : ascii) : bool :=
  let n := nat_of_ascii c in
  ((9 <=? n) && (n <=? 13) || (28 <=? n) && (n <=? 32))%nat.

(** [s.lstrip()] *)
Fixpoint lstrip (s : string) : string :=
  match s with
  | EmptyString => EmptyString
  | String c s' => if isspace c then lstrip s' else s
  end.

(** [str(n)] for an [int]. *)
Definition str_int (n : Z) : string :=
  NilZero.string_of_int (Z.to_int n).

(** [str(x)] for an optional string: [None] prints as [None]. *)
Definition str_opt (x : option string) : string :=
  match x with Some s => s | None => "None" end.

(** [a > b] on seconds. *)
Definition Qgtb (a b : Q) : bool := negb (Qle_bool a b).

(** ** The imported libraries *)

(** The pure functions the module imports: [re.search],
    [netmiko.utilities.strip_ansi_escape_codes],
    [netmiko.utilities.write_bytes] (which may raise),
    [bytes.decode(encoding, "ignore")], [str(b)] of a [bytes] value and
    [netmiko.netmiko_globals.MAX_BUFFER]. *)
Class Library : Type := {
  re_search : string -> string -> Z -> re_result;
  strip_ansi_escape_codes : string -> string;
  write_bytes : string -> string -> result (list byte);
  bytes_decode : string -> list byte -> string;
  str_bytes : list byte -> string;
  MAX_BUFFER : Z
}.

(** Host-key policies of paramiko. *)
Inductive key_policy : Type := AutoAddPolicy | RejectPolicy.

(** [ssh_params], the keyword arguments of [SSHClient.connect]. *)
Record ssh_params_t : Type := {
  hostname : option string;
  port : option Z;
  blocking_timeout_kw : option Z;
  keepalive_kw : option Z;
  connect_kwargs : list (string * string)
}.

(** The stateful world outside the channel object: the clock, the session
    log object, and the transports of paramiko, telnetlib and pyserial.
    Every operation takes the state of that world and returns the new
    one. *)
Class Platform : Type := {
  Env : Type;
  (* time *)
  time_time : Env -> Q * Env;
  time_sleep : Q -> Env -> Env;
  (* os.path *)
  path_isfile : string -> Env -> bool;
  (* netmiko.session_log.SessionLog *)
  SessionLog : Type;
  SessionLog_fin : SessionLog -> Env -> bool;
  SessionLog_record_writes : SessionLog -> Env -> bool;
  SessionLog_write : SessionLog -> string -> Env -> result unit * Env;
  (* paramiko.SSHClient *)
  SSHClient : Type;
  SSHClient_new : bool -> Env -> SSHClient * Env;
  load_system_host_keys : SSHClient -> Env -> result unit * Env;
  load_host_keys : SSHClient -> string -> Env -> result unit * Env;
  set_missing_host_key_policy : SSHClient -> key_policy -> Env -> Env;
  connect : SSHClient -> ssh_params_t -> Env -> result unit * Env;
  SSHClient_close : SSHClient -> Env -> result unit * Env;
  (* paramiko.channel.Channel *)
  ParamikoChannel : Type;
  invoke_shell :
    SSHClient -> string -> Z -> Z -> Env -> result ParamikoChannel * Env;
  settimeout : ParamikoChannel -> Z -> Env -> Env;
  set_keepalive : ParamikoChannel -> Z -> Env -> result unit * Env;
  recv_ready : ParamikoChannel -> Env -> bool * Env;
  recv : ParamikoChannel -> Z -> Env -> result (list byte) * Env;
  sendall : ParamikoChannel -> list byte -> Env -> result unit * Env;
  transport_is_active : ParamikoChannel -> Env -> result bool * Env;
  (* telnetlib.Telnet *)
  Telnet : Type;
  Telnet_close : Telnet -> Env -> result unit * Env;
  Telnet_write : Telnet -> list byte -> Env -> result unit * Env;
  Telnet_read_eager : Telnet -> Env -> result (list byte) * Env;
  Telnet_read_very_eager : Telnet -> Env -> result (list byte) * Env;
  Socket : Type;
  Telnet_get_socket : Telnet -> Env -> option Socket;
  Socket_sendall : Socket -> list byte -> Env -> result unit * Env;
  (* serial.Serial *)
  Serial : Type;
  Serial_close : Serial -> Env -> result unit * Env;
  Serial_write : Serial -> list byte -> Env -> result unit * Env;
  Serial_flush : Serial -> Env -> result unit * Env
}.

(** ** Worlds and methods *)

Section Worlds.
Context `{Platform}.

Record World (S : Type) : Type := mkWorld {
  self : S;
  env : Env;
  logged : list string
}.

(** A method returning an [A] on an object of type [S]. *)
Definition M (S A : Type) : Type := World S -> result A * World S.

(** A method that contains a [while True] loop. *)
Definition P (S A : Type) : Type := World S -> option (result A * World S).

Definition ret {S A} (a : A) : M S A := fun w => (Ok a, w).

Definition raise {S A} (e : exn) : M S A := fun w => (Raise e, w).

Definition bind {S A B} (m : M S A) (k : A -> M S B) : M S B :=
  fun w =>
    match m w with
    | (Ok a, w') => k a w'
    | (Raise e, w') => (Raise e, w')
    end.

(** The [except] clauses of a [try]: the first clause whose class test
    holds of the exception handles it; with none, it propagates. *)
Fixpoint handle {S A} (clauses : list ((exn -> bool) * (exn -> M S A)))
    (e : exn) : M S A :=
  match clauses with
  | [] => raise e
  | (catches, handler) :: rest =>
      if catches e then handler e else handle rest e
  end.

(** [try: body  except C1 as e: h1 e  except C2 as e: h2 e ...] *)
Definition try_except {S A} (body : M S A)
    (clauses : list ((exn -> bool) * (exn -> M S A))) : M S A :=
  fun w =>
    match body w with
    | (Ok a, w') => (Ok a, w')
    | (Raise e, w') => handle clauses e w'
    end.

(** [try: body  finally: final].  An exception of [final] replaces the
    pending one. *)
Definition try_finally {S A} (body : M S A) (final : M S unit) : M S A :=
  fun w =>
    match body w with
    | (r, w') =>
        match final w' with
        | (Ok _, w'') => (r, w'')
        | (Raise e, w'') => (Raise e, w'')
        end
    end.

(** An operation of the outside world that may raise. *)
Definition call {S A} (op : Env -> result A * Env) : M S A :=
  fun w =>
    match op (env w) with
    | (r, e') => (r, mkWorld (self w) e' (logged w))
    end.

(** An operation of the outside world that does not raise. *)
Definition call' {S A} (op : Env -> A * Env) : M S A :=
  fun w =>
    match op (env w) with
    | (a, e') => (Ok a, mkWorld (self w) e' (logged w))
    end.

Definition effect {S} (op : Env -> Env) : M S unit :=
  fun w => (Ok tt, mkWorld (self w) (op (env w)) (logged w)).

Definition ask {S A} (q : Env -> A) : M S A :=
  fun w => (Ok (q (env w)), w).

Definition get_self {S} : M S S := fun w => (Ok (self w), w).

Definition set_self {S} (s : S) : M S unit :=
  fun w => (Ok tt, mkWorld s (env w) (logged w)).

(** [log.debug(msg)], [log.error(msg)]: a record of the module logger. *)
Definition log_debug {S} (msg : string) : M S unit :=
  fun w => (Ok tt, mkWorld (self w) (env w) (logged w ++ [msg])).

Definition log_error {S} (msg : string) : M S unit :=
  fun w => (Ok tt, mkWorld (self w) (env w) (logged w ++ [msg])).

Definition lift {S A} (m : M S A) : P S A := fun w => Some (m w).

(** [while True: body], with the loop variables in [a]. *)
Fixpoint while_true {S A B} (fuel : nat) (body : A -> P S (ctl A B))
    (a : A) (w : World S) : option (result B * World S) :=
  match fuel with
  | O => None
  | Datatypes.S fuel' =>
      match body a w with
      | None => None
      | Some (Raise e, w') => Some (Raise e, w')
      | Some (Ok (Break b), w') => Some (Ok b, w')
      | Some (Ok (Continue a'), w') => while_true fuel' body a' w'
      end
  end.

Definition bindP {S A B} (m : P S A) (k : A -> P S B) : P S B :=
  fun w =>
    match m w with
    | None => None
    | Some (Ok a, w') => k a w'
    | Some (Raise e, w') => Some (Raise e, w')
    end.
End Worlds.

Notation "x <- m ;; k" := (bind m (fun x => k))
  (at level 61, m at next level, right associativity).
Notation "m ;;; k" := (bind m (fun _ => k))
  (at level 61, right associativity).
Notation "x <~ m ;; k" := (bindP m (fun x => k))
  (at level 61, m at next level, right associativity).

(** What the decorators read of a channel object. *)
Class ChannelAttrs `{Platform} (S : Type) : Type := {
  get_session_log : S -> option SessionLog;
  get_encoding : S -> string
}.

(** ** The decorators *)

Section Decorators.
Context `{Library} `{Platform}.
Context {S : Type} `{!ChannelAttrs S}.

(** [ansi_strip] *)
Definition ansi_strip (func : M S string) : M S string :=
  output <- func ;;
  let output := strip_ansi_escape_codes output in
  ret output.

(** [log_reads] *)
Definition log_reads (func : M S string) : M S string :=
  output <- func ;;
  log_debug ("read_channel: " ++ output) ;;;
  self <- get_self ;;
  match get_session_log self with
  | Some sl => call (SessionLog_write sl output)
  | None => ret tt
  end ;;;
  ret output.

(** The body of the [try] of [log_writes]. *)
Definition log_writes_try (out_data : string) : M S unit :=
  self <- get_self ;;
  match write_bytes out_data (get_encoding self) with
  | Raise e => raise e
  | Ok b =>
      log_debug ("write_channel: " ++ str_bytes b) ;;;
      match get_session_log self with
      | Some sl =>
          fin <- ask (SessionLog_fin sl) ;;
          record_writes <- ask (SessionLog_record_writes sl) ;;
          if fin || record_writes
          then call (SessionLog_write sl out_data)
          else ret tt
      | None => ret tt
      end
  end.

(** [log_writes] *)
Definition log_writes (func : string -> M S unit) (out_data : string)
    : M S unit :=
  func out_data ;;;
  try_except (log_writes_try out_data)
    [(is_UnicodeDecodeError, fun _ => ret tt)] ;;;
  ret tt.
End Decorators.

(** ** [class Channel(ABC)] *)

Module Channel.
Section Defs.
Context `{Library} `{Platform} {S : Type}.

(** The abstract method [read_buffer] of the subclass. *)
Variable read_buffer : M S string.

Definition loop_sleep_time : Q := 1 # 100.

(** The message of the exception raised at the deadline. *)
Definition timeout_msg (pattern output : string) : string :=
  nl ++ nl
  ++ "Timed-out reading channel, pattern not found in output: " ++ pattern
  ++ nl ++ "Data retrieved before timeout:" ++ nl ++ nl ++ output
  ++ nl ++ nl.

(** One round of the loop of [read_channel_expect]. *)
Definition expect_body (pattern : string) (re_flags : Z) (read_timeout : Q)
    (output : string) : M S (ctl string string) :=
  new <- read_buffer ;;
  let output := output ++ new in
  match re_search pattern output re_flags with
  | ReError m => raise (re_error m)
  | Match => ret (Break output)
  | NoMatch =>
      now <- call' time_time ;;
      if Qgtb now read_timeout then
        let output := strip_ansi_escape_codes output in
        raise (NetmikoTimeoutException (timeout_msg pattern output))
      else
        effect (time_sleep loop_sleep_time) ;;;
        ret (Continue output)
  end.

(** [Channel.read_channel_expect] *)
Definition read_channel_expect (fuel : nat) (pattern : string) (timeout : Z)
    (re_flags : Z) : P S string :=
  _ <~ lift (log_debug ("Pattern is: " ++ pattern)) ;;
  now <~ lift (call' time_time) ;;
  let read_timeout := (now + inject_Z timeout)%Q in
  output <~ while_true fuel
              (fun output =>
                 lift (expect_body pattern re_flags read_timeout output))
              "" ;;
  let output := strip_ansi_escape_codes output in
  _ <~ lift (log_debug ("Pattern found: " ++ pattern ++ " " ++ output)) ;;
  lift (ret output).

(** The clock reading from which the deadline is computed, and the
    world in which the loop of [read_channel_expect] is entered. *)
Definition expect_start (pattern : string) (w : World S) : Q * World S :=
  match time_time (env w) with
  | (now, e) =>
      (now, mkWorld (self w) e (logged w ++ ["Pattern is: " ++ pattern]))
  end.

(** The accumulated text and the world after [n] rounds of the loop that
    all went round again (no match, deadline not passed, no exception);
    [None] when one of these rounds leaves the loop. *)
Fixpoint quiet_polls (n : nat) (pattern : string) (re_flags : Z)
    (read_timeout : Q) (output : string) (w : World S)
    : option (string * World S) :=
  match n with
  | O => Some (output, w)
  | Datatypes.S n' =>
      match expect_body pattern re_flags read_timeout output w with
      | (Ok (Continue output'), w') =>
          quiet_polls n' pattern re_flags read_timeout output' w'
      | _ => None
      end
  end.
End Defs.
End Channel.

(** ** [class TelnetChannel(Channel)] *)

(** [telnet_params], as [__init__] reads it. *)
Record telnet_params_t : Type := {
  tp_hostname : string;
  tp_port : option Z;
  tp_username : string;
  tp_password : string;
  tp_timeout : Z
}.

Module TelnetChannel.
Section Defs.
Context `{Library} `{Platform}.

Record t : Type := {
  protocol : string;
  telnet_params : telnet_params_t;
  device_type : string;
  host : string;
  port : Z;
  username : string;
  password : string;
  timeout : Z;
  encoding : string;
  session_log : option SessionLog;
  remote_conn : option Telnet
}.

Definition set_remote_conn (c : option Telnet) (s : t) : t :=
  {| protocol := protocol s; telnet_params := telnet_params s;
     device_type := device_type s; host := host s; port := port s;
     username := username s; password := password s;
     timeout := timeout s; encoding := encoding s;
     session_log := session_log s; remote_conn := c |}.

#[global] Instance attrs : ChannelAttrs t :=
  {| get_session_log := session_log; get_encoding := encoding |}.

(** [TelnetChannel.__init__] *)
Definition init (params : telnet_params_t) (dev : string) (enc : string)
    (slog : option SessionLog) : t :=
  {| protocol := "telnet"; telnet_params := params; device_type := dev;
     host := tp_hostname params;
     port := match tp_port params with Some p => p | None => 23%Z end;
     username := tp_username params; password := tp_password params;
     timeout := tp_timeout params; encoding := enc; session_log := slog;
     remote_conn := None |}.

(** [TelnetChannel.close] *)
Definition close : M t unit :=
  try_finally
    (try_except
       (self <- get_self ;;
        match remote_conn self with
        | Some c => call (Telnet_close c)
        | None => ret tt
        end)
       [(is_Exception, fun _ => ret tt)])
    (self <- get_self ;; set_self (set_remote_conn None self)).

(** [TelnetChannel.write_channel] *)
Definition write_channel : string -> M t unit :=
  log_writes (fun out_data =>
    self <- get_self ;;
    match remote_conn self with
    | Some c =>
        match write_bytes out_data (encoding self) with
        | Ok b => call (Telnet_write c b)
        | Raise e => raise e
        end
    | None => ret tt
    end).

(** [TelnetChannel.read_buffer] *)
Definition read_buffer : M t string :=
  log_reads (
    self <- get_self ;;
    match remote_conn self with
    | Some c =>
        b <- call (Telnet_read_eager c) ;;
        ret (bytes_decode "utf-8" b)
    | None => raise (AssertionError "")
    end).

(** [TelnetChannel.read_channel] *)
Definition read_channel : M t string :=
  ansi_strip (log_reads (
    self <- get_self ;;
    match remote_conn self with
    | Some c =>
        b <- call (Telnet_read_very_eager c) ;;
        let output := bytes_decode "utf-8" b in
        ret output
    | None => raise (AssertionError "")
    end)).

(** [TelnetChannel.read_channel_expect] *)
Definition read_channel_expect (fuel : nat) (pattern : string)
    (timeout : Z) (re_flags : Z) : P t string :=
  Channel.read_channel_expect read_buffer fuel pattern timeout re_flags.

(** [TelnetChannel.read_channel_timing]: the body is [pass], the call
    returns [None]. *)
Definition read_channel_timing (delay_factor : Q) (timeout : Z)
    : M t (option string) :=
  ret None.

(** [telnetlib.IAC + telnetlib.NOP] *)
Definition IAC_NOP : list byte := [xff; xf1].

Definition socket_sendall (sock : option Socket) (b : list byte)
    : M t unit :=
  match sock with
  | Some sk => call (Socket_sendall sk b)
  | None =>
      raise (AttributeError
               "'NoneType' object has no attribute 'sendall'")
  end.

(** [TelnetChannel.is_alive] *)
Definition is_alive : M t bool :=
  self <- get_self ;;
  match remote_conn self with
  | None =>
      log_error "Connection is not initialised, is_alive returns False" ;;;
      ret false
  | Some c =>
      try_except
        (log_debug "Sending IAC + NOP" ;;;
         telnet_socket <- ask (Telnet_get_socket c) ;;
         socket_sendall telnet_socket IAC_NOP ;;;
         socket_sendall telnet_socket IAC_NOP ;;;
         socket_sendall telnet_socket IAC_NOP ;;;
         ret true)
        [(is_AttributeError, fun _ => ret false)]
  end.
End Defs.
End TelnetChannel.

(** ** [class SSHChannel(Channel)] *)

(** [ssh_hostkey_args]: a key that is not in the dictionary is [None]. *)
Record ssh_hostkey_args_t : Type := {
  system_host_keys : option bool;
  alt_host_keys : option bool;
  alt_key_file : option string;
  ssh_strict : option bool
}.

(** The truth value of [d.get(key)]. *)
Definition truthy (x : option bool) : bool :=
  match x with Some b => b | None => false end.

Module SSHChannel.
Section Defs.
Context `{Library} `{Platform}.

Record t : Type := {
  ssh_params : ssh_params_t;
  blocking_timeout : Z;
  keepalive : Z;
  device_type : string;
  ssh_hostkey_args : ssh_hostkey_args_t;
  protocol : string;
  remote_conn : attr (option ParamikoChannel);
  remote_conn_pre : attr SSHClient;
  session_log : option SessionLog;
  encoding : string;
  use_keys : bool;
  password : option string
}.

Definition set_remote_conn (c : attr (option ParamikoChannel)) (s : t)
    : t :=
  {| ssh_params := ssh_params s; blocking_timeout := blocking_timeout s;
     keepalive := keepalive s; device_type := device_type s;
     ssh_hostkey_args := ssh_hostkey_args s; protocol := protocol s;
     remote_conn := c; remote_conn_pre := remote_conn_pre s;
     session_log := session_log s; encoding := encoding s;
     use_keys := use_keys s; password := password s |}.

Definition set_remote_conn_pre (c : attr SSHClient) (s : t) : t :=
  {| ssh_params := ssh_params s; blocking_timeout := blocking_timeout s;
     keepalive := keepalive s; device_type := device_type s;
     ssh_hostkey_args := ssh_hostkey_args s; protocol := protocol s;
     remote_conn := remote_conn s; remote_conn_pre := c;
     session_log := session_log s; encoding := encoding s;
     use_keys := use_keys s; password := password s |}.

#[global] Instance attrs : ChannelAttrs t :=
  {| get_session_log := session_log; get_encoding := encoding |}.

Definition no_attribute (name : string) : exn :=
  AttributeError
    ("'SSHChannel' object has no attribute '" ++ name ++ "'").

(** [self.remote_conn] *)
Definition getattr_remote_conn : M t (option ParamikoChannel) :=
  self <- get_self ;;
  match remote_conn self with
  | Bound c => ret c
  | Missing => raise (no_attribute "remote_conn")
  end.

(** [self.remote_conn_pre] *)
Definition getattr_remote_conn_pre : M t SSHClient :=
  self <- get_self ;;
  match remote_conn_pre self with
  | Bound c => ret c
  | Missing => raise (no_attribute "remote_conn_pre")
  end.

(** [del self.remote_conn] *)
Definition del_remote_conn : M t unit :=
  self <- get_self ;;
  match remote_conn self with
  | Bound _ => set_self (set_remote_conn Missing self)
  | Missing => raise (no_attribute "remote_conn")
  end.

(** [del self.remote_conn_pre] *)
Definition del_remote_conn_pre : M t unit :=
  self <- get_self ;;
  match remote_conn_pre self with
  | Bound _ => set_self (set_remote_conn_pre Missing self)
  | Missing => raise (no_attribute "remote_conn_pre")
  end.

(** [SSHChannel.__init__]: [blocking_timeout] and [keepalive] are popped
    from [ssh_params]; [remote_conn_pre] is not assigned. *)
Definition init (params : ssh_params_t) (dev : string)
    (hostkey_args : option ssh_hostkey_args_t) (enc : string)
    (slog : option SessionLog) (keys : bool) (pwd : option string) : t :=
  {| ssh_params :=
       {| hostname := hostname params; port := port params;
          blocking_timeout_kw := None; keepalive_kw := None;
          connect_kwargs := connect_kwargs params |};
     blocking_timeout :=
       match blocking_timeout_kw params with
       | Some b => b
       | None => 20%Z
       end;
     keepalive :=
       match keepalive_kw params with Some k => k | None => 0%Z end;
     device_type := dev;
     ssh_hostkey_args :=
       match hostkey_args with
       | Some a => a
       | None =>
           {| system_host_keys := None; alt_host_keys := None;
              alt_key_file := None; ssh_strict := None |}
       end;
     protocol := "ssh";
     remote_conn := Bound None;
     remote_conn_pre := Missing;
     session_log := slog;
     encoding := enc;
     use_keys := keys;
     password := pwd |}.

(** [SSHChannel._build_ssh_client] *)
Definition _build_ssh_client (no_auth : bool) : M t SSHClient :=
  remote_conn_pre <- call' (SSHClient_new no_auth) ;;
  self <- get_self ;;
  (if truthy (system_host_keys (ssh_hostkey_args self))
   then call (load_system_host_keys remote_conn_pre)
   else ret tt) ;;;
  (if truthy (alt_host_keys (ssh_hostkey_args self))
   then
     match alt_key_file (ssh_hostkey_args self) with
     | None => raise (KeyError "alt_key_file")
     | Some file =>
         isfile <- ask (path_isfile file) ;;
         if isfile then call (load_host_keys remote_conn_pre file)
         else ret tt
     end
   else ret tt) ;;;
  let key_policy :=
    if negb (truthy (ssh_strict (ssh_hostkey_args self)))
    then AutoAddPolicy else RejectPolicy in
  effect (set_missing_host_key_policy remote_conn_pre key_policy) ;;;
  ret remote_conn_pre.

(** [SSHChannel.close] *)
Definition close : M t unit :=
  try_finally
    (pre <- getattr_remote_conn_pre ;; call (SSHClient_close pre))
    (del_remote_conn ;;; del_remote_conn_pre).

Definition tcp_failed_msg (dev host port : string) : string :=
  "TCP connection to device failed." ++ nl ++ nl
  ++ "Common causes of this problem are:" ++ nl
  ++ "1. Incorrect hostname or IP address." ++ nl
  ++ "2. Wrong TCP port." ++ nl
  ++ "3. Intermediate firewall blocking access." ++ nl ++ nl
  ++ "Device settings: " ++ dev ++ " " ++ host ++ ":" ++ port
  ++ nl ++ nl.

Definition dns_failure_msg (host port : string) : string :=
  "DNS failure--the hostname you provided was not resolvable "
  ++ "in DNS: " ++ host ++ ":" ++ port.

Definition no_session_msg : string :=
  "Paramiko: 'No existing session' error: "
  ++ "try increasing 'conn_timeout' to 10 seconds or larger.".

Definition auth_failed_msg (dev host port : string) : string :=
  "Authentication to device failed." ++ nl ++ nl
  ++ "Common causes of this problem are:" ++ nl
  ++ "1. Invalid username and password" ++ nl
  ++ "2. Incorrect SSH-key file" ++ nl
  ++ "3. Connecting to the wrong device" ++ nl ++ nl
  ++ "Device settings: " ++ dev ++ " " ++ host ++ ":" ++ port
  ++ nl ++ nl.

(** [SSHChannel.establish_connection] *)
Definition establish_connection (width height : Z) : M t unit :=
  client <- _build_ssh_client false ;;
  self <- get_self ;;
  set_self (set_remote_conn_pre (Bound client) self) ;;;
  self <- get_self ;;
  let host := str_opt (hostname (ssh_params self)) in
  let port :=
    str_int (match port (ssh_params self) with
             | Some p => p
             | None => 22%Z
             end) in
  try_except
    (pre <- getattr_remote_conn_pre ;;
     call (connect pre (ssh_params self)))
    [ (is_socket_error, fun conn_error =>
         close ;;;
         let msg := tcp_failed_msg (device_type self) host port in
         let msg :=
           if contains "Name or service not known" (str_exn conn_error)
           then dns_failure_msg host port
           else msg in
         let msg := lstrip msg in
         raise (NetmikoTimeoutException msg));
      (is_SSHException, fun no_session_err =>
         close ;;;
         if contains "No existing session" (str_exn no_session_err)
         then raise (NetmikoTimeoutException no_session_msg)
         else raise no_session_err);
      (is_AuthenticationException, fun auth_err =>
         close ;;;
         let msg := auth_failed_msg (device_type self) host port in
         let msg := msg ++ nl ++ str_exn auth_err in
         raise (NetmikoAuthenticationException msg)) ] ;;;
  (* The [assert isinstance] that follows [invoke_shell] holds of every
     [ParamikoChannel]. *)
  pre <- getattr_remote_conn_pre ;;
  conn <- call (invoke_shell pre "vt100" width height) ;;
  self <- get_self ;;
  set_self (set_remote_conn (Bound (Some conn)) self) ;;;
  self <- get_self ;;
  effect (settimeout conn (blocking_timeout self)) ;;;
  if (keepalive self =? 0)%Z then ret tt
  else call (set_keepalive conn (keepalive self)).

(** [SSHChannel.login] *)
Definition login : M t unit := ret tt.

(** [SSHChannel.write_channel] *)
Definition write_channel : string -> M t unit :=
  log_writes (fun out_data =>
    conn <- getattr_remote_conn ;;
    self <- get_self ;;
    match conn with
    | Some c =>
        match write_bytes out_data (encoding self) with
        | Ok b => call (sendall c b)
        | Raise e => raise e
        end
    | None => ret tt
    end).

(** [SSHChannel.read_buffer] *)
Definition read_buffer : M t string :=
  log_reads (
    let output := "" in
    conn <- getattr_remote_conn ;;
    match conn with
    | Some c =>
        ready <- call' (recv_ready c) ;;
        if ready then
          outbuf <- call (recv c MAX_BUFFER) ;;
          if (length outbuf =? 0)%nat then
            raise (EOFError "Channel stream closed by remote device.")
          else ret (output ++ bytes_decode "utf-8" outbuf)
        else ret output
    | None => ret output
    end).

(** [SSHChannel.read_channel] *)
Definition read_channel (fuel : nat) : P t string :=
  output <~ while_true fuel
              (fun output => lift (
                 new_output <- read_buffer ;;
                 let output := output ++ new_output in
                 if (new_output =? "")%string then ret (Break output)
                 else ret (Continue output)))
              "" ;;
  let output := strip_ansi_escape_codes output in
  lift (ret output).

(** [SSHChannel.read_channel_expect] *)
Definition read_channel_expect (fuel : nat) (pattern : string)
    (timeout : Z) (re_flags : Z) : P t string :=
  Channel.read_channel_expect read_buffer fuel pattern timeout re_flags.

Definition final_delay : Q := 2.

(** One round of the loop of [read_channel_timing]. *)
Definition timing_body (fuel : nat) (delay_factor read_timeout : Q)
    (channel_data : string) : P t (ctl string string) :=
  _ <~ lift (effect
               (time_sleep (Channel.loop_sleep_time * delay_factor)%Q)) ;;
  new_data <~ read_channel fuel ;;
  next <~ (if negb (new_data =? "")%string
           then lift (ret (Continue (B := string)
                             (channel_data ++ new_data)))
           else
             _ <~ lift (effect
                          (time_sleep (final_delay * delay_factor)%Q)) ;;
             new_data <~ read_channel fuel ;;
             if (new_data =? "")%string
             then lift (ret (Break channel_data))
             else lift (ret (Continue (channel_data ++ new_data)))) ;;
  match next with
  | Break channel_data => lift (ret (Break channel_data))
  | Continue channel_data =>
      now <~ lift (call' time_time) ;;
      if Qgtb now read_timeout
      then lift (ret (Break channel_data))
      else lift (ret (Continue channel_data))
  end.

(** [SSHChannel.read_channel_timing] *)
Definition read_channel_timing (fuel : nat) (delay_factor : Q)
    (timeout : Z) : P t string :=
  now <~ lift (call' time_time) ;;
  let read_timeout := (now + inject_Z timeout)%Q in
  while_true fuel (timing_body fuel delay_factor read_timeout) "".

(** The world after a sleep of [d] seconds. *)
Definition slept (d : Q) (w : World t) : World t :=
  mkWorld (self w) (time_sleep d (env w)) (logged w).

(** [SSHChannel.is_alive] *)
Definition is_alive : M t bool :=
  let null := String zero EmptyString in
  conn <- getattr_remote_conn ;;
  match conn with
  | None =>
      log_error "Connection is not initialised, is_alive returns False" ;;;
      ret false
  | Some _ =>
      try_except
        (log_debug "Sending the NULL byte" ;;;
         write_channel null ;;;
         conn <- getattr_remote_conn ;;
         match conn with
         | Some c => call (transport_is_active c)
         | None =>
             raise (AttributeError
                      "'NoneType' object has no attribute 'transport'")
         end)
        [(fun e => is_socket_error e || is_EOFError e, fun _ =>
            log_error "Unable to send" ;;;
            ret false)]
  end.
End Defs.
End SSHChannel.

(** ** [class SerialChannel(Channel)] *)

Module SerialChannel.
Section Defs.
Context `{Library} `{Platform}.

Record t : Type := {
  protocol : string;
  serial_settings : list (string * string);
  device_type : string;
  remote_conn : option Serial;
  encoding : string;
  session_log : option SessionLog
}.

Definition set_remote_conn (c : option Serial) (s : t) : t :=
  {| protocol := protocol s; serial_settings := serial_settings s;
     device_type := device_type s; remote_conn := c;
     encoding := encoding s; session_log := session_log s |}.

#[global] Instance attrs : ChannelAttrs t :=
  {| get_session_log := session_log; get_encoding := encoding |}.

(** [SerialChannel.__init__] *)
Definition init (settings : list (string * string)) (dev : string)
    (enc : string) (slog : option SessionLog) : t :=
  {| protocol := "serial"; serial_settings := settings;
     device_type := dev; remote_conn := None; encoding := enc;
     session_log := slog |}.

(** [SerialChannel.close]: a [try] with [finally] and no [except]. *)
Definition close : M t unit :=
  try_finally
    (self <- get_self ;;
     match remote_conn self with
     | Some c => call (Serial_close c)
     | None => ret tt
     end)
    (self <- get_self ;; set_self (set_remote_conn None self)).

(** [SerialChannel.write_channel] *)
Definition write_channel : string -> M t unit :=
  log_writes (fun out_data =>
    self <- get_self ;;
    match remote_conn self with
    | Some c =>
        match write_bytes out_data (encoding self) with
        | Ok b => call (Serial_write c b) ;;; call (Serial_flush c)
        | Raise e => raise e
        end
    | None => ret tt
    end).

(** [SerialChannel.read_buffer] *)
Definition read_buffer : M t string := ret "".

(** [SerialChannel.read_channel_expect]: the body is [pass]. *)
Definition read_channel_expect (pattern : string) (timeout : Z)
    (re_flags : Z) : M t (option string) :=
  ret None.

(** [SerialChannel.read_channel_timing]: the body is [pass]. *)
Definition read_channel_timing (delay_factor : Q) (timeout : Z)
    : M t (option string) :=
  ret None.

(** [SerialChannel.is_alive]: the body is [pass], the call returns
    [None]. *)
Definition is_alive : M t (option bool) := ret None.
End Defs.
End SerialChannel.

(** ** A loop-back transport and sample libraries

    Instances of the two interfaces, on which the methods can be run.
    The transport is a loop-back: the bytes sent on the channel are the
    bytes it receives next, and [recv] takes at most the number of bytes
    it is asked for, as a socket does; once its end of stream is set, and
    nothing is
    left to receive, it is ready to be read and the read has no bytes (as
    a closed socket is).  The clock moves by sleeping only.  The session
    log is a list of the texts written to it. *)

Module Sim.

(** Sample codecs.  A [string] holds the characters U+0000..U+00FF, so
    the codecs are those of Python on the texts and byte strings that
    stay in that range; every other UTF-8 sequence is dropped. *)
Definition utf8_encode_char (c : ascii) : list byte :=
  let n := nat_of_ascii c in
  if (n <? 128)%nat then [byte_of_ascii c]
  else [byte_of_ascii (ascii_of_nat (192 + n / 64));
        byte_of_ascii (ascii_of_nat (128 + n mod 64))].

Definition is_ascii_char (c : ascii) : bool :=
  (nat_of_ascii c <? 128)%nat.

Definition is_continuation (b : byte) : bool :=
  let n := Byte.to_nat b in ((128 <=? n) && (n <? 192))%nat.

(** [b.decode("utf-8", "ignore")] *)
Fixpoint utf8_decode_ignore (b : list byte) : string :=
  match b with
  | [] => EmptyString
  | x :: r =>
      let n := Byte.to_nat x in
      if (n <? 128)%nat then String (ascii_of_byte x) (utf8_decode_ignore r)
      else if ((n =? 194) || (n =? 195))%nat then
        match r with
        | y :: r' =>
            if is_continuation y
            then String (ascii_of_nat ((n - 192) * 64
                                       + (Byte.to_nat y - 128)))
                        (utf8_decode_ignore r')
            else utf8_decode_ignore r
        | [] => EmptyString
        end
      else utf8_decode_ignore r
  end.

Definition chars (s : string) : list ascii := list_ascii_of_string s.

(** A sample of [write_bytes].  The function is in [netmiko.utilities],
    not in [channel.py]; the sample is what it does with a [str] on
    Python 3: UTF-8 when the encoding is named [utf-8], and for every
    other name ASCII, the characters outside ASCII being dropped.  With
    [py2] set it is the same call on Python 2, where a text with a
    character outside ASCII raises [UnicodeDecodeError]. *)
Definition sample_write_bytes (py2 : bool) (out_data enc : string)
    : result (list byte) :=
  if py2 && negb (forallb is_ascii_char (chars out_data)) then
    Raise (UnicodeDecodeError "'ascii' codec can't decode byte")
  else if (enc =? "utf-8")%string then
    Ok (flat_map utf8_encode_char (chars out_data))
  else Ok (map byte_of_ascii (filter is_ascii_char (chars out_data))).

(** [b.decode("utf-16-le", "ignore")]: two bytes make a character, the
    low byte first; a character outside the range of a [string] is
    dropped, and so is a last byte without its pair. *)
Fixpoint utf16le_decode_ignore (b : list byte) : string :=
  match b with
  | lo :: hi :: r =>
      if (Byte.to_nat hi =? 0)%nat
      then String (ascii_of_byte lo) (utf16le_decode_ignore r)
      else utf16le_decode_ignore r
  | _ => EmptyString
  end.

(** [b.decode(enc, "ignore")] for the codecs [utf-8], [ascii] and
    [utf-16-le]; every other name is read as [latin-1]. *)
Definition sample_bytes_decode (enc : string) (b : list byte) : string :=
  if (enc =? "utf-8")%string then utf8_decode_ignore b
  else if (enc =? "ascii")%string then
    string_of_list_ascii (filter is_ascii_char (map ascii_of_byte b))
  else if (enc =? "utf-16-le")%string then utf16le_decode_ignore b
  else string_of_list_ascii (map ascii_of_byte b).

(** A sample of [strip_ansi_escape_codes]: it removes the two erase-line
    codes, ESC[K and ESC[2K. *)
Fixpoint sample_strip (s : string) : string :=
  match s with
  | EmptyString => EmptyString
  | String c r =>
      if (nat_of_ascii c =? 27)%nat then
        match r with
        | String "[" (String "K" r') => sample_strip r'
        | String "[" (String "2" (String "K" r')) => sample_strip r'
        | _ => String c (sample_strip r)
        end
      else String c (sample_strip r)
  end.

(** [re.search] for a pattern without metacharacters: the pattern is
    searched as a substring. *)
Definition sample_re_search (pattern output : string) (flags : Z)
    : re_result :=
  if contains pattern output then Match else NoMatch.

Definition library (py2 : bool) (max_buffer : Z) : Library :=
  {| re_search := sample_re_search;
     strip_ansi_escape_codes := sample_strip;
     write_bytes := sample_write_bytes py2;
     bytes_decode := sample_bytes_decode;
     str_bytes := fun b => "b'" ++ string_of_list_byte b ++ "'";
     MAX_BUFFER := max_buffer |}.

Record t : Type := {
  now : Q;
  wire : list byte;
  eof : bool;
  slog : list string;
  slog_fin : bool;
  slog_record_writes : bool;
  connect_result : result unit
}.

Definition set_now (q : Q) (e : t) : t :=
  {| now := q; wire := wire e; eof := eof e; slog := slog e; slog_fin := slog_fin e;
     slog_record_writes := slog_record_writes e;
     connect_result := connect_result e |}.

Definition set_wire (b : list byte) (e : t) : t :=
  {| now := now e; wire := b; eof := eof e; slog := slog e; slog_fin := slog_fin e;
     slog_record_writes := slog_record_writes e;
     connect_result := connect_result e |}.

Definition set_slog (l : list string) (e : t) : t :=
  {| now := now e; wire := wire e; eof := eof e; slog := l; slog_fin := slog_fin e;
     slog_record_writes := slog_record_writes e;
     connect_result := connect_result e |}.

Definition set_eof (b : bool) (e : t) : t :=
  {| now := now e; wire := wire e; eof := b; slog := slog e;
     slog_fin := slog_fin e; slog_record_writes := slog_record_writes e;
     connect_result := connect_result e |}.

Definition is_nil {A} (l : list A) : bool :=
  match l with [] => true | _ => false end.

Definition platform : Platform :=
  {| Env := t;
     time_time := fun e => (now e, e);
     time_sleep := fun d e => set_now (now e + d)%Q e;
     path_isfile := fun _ _ => false;
     SessionLog := unit;
     SessionLog_fin := fun _ e => slog_fin e;
     SessionLog_record_writes := fun _ e => slog_record_writes e;
     SessionLog_write := fun _ s e => (Ok tt, set_slog (slog e ++ [s]) e);
     SSHClient := unit;
     SSHClient_new := fun _ e => (tt, e);
     load_system_host_keys := fun _ e => (Ok tt, e);
     load_host_keys := fun _ _ e => (Ok tt, e);
     set_missing_host_key_policy := fun _ _ e => e;
     connect := fun _ _ e => (connect_result e, e);
     SSHClient_close := fun _ e => (Ok tt, e);
     ParamikoChannel := unit;
     invoke_shell := fun _ _ _ _ e => (Ok tt, e);
     settimeout := fun _ _ e => e;
     set_keepalive := fun _ _ e => (Ok tt, e);
     recv_ready := fun _ e => (negb (is_nil (wire e)) || eof e, e);
     recv := fun _ n e =>
       (Ok (firstn (Z.to_nat n) (wire e)),
        set_wire (skipn (Z.to_nat n) (wire e)) e);
     sendall := fun _ b e => (Ok tt, set_wire (wire e ++ b) e);
     transport_is_active := fun _ e => (Ok true, e);
     Telnet := unit;
     Telnet_close := fun _ e => (Ok tt, e);
     Telnet_write := fun _ b e => (Ok tt, set_wire (wire e ++ b) e);
     Telnet_read_eager := fun _ e => (Ok (wire e), set_wire [] e);
     Telnet_read_very_eager := fun _ e => (Ok (wire e), set_wire [] e);
     Socket := unit;
     Telnet_get_socket := fun _ _ => Some tt;
     Socket_sendall := fun _ _ e => (Ok tt, e);
     Serial := unit;
     Serial_close := fun _ e => (Ok tt, e);
     Serial_write := fun _ b e => (Ok tt, set_wire (wire e ++ b) e);
     Serial_flush := fun _ e => (Ok tt, e) |}.

(** An environment at time 0 with [b] waiting on the wire. *)
Definition env0 (b : list byte) (fin rec : bool) (cr : result unit)
    : t :=
  {| now := 0; wire := b; eof := false; slog := []; slog_fin := fin;
     slog_record_writes := rec; connect_result := cr |}.

Definition bytes_of (s : string) : list byte := list_byte_of_string s.

(** An SSH channel object as [__init__] builds it. *)
Definition ssh0 (enc : string) (slog : option unit)
    : @SSHChannel.t platform :=
  @SSHChannel.init platform
    {| hostname := Some "rtr1"; port := None;
       blocking_timeout_kw := None; keepalive_kw := None;
       connect_kwargs := [] |}
    "cisco_ios" None enc slog false None.

(** The same object with the shell channel open. *)
Definition ssh_open (enc : string) (slog : option unit)
    : @SSHChannel.t platform :=
  @SSHChannel.set_remote_conn platform (Bound (Some tt))
    (@SSHChannel.set_remote_conn_pre platform (Bound tt) (ssh0 enc slog)).
(** The world of an object and an environment, with nothing logged. *)
Definition world {S : Type} (s : S) (e : t) : @World platform S :=
  @mkWorld platform S s e [].

(** An open SSH channel on which the text [login: more] is waiting. *)
Definition w_login : @World platform (@SSHChannel.t platform) :=
  world (ssh_open "ascii" None)
        (env0 (bytes_of "login: more") false false (Ok tt)).

(** The worlds in which the channel is open, the bytes [b] are waiting to
    be read and the stream has not ended. *)
Definition waiting (b : list byte)
    (w : @World platform (@SSHChannel.t platform)) : Prop :=
  SSHChannel.remote_conn (self w) = Bound (Some tt)
  /\ wire (env w) = b
  /\ eof (env w) = false.
End Sim.

(** ** Rounds of the loops and records of the session log *)

Section Rounds.
Context `{Library} `{Platform}.

(** The session log of the object [s], when there is one, takes [text]
    without an exception; [e'] is the outside world after that. *)
Definition recorded {S : Type} `{!ChannelAttrs S} (s : S) (text : string)
    (e e' : Env) : Prop :=
  match get_session_log s with
  | Some sl => SessionLog_write sl text e = (Ok tt, e')
  | None => e' = e
  end.

(** The text gathered and the world after [n] polls of
    [SSHChannel.read_channel] that all returned some text; [None] when one
    of them returned the empty string or raised. *)
Fixpoint read_channel_polls (n : nat) (output : string)
    (w : World SSHChannel.t) : option (string * World SSHChannel.t) :=
  match n with
  | O => Some (output, w)
  | Datatypes.S n' =>
      match SSHChannel.read_buffer w with
      | (Ok new_output, w') =>
          if (new_output =? "")%string then None
          else read_channel_polls n' (output ++ new_output) w'
      | (Raise _, _) => None
      end
  end.
End Rounds.

(** The rounds of [SSHChannel.read_channel_timing] *)

Section TimingRounds.
Context `{Library} `{Platform}.

(** The data gathered and the world after [n] rounds of the loop of
    [read_channel_timing] that all went round again; [None] when one of
    them ended the loop, raised, or ran out of fuel. *)
Fixpoint timing_rounds (n fuel : nat) (delay_factor read_timeout : Q)
    (channel_data : string) (w : World SSHChannel.t)
    : option (string * World SSHChannel.t) :=
  match n with
  | O => Some (channel_data, w)
  | Datatypes.S n' =>
      match SSHChannel.timing_body fuel delay_factor read_timeout
              channel_data w with
      | Some (Ok (Continue channel_data'), w') =>
          timing_rounds n' fuel delay_factor read_timeout channel_data' w'
      | _ => None
      end
  end.
End TimingRounds.

(** The rounds of [Channel.read_channel_expect] *)

Section ExpectRounds.
Context `{Library} `{Platform} {S : Type}.
Variable read_buffer : M S string.

(** [n] rounds of the loop of [read_channel_expect] that find nothing, in
    the words of the loop: the poll returns a text without an exception,
    [re.search] finds no match in the text gathered so far, the clock
    read after that is not past the deadline, and the round sleeps
    [loop_sleep_time]; the next round starts with the text gathered and in
    the world after the sleep. *)
Fixpoint polled_without_match (n : nat) (pattern : string) (re_flags : Z)
    (read_timeout : Q) (output : string) (w : World S) : Prop :=
  match n with
  | O => True
  | Datatypes.S n' =>
      exists new w1,
        read_buffer w = (Ok new, w1)
        /\ re_search pattern (output ++ new) re_flags = NoMatch
        /\ (fst (time_time (env w1)) <= read_timeout)%Q
        /\ polled_without_match n' pattern re_flags read_timeout
             (output ++ new)
             (mkWorld (self w1)
                (time_sleep Channel.loop_sleep_time
                   (snd (time_time (env w1))))
                (logged w1))
  end.
End ExpectRounds.

(** ** [SerialChannel]: the methods that open and read the port *)

(** What [SerialChannel.establish_connection] and
    [SerialChannel.read_channel] use of pyserial: the constructor
    [serial.Serial], the property [in_waiting] and the method [read]. *)
Class SerialPort `{Platform} : Type := {
  Serial_new : list (string * string) -> Env -> result Serial * Env;
  Serial_in_waiting : Serial -> Env -> Z;
  Serial_read : Serial -> Z -> Env -> result (list byte) * Env
}.

Module SerialChannelIO.
Section Defs.
Context `{Library} `{Platform} `{!SerialPort}.

(** [SerialChannel.login]: the body is [pass]. *)
Definition login : M SerialChannel.t unit := ret tt.

(** [SerialChannel.establish_connection] *)
Definition establish_connection (width height : Z)
    : M SerialChannel.t unit :=
  self <- get_self ;;
  conn <- call (Serial_new (SerialChannel.serial_settings self)) ;;
  self <- get_self ;;
  set_self (SerialChannel.set_remote_conn (Some conn) self) ;;;
  login.

(** One test of the condition of the [while] of [read_channel], and one
    round of its body. *)
Definition read_channel_round (c : Serial) (output : string)
    : M SerialChannel.t (ctl string string) :=
  in_waiting <- ask (Serial_in_waiting c) ;;
  if (0 <? in_waiting)%Z then
    in_waiting <- ask (Serial_in_waiting c) ;;
    b <- call (Serial_read c in_waiting) ;;
    ret (Continue (output ++ bytes_decode "utf-8" b))
  else ret (Break output).

(** The function under the decorators of [read_channel]. *)
Definition read_channel_raw (fuel : nat) : P SerialChannel.t string :=
  let output := "" in
  self <~ lift get_self ;;
  match SerialChannel.remote_conn self with
  | None => lift (ret output)
  | Some c =>
      while_true fuel (fun output => lift (read_channel_round c output))
        output
  end.

(** [SerialChannel.read_channel], under [log_reads] and [ansi_strip]. *)
Definition read_channel (fuel : nat) : P SerialChannel.t string :=
  output <~ read_channel_raw fuel ;;
  lift (ansi_strip (log_reads (ret output))).
End Defs.
End SerialChannelIO.

(** ** More sample libraries *)

Module Samples.

(** [re.search] as in [Sim], for a library in which the pattern of one
    open parenthesis does not compile, as in Python. *)
Definition strict_re_search (pattern output : string) (flags : Z)
    : re_result :=
  if (pattern =? "(")%string
  then ReError "missing ), unterminated subpattern at position 0"
  else Sim.sample_re_search pattern output flags.

Definition strict_library (max_buffer : Z) : Library :=
  {| re_search := strict_re_search;
     strip_ansi_escape_codes := Sim.sample_strip;
     write_bytes := Sim.sample_write_bytes false;
     bytes_decode := Sim.sample_bytes_decode;
     str_bytes := fun b => "b'" ++ string_of_list_byte b ++ "'";
     MAX_BUFFER := max_buffer |}.

(** The loop-back platform with faults: the calls named in [faults]
    raise, the Telnet object has no socket, the peer never stops
    sending. *)
Record faults : Type := {
  shell_fails : bool;
  sendall_fails : bool;
  client_close_fails : bool;
  telnet_close_fails : bool;
  no_socket : bool;
  socket_send_fails : bool;
  serial_close_fails : bool;
  chatty : bool;
  sendall_times_out : bool
}.

Definition no_faults : faults :=
  {| shell_fails := false; sendall_fails := false;
     client_close_fails := false; telnet_close_fails := false;
     no_socket := false; socket_send_fails := false;
     serial_close_fails := false; chatty := false; sendall_times_out := false |}.

Definition shell_fault : faults :=
  {| shell_fails := true; sendall_fails := false;
     client_close_fails := false; telnet_close_fails := false;
     no_socket := false; socket_send_fails := false;
     serial_close_fails := false; chatty := false; sendall_times_out := false |}.

Definition sendall_fault : faults :=
  {| shell_fails := false; sendall_fails := true;
     client_close_fails := false; telnet_close_fails := false;
     no_socket := false; socket_send_fails := false;
     serial_close_fails := false; chatty := false; sendall_times_out := false |}.

Definition client_close_fault : faults :=
  {| shell_fails := false; sendall_fails := false;
     client_close_fails := true; telnet_close_fails := false;
     no_socket := false; socket_send_fails := false;
     serial_close_fails := false; chatty := false; sendall_times_out := false |}.

Definition no_socket_fault : faults :=
  {| shell_fails := false; sendall_fails := false;
     client_close_fails := false; telnet_close_fails := false;
     no_socket := true; socket_send_fails := false;
     serial_close_fails := false; chatty := false; sendall_times_out := false |}.

Definition socket_send_fault : faults :=
  {| shell_fails := false; sendall_fails := false;
     client_close_fails := false; telnet_close_fails := false;
     no_socket := false; socket_send_fails := true;
     serial_close_fails := false; chatty := false; sendall_times_out := false |}.

(** A channel on which [sendall] runs into the timeout: paramiko raises
    [socket.timeout], a subclass of [OSError]. *)
Definition sendall_timeout_fault : faults :=
  {| shell_fails := false; sendall_fails := false;
     client_close_fails := false; telnet_close_fails := false;
     no_socket := false; socket_send_fails := false;
     serial_close_fails := false; chatty := false;
     sendall_times_out := true |}.

(** A peer that never stops sending: the channel is always ready, and
    every [recv] has the letter [a]. *)
Definition chatty_peer : faults :=
  {| shell_fails := false; sendall_fails := false;
     client_close_fails := false; telnet_close_fails := false;
     no_socket := false; socket_send_fails := false;
     serial_close_fails := false; chatty := true; sendall_times_out := false |}.

(** [BrokenPipeError] and [socket.timeout], of the standard library, and
    [serial.SerialException], of pyserial: all three are subclasses of
    [OSError]. *)
Definition BrokenPipeError : exn :=
  OtherException "BrokenPipeError" ["ConnectionError"; "OSError"; "Exception"]
    "[Errno 32] Broken pipe".

Definition socket_timeout : exn :=
  OtherException "timeout" ["OSError"; "Exception"] "timed out".

Definition SerialException (msg : string) : exn :=
  OtherException "SerialException" ["OSError"; "Exception"] msg.

Definition failing (b : bool) (x : exn) (e : Sim.t) (ok : result unit * Sim.t)
    : result unit * Sim.t :=
  if b then (Raise x, e) else ok.

Definition platform (f : faults) : Platform :=
  {| Env := Sim.t;
     time_time := @time_time Sim.platform;
     time_sleep := @time_sleep Sim.platform;
     path_isfile := @path_isfile Sim.platform;
     SessionLog := unit;
     SessionLog_fin := @SessionLog_fin Sim.platform;
     SessionLog_record_writes := @SessionLog_record_writes Sim.platform;
     SessionLog_write := @SessionLog_write Sim.platform;
     SSHClient := unit;
     SSHClient_new := @SSHClient_new Sim.platform;
     load_system_host_keys := @load_system_host_keys Sim.platform;
     load_host_keys := @load_host_keys Sim.platform;
     set_missing_host_key_policy :=
       @set_missing_host_key_policy Sim.platform;
     connect := @connect Sim.platform;
     SSHClient_close := fun c e =>
       failing (client_close_fails f) (socket_error "close")
         e (@SSHClient_close Sim.platform c e);
     ParamikoChannel := unit;
     invoke_shell := fun c term width height e =>
       failing (shell_fails f) (SSHException "Channel closed.")
         e (@invoke_shell Sim.platform c term width height e);
     settimeout := @settimeout Sim.platform;
     set_keepalive := @set_keepalive Sim.platform;
     recv_ready := fun c e =>
       if chatty f then (true, e) else @recv_ready Sim.platform c e;
     recv := fun c n e =>
       if chatty f then (Ok [x61], e) else @recv Sim.platform c n e;
     sendall := fun c b e =>
       failing (sendall_times_out f) socket_timeout e
         (failing (sendall_fails f) (socket_error "Socket is closed")
            e (@sendall Sim.platform c b e));
     transport_is_active := @transport_is_active Sim.platform;
     Telnet := unit;
     Telnet_close := fun c e =>
       failing (telnet_close_fails f) (socket_error "close")
         e (@Telnet_close Sim.platform c e);
     Telnet_write := @Telnet_write Sim.platform;
     Telnet_read_eager := @Telnet_read_eager Sim.platform;
     Telnet_read_very_eager := @Telnet_read_very_eager Sim.platform;
     Socket := unit;
     Telnet_get_socket := fun c e =>
       if no_socket f then None else Some tt;
     Socket_sendall := fun sk b e =>
       failing (socket_send_fails f)
         BrokenPipeError
         e (@Socket_sendall Sim.platform sk b e);
     Serial := unit;
     Serial_close := fun c e =>
       failing (serial_close_fails f)
         (SerialException "close")
         e (@Serial_close Sim.platform c e);
     Serial_write := @Serial_write Sim.platform;
     Serial_flush := @Serial_flush Sim.platform |}.

(** The serial port of the loop-back platform: the bytes on the wire are
    the bytes waiting; a port that is [busy] cannot be opened. *)
Definition serial_port (f : faults) (busy : bool)
    : @SerialPort (platform f) :=
  @Build_SerialPort (platform f)
    (fun _ (e : Sim.t) =>
       if busy
       then (Raise (SerialException "could not open port"), e)
       else (Ok tt, e))
    (fun _ (e : Sim.t) => Z.of_nat (length (Sim.wire e)))
    (fun _ n (e : Sim.t) =>
       (Ok (firstn (Z.to_nat n) (Sim.wire e)),
        Sim.set_wire (skipn (Z.to_nat n) (Sim.wire e)) e)).

(** Objects as [__init__] builds them, on the platform with faults. *)
Definition ssh0 (f : faults) (enc : string) (slog : option unit)
    : @SSHChannel.t (platform f) :=
  @SSHChannel.init (platform f)
    {| hostname := Some "rtr1"; port := None;
       blocking_timeout_kw := None; keepalive_kw := None;
       connect_kwargs := [] |}
    "cisco_ios" None enc slog false None.

Definition ssh_open (f : faults) (enc : string) (slog : option unit)
    : @SSHChannel.t (platform f) :=
  @SSHChannel.set_remote_conn (platform f) (Bound (Some tt))
    (@SSHChannel.set_remote_conn_pre (platform f) (Bound tt)
       (ssh0 f enc slog)).

(** An SSH channel object built with host-key arguments. *)
Definition ssh_with (args : ssh_hostkey_args_t)
    : @SSHChannel.t Sim.platform :=
  @SSHChannel.init Sim.platform
    {| hostname := Some "rtr1"; port := None;
       blocking_timeout_kw := None; keepalive_kw := None;
       connect_kwargs := [] |}
    "cisco_ios" (Some args) "ascii" None false None.

Definition telnet0 (f : faults) (slog : option unit)
    : @TelnetChannel.t (platform f) :=
  @TelnetChannel.init (platform f)
    {| tp_hostname := "rtr1"; tp_port := None; tp_username := "admin";
       tp_password := "secret"; tp_timeout := 10 |}
    "cisco_ios_telnet" "ascii" slog.

Definition telnet_open (f : faults) (slog : option unit)
    : @TelnetChannel.t (platform f) :=
  @TelnetChannel.set_remote_conn (platform f) (Some tt) (telnet0 f slog).

Definition serial0 (f : faults) : @SerialChannel.t (platform f) :=
  @SerialChannel.init (platform f) [("port", "/dev/ttyUSB0")]
    "cisco_ios_serial" "ascii" None.

Definition serial_open (f : faults) : @SerialChannel.t (platform f) :=
  @SerialChannel.set_remote_conn (platform f) (Some tt) (serial0 f).

Definition world (f : faults) {S : Type} (s : S) (e : Sim.t)
    : @World (platform f) S :=
  @mkWorld (platform f) S s e [].

(** An environment in which nothing is waiting. *)
Definition idle : Sim.t := Sim.env0 [] false false (Ok tt).

(** The letter [a] and the character U+0000. *)
Definition text_a_nul : string := String "a" (String zero "").

(** The text [show] and the escape code that erases to the end of the
    line. *)
Definition text_erase : string :=
  "show" ++ String (ascii_of_nat 27) "[K".

(** 65534 letters [a] and the character U+00E9: in UTF-8, one byte more
    than the 65535 bytes of netmiko's [MAX_BUFFER]. *)
Definition text_long : string :=
  string_of_list_ascii (repeat "a"%char (N.to_nat 65534))
  ++ String (ascii_of_nat 233) "".

(** An open SSH channel on which the byte E9 and the letter [a] are
    waiting. *)
Definition w_e9_a : @World Sim.platform (@SSHChannel.t Sim.platform) :=
  Sim.world (Sim.ssh_open "ascii" (Some tt))
    (Sim.env0 [xe9; x61] false false (Ok tt)).

(** An open SSH channel on which the text [logi] is waiting and the
    stream has ended. *)
Definition w_closing : @World Sim.platform (@SSHChannel.t Sim.platform) :=
  Sim.world (Sim.ssh_open "ascii" None)
    (Sim.set_eof true
       (Sim.env0 (Sim.bytes_of "logi") false false (Ok tt))).
End Samples.

(** * Properties *)

(** ** Strings and seconds *)

Lemma prefix_app (t b : string) : String.prefix t (t ++ b) = true.
Proof.
  induction t as [|c t IH]; simpl.
  - destruct b; reflexivity.
  - destruct (ascii_dec c c) as [_|ne]; [exact IH | now elim ne].
Qed.

Lemma append_assoc (a b c : string) : (a ++ b) ++ c = a ++ b ++ c.
Proof.
  induction a as [|x a IH]; cbn [append]; [reflexivity | now rewrite IH].
Qed.

Lemma contains_prefix (t h : string) :
  String.prefix t h = true -> contains t h = true.
Proof.
  intro Hp. destruct h; cbn [contains]; rewrite Hp; reflexivity.
Qed.

Lemma contains_infix (a t b : string) : contains t (a ++ t ++ b) = true.
Proof.
  induction a as [|c a IH].
  - apply contains_prefix. cbn [append]. apply prefix_app.
  - change (String c a ++ t ++ b) with (String c (a ++ t ++ b)).
    cbn [contains]. rewrite IH. apply orb_true_r.
Qed.

Lemma append_nil_r (s : string) : s ++ "" = s.
Proof.
  induction s as [|c s IH]; cbn [append]; [reflexivity | now rewrite IH].
Qed.

Lemma contains_refl (t : string) : contains t t = true.
Proof.
  apply contains_prefix. rewrite <- (append_nil_r t) at 2. apply prefix_app.
Qed.

Lemma contains_app_r (a t s : string) :
  contains t s = true -> contains t (a ++ s) = true.
Proof.
  intro Hs. induction a as [|c a IH]; cbn [append]; [exact Hs|].
  cbn [contains]. rewrite IH. apply orb_true_r.
Qed.

Lemma prefix_nil (s : string) : String.prefix "" s = true.
Proof. destruct s; reflexivity. Qed.

Lemma prefix_app_l (t s b : string) :
  String.prefix t s = true -> String.prefix t (s ++ b) = true.
Proof.
  revert t. induction s as [|c s IH]; intros [|d t] Hp;
    try apply prefix_nil; try discriminate Hp.
  cbn [append String.prefix]. cbn [String.prefix] in Hp.
  destruct (ascii_dec d c); [now apply IH | discriminate].
Qed.

Lemma contains_app_l (t s b : string) :
  contains t s = true -> contains t (s ++ b) = true.
Proof.
  induction s as [|c s IH]; intros Hs.
  - apply contains_prefix. apply prefix_app_l.
    cbn [contains] in Hs. now rewrite orb_false_r in Hs.
  - cbn [append contains]. cbn [contains] in Hs.
    apply orb_true_iff in Hs. apply orb_true_iff.
    destruct Hs as [Hp|Hs].
    + left. exact (prefix_app_l _ (String c s) b Hp).
    + right. now apply IH.
Qed.

Lemma Qgtb_true (a b : Q) : Qgtb a b = true <-> (b < a)%Q.
Proof.
  unfold Qgtb. rewrite negb_true_iff. split; intro Hab.
  - apply Qnot_le_lt. intro Hle. apply Qle_bool_iff in Hle. congruence.
  - destruct (Qle_bool a b) eqn:E; [|reflexivity].
    apply Qle_bool_iff in E. exfalso. exact (Qlt_not_le _ _ Hab E).
Qed.

Lemma Qgtb_false (a b : Q) : Qgtb a b = false <-> (a <= b)%Q.
Proof.
  unfold Qgtb. rewrite negb_false_iff. apply Qle_bool_iff.
Qed.

(** ** The pattern read *)

Section ExpectProofs.
Context `{Library} `{Platform} {S : Type}.
Variable read_buffer : M S string.

Abbreviation expect_body := (Channel.expect_body read_buffer).
Abbreviation quiet_polls := (Channel.quiet_polls read_buffer).
Abbreviation read_channel_expect := (Channel.read_channel_expect read_buffer).

(** A round in which the poll completes the pattern leaves the loop,
    without reading the clock. *)
Lemma expect_body_match pattern re_flags read_timeout output w new w' :
  read_buffer w = (Ok new, w') ->
  re_search pattern (output ++ new) re_flags = Match ->
  expect_body pattern re_flags read_timeout output w
  = (Ok (Break (output ++ new)), w').
Proof.
  intros Hrd Hre. unfold Channel.expect_body, bind.
  rewrite Hrd, Hre. reflexivity.
Qed.

(** A round without a match, after the deadline, raises. *)
Lemma expect_body_deadline pattern re_flags read_timeout output w new w'
    now e' :
  read_buffer w = (Ok new, w') ->
  re_search pattern (output ++ new) re_flags = NoMatch ->
  time_time (env w') = (now, e') ->
  (read_timeout < now)%Q ->
  expect_body pattern re_flags read_timeout output w
  = (Raise (NetmikoTimeoutException
              (Channel.timeout_msg pattern
                 (strip_ansi_escape_codes (output ++ new)))),
     mkWorld (self w') e' (logged w')).
Proof.
  intros Hrd Hre Ht Hlt. unfold Channel.expect_body, bind, call'.
  rewrite Hrd, Hre, Ht.
  apply Qgtb_true in Hlt. rewrite Hlt. reflexivity.
Qed.

(** What a round that raised the time-out exception after a successful
    poll has seen. *)
Lemma expect_body_timeout_inv pattern re_flags read_timeout output w new
    w' msg w'' :
  read_buffer w = (Ok new, w') ->
  expect_body pattern re_flags read_timeout output w
  = (Raise (NetmikoTimeoutException msg), w'') ->
  re_search pattern (output ++ new) re_flags = NoMatch
  /\ (read_timeout < fst (time_time (env w')))%Q.
Proof.
  intros Hrd. unfold Channel.expect_body, bind, call', effect, ret, raise.
  rewrite Hrd.
  destruct (re_search pattern (output ++ new) re_flags) eqn:Hre;
    try discriminate.
  destruct (time_time (env w')) as [now e'] eqn:Ht.
  destruct (Qgtb now read_timeout) eqn:Hgt; try discriminate.
  intros _. split; [reflexivity|]. now apply Qgtb_true.
Qed.

(** A round that goes round again has polled, found no match in the
    accumulated text, and read a clock that is not past the deadline. *)
Lemma expect_body_continue_inv pattern re_flags read_timeout output w
    output' w' :
  expect_body pattern re_flags read_timeout output w
  = (Ok (Continue output'), w') ->
  exists new w1,
    read_buffer w = (Ok new, w1)
    /\ output' = output ++ new
    /\ re_search pattern output' re_flags = NoMatch
    /\ (fst (time_time (env w1)) <= read_timeout)%Q.
Proof.
  unfold Channel.expect_body, bind, call', effect, ret, raise.
  destruct (read_buffer w) as [[new|x] w1]; [|discriminate].
  destruct (re_search pattern (output ++ new) re_flags) eqn:Hre;
    try discriminate.
  destruct (time_time (env w1)) as [now e'] eqn:Ht.
  destruct (Qgtb now read_timeout) eqn:Hgt; [discriminate|].
  intros [= <- <-]. exists new, w1.
  split; [reflexivity|]. split; [reflexivity|]. split; [exact Hre|].
  rewrite Ht. cbn [fst]. exact (proj1 (Qgtb_false _ _) Hgt).
Qed.

(** In [n] rounds that all went round again, the pattern was in none of
    the accumulated texts. *)
Lemma quiet_polls_no_match n pattern re_flags read_timeout :
  forall output w output' w',
    quiet_polls n pattern re_flags read_timeout output w
    = Some (output', w') ->
    forall k, (k < n)%nat ->
    exists outk wk,
      quiet_polls (Datatypes.S k) pattern re_flags read_timeout output w
      = Some (outk, wk)
      /\ re_search pattern outk re_flags = NoMatch.
Proof.
  induction n as [|n IH]; intros output w output' w' Hq k Hk; [lia|].
  cbn [Channel.quiet_polls] in Hq.
  destruct (expect_body pattern re_flags read_timeout output w)
    as [[[b|o1]|x] w1] eqn:Hbody; try discriminate.
  destruct k as [|k].
  - exists o1, w1. cbn [Channel.quiet_polls]. rewrite Hbody.
    split; [reflexivity|].
    destruct (expect_body_continue_inv _ _ _ _ _ Hbody)
      as (new & w2 & _ & _ & Hre & _).
    exact Hre.
  - destruct (IH _ _ _ _ Hq k ltac:(lia)) as (outk & wk & Hqk & Hre).
    exists outk, wk. split; [|exact Hre].
    change (quiet_polls (Datatypes.S (Datatypes.S k)) pattern re_flags
              read_timeout output w)
      with (match expect_body pattern re_flags read_timeout output w with
            | (Ok (Continue o), w0) =>
                quiet_polls (Datatypes.S k) pattern re_flags read_timeout
                  o w0
            | _ => None
            end).
    rewrite Hbody. exact Hqk.
Qed.

(** The rounds that go round again are skipped by the loop. *)
Lemma while_true_quiet n pattern re_flags read_timeout :
  forall output w output' w' fuel,
    quiet_polls n pattern re_flags read_timeout output w
    = Some (output', w') ->
    while_true (n + fuel)
      (fun o => lift (expect_body pattern re_flags read_timeout o))
      output w
    = while_true fuel
        (fun o => lift (expect_body pattern re_flags read_timeout o))
        output' w'.
Proof.
  induction n as [|n IH]; intros output w output' w' fuel Hq.
  - simpl in Hq. injection Hq as -> ->. reflexivity.
  - simpl in Hq. cbn [Nat.add while_true]. unfold lift at 1.
    destruct (expect_body pattern re_flags read_timeout output w)
      as [[[b|a]|e] w1]; try discriminate.
    now apply IH.
Qed.

(** The loop of the pattern read, from the world in which it is entered,
    when round [n+1] ends it with [r]. *)
Lemma expect_loop_ends pattern re_flags read_timeout n output wn r w' :
  forall w0 fuel,
    quiet_polls n pattern re_flags read_timeout "" w0 = Some (output, wn) ->
    (n < fuel)%nat ->
    (expect_body pattern re_flags read_timeout output wn = (r, w')) ->
    (forall a, r <> Ok (Continue a)) ->
    while_true fuel
      (fun o => lift (expect_body pattern re_flags read_timeout o)) "" w0
    = Some (match r with
            | Ok (Break b) => Ok b
            | Ok (Continue a) => Ok a
            | Raise e => Raise e
            end, w').
Proof.
  intros w0 fuel Hq Hlt Hbody Hr.
  replace fuel with (n + Datatypes.S (fuel - Datatypes.S n))%nat by lia.
  rewrite while_true_quiet with (1 := Hq).
  cbn [while_true]. unfold lift at 1. rewrite Hbody.
  destruct r as [[b|a]|e]; try reflexivity.
  now elim (Hr a).
Qed.
(** The prologue of [read_channel_expect] followed by its loop. *)
Lemma read_channel_expect_unfold fuel pattern timeout re_flags w t0 w0 :
  Channel.expect_start pattern w = (t0, w0) ->
  read_channel_expect fuel pattern timeout re_flags w
  = match while_true fuel
            (fun o => lift (expect_body pattern re_flags
                              (t0 + inject_Z timeout)%Q o)) "" w0 with
    | None => None
    | Some (Raise e, w') => Some (Raise e, w')
    | Some (Ok output, w') =>
        Some (Ok (strip_ansi_escape_codes output),
              mkWorld (self w') (env w')
                (logged w'
                 ++ ["Pattern found: " ++ pattern ++ " "
                     ++ strip_ansi_escape_codes output]))
    end.
Proof.
  unfold Channel.expect_start, Channel.read_channel_expect.
  unfold bindP, lift, log_debug, call', ret. cbn [self env logged].
  destruct (time_time (env w)) as [now e] eqn:Ht.
  intros [= <- <-].
  destruct (while_true fuel _ "" _) as [[[output|e'] w']|]; reflexivity.
Qed.

(** C1. [read_channel_expect] returns at the first round of its loop in
    which [re.search] finds the pattern in the accumulated text: after
    [n] rounds without a match, a poll that completes the pattern ends the
    call.  Nothing is read after that poll (the world is the one the poll
    left, with one more record of the logger), and the value returned is
    the accumulated text with the escape codes stripped. *)
Theorem read_channel_expect_returns_on_first_match
    pattern timeout re_flags w t0 w0 n output wn new w' fuel :
  Channel.expect_start pattern w = (t0, w0) ->
  quiet_polls n pattern re_flags (t0 + inject_Z timeout)%Q "" w0
  = Some (output, wn) ->
  read_buffer wn = (Ok new, w') ->
  re_search pattern (output ++ new) re_flags = Match ->
  (n < fuel)%nat ->
  read_channel_expect fuel pattern timeout re_flags w
  = Some (Ok (strip_ansi_escape_codes (output ++ new)),
          mkWorld (self w') (env w')
            (logged w'
             ++ ["Pattern found: " ++ pattern ++ " "
                 ++ strip_ansi_escape_codes (output ++ new)])).
Proof.
  intros Hstart Hq Hrd Hre Hfuel.
  rewrite read_channel_expect_unfold with (1 := Hstart).
  assert (Hb : expect_body pattern re_flags (t0 + inject_Z timeout)%Q
                 output wn = (Ok (Break (output ++ new)), w'))
    by (apply expect_body_match; assumption).
  rewrite expect_loop_ends with (1 := Hq) (2 := Hfuel) (3 := Hb).
  - reflexivity.
  - intros a; discriminate.
Qed.

(** C2. When a round of the loop of [read_channel_expect] finds no match
    and the clock is past the deadline, the call raises
    [NetmikoTimeoutException]; the message contains the pattern and the
    text accumulated so far with the escape codes stripped. *)
Theorem read_channel_expect_deadline_raises
    pattern timeout re_flags w t0 w0 n output wn new w' now e' fuel :
  Channel.expect_start pattern w = (t0, w0) ->
  quiet_polls n pattern re_flags (t0 + inject_Z timeout)%Q "" w0
  = Some (output, wn) ->
  read_buffer wn = (Ok new, w') ->
  re_search pattern (output ++ new) re_flags = NoMatch ->
  time_time (env w') = (now, e') ->
  (t0 + inject_Z timeout < now)%Q ->
  (n < fuel)%nat ->
  exists msg,
    read_channel_expect fuel pattern timeout re_flags w
    = Some (Raise (NetmikoTimeoutException msg),
            mkWorld (self w') e' (logged w'))
    /\ contains pattern msg = true
    /\ contains (strip_ansi_escape_codes (output ++ new)) msg = true.
Proof.
  intros Hstart Hq Hrd Hre Ht Hlt Hfuel.
  exists (Channel.timeout_msg pattern
            (strip_ansi_escape_codes (output ++ new))).
  split; [|split].
  - rewrite read_channel_expect_unfold with (1 := Hstart).
    assert (Hb : expect_body pattern re_flags (t0 + inject_Z timeout)%Q
                   output wn
                 = (Raise (NetmikoTimeoutException
                             (Channel.timeout_msg pattern
                                (strip_ansi_escape_codes (output ++ new)))),
                    mkWorld (self w') e' (logged w')))
      by (apply expect_body_deadline with (now := now); assumption).
    rewrite expect_loop_ends with (1 := Hq) (2 := Hfuel) (3 := Hb).
    + reflexivity.
    + intros a; discriminate.
  - unfold Channel.timeout_msg.
    set (head := "Timed-out reading channel, pattern not found in output: ").
    replace (nl ++ nl ++ head ++ pattern ++ nl
             ++ "Data retrieved before timeout:" ++ nl ++ nl
             ++ strip_ansi_escape_codes (output ++ new) ++ nl ++ nl)
      with ((nl ++ nl ++ head) ++ pattern ++ nl
            ++ "Data retrieved before timeout:" ++ nl ++ nl
            ++ strip_ansi_escape_codes (output ++ new) ++ nl ++ nl)
      by reflexivity.
    apply contains_infix.
  - unfold Channel.timeout_msg.
    set (head := nl ++ nl
                 ++ "Timed-out reading channel, pattern not found in output: ").
    set (mid := nl ++ "Data retrieved before timeout:" ++ nl ++ nl).
    replace (nl ++ nl
             ++ "Timed-out reading channel, pattern not found in output: "
             ++ pattern ++ nl ++ "Data retrieved before timeout:" ++ nl ++ nl
             ++ strip_ansi_escape_codes (output ++ new) ++ nl ++ nl)
      with ((head ++ pattern ++ mid)
            ++ strip_ansi_escape_codes (output ++ new) ++ nl ++ nl).
    + apply contains_infix.
    + subst head mid. rewrite !append_assoc. reflexivity.
Qed.

(** C9. In a round of the loop of [read_channel_expect] the pattern is
    tested before the deadline.  A poll that completes the pattern makes
    the call return, also when the clock is already past the deadline;
    and a round that raises the time-out exception has tested the pattern
    on the accumulated text and found no match. *)
Theorem read_channel_expect_match_before_deadline
    pattern timeout re_flags w t0 w0 n output wn new w' :
  Channel.expect_start pattern w = (t0, w0) ->
  quiet_polls n pattern re_flags (t0 + inject_Z timeout)%Q "" w0
  = Some (output, wn) ->
  read_buffer wn = (Ok new, w') ->
  (re_search pattern (output ++ new) re_flags = Match ->
   (t0 + inject_Z timeout < fst (time_time (env w')))%Q ->
   forall fuel, (n < fuel)%nat ->
   exists w'',
     read_channel_expect fuel pattern timeout re_flags w
     = Some (Ok (strip_ansi_escape_codes (output ++ new)), w''))
  /\ (forall msg w'',
        expect_body pattern re_flags (t0 + inject_Z timeout)%Q output wn
        = (Raise (NetmikoTimeoutException msg), w'') ->
        re_search pattern (output ++ new) re_flags = NoMatch
        /\ (t0 + inject_Z timeout < fst (time_time (env w')))%Q).
Proof.
  intros Hstart Hq Hrd. split.
  - intros Hre _ fuel Hfuel. eexists.
    rewrite read_channel_expect_unfold with (1 := Hstart).
    assert (Hb : expect_body pattern re_flags (t0 + inject_Z timeout)%Q
                   output wn = (Ok (Break (output ++ new)), w'))
      by (apply expect_body_match; assumption).
    rewrite expect_loop_ends with (1 := Hq) (2 := Hfuel) (3 := Hb).
    + reflexivity.
    + intros a; discriminate.
  - intros msg w'' Hbody.
    eapply expect_body_timeout_inv; eassumption.
Qed.
End ExpectProofs.

(** On the loop-back transport, with reads of at most four bytes, the text
    [login: more] is waiting.  The pattern [in:] is complete after the
    second read; the call returns then and the bytes [ore] stay unread. *)
Lemma read_channel_expect_returns_on_first_match_witness :
  exists w',
    @SSHChannel.read_channel_expect (Sim.library false 4) Sim.platform
      2 "in:" 10 0 Sim.w_login
    = Some (Ok "login: m", w')
    /\ Sim.wire (env w') = Sim.bytes_of "ore".
Proof.
  eexists. split.
  - unfold SSHChannel.read_channel_expect.
    erewrite read_channel_expect_returns_on_first_match with (n := 1%nat);
      cycle 1.
    + reflexivity.
    + vm_compute. reflexivity.
    + vm_compute. reflexivity.
    + reflexivity.
    + lia.
    + vm_compute. reflexivity.
  - reflexivity.
Defined.

(** Premises of a theorem at a sample input, decided by evaluation. *)
Ltac by_evaluation :=
  first [lia | vm_compute; first [reflexivity | discriminate]].

(** With a timeout of 0 seconds the pattern [zz] is not found: the second
    round, entered after the first sleep, is past the deadline. *)
Lemma read_channel_expect_deadline_raises_witness :
  exists msg w',
    @SSHChannel.read_channel_expect (Sim.library false 4) Sim.platform
      2 "zz" 0 0 Sim.w_login
    = Some (Raise (NetmikoTimeoutException msg), w')
    /\ contains "zz" msg = true
    /\ contains "login: m" msg = true.
Proof.
  epose proof (@read_channel_expect_deadline_raises
                 (Sim.library false 4) Sim.platform _
                 (@SSHChannel.read_buffer (Sim.library false 4) Sim.platform)
                 "zz" 0%Z 0%Z Sim.w_login _ _ 1%nat _ _ _ _ _ _ 2%nat)
    as Hw.
  do 7 (lapply Hw; [clear Hw; intro Hw | by_evaluation]).
  destruct Hw as (msg & H1 & H2 & H3).
  exists msg. eexists. split; [exact H1 | split; [exact H2 | exact H3]].
Defined.

(** With a timeout of -1 second the deadline has passed when the first
    poll returns; the poll completes the pattern [lo] and the call
    returns. *)
Lemma read_channel_expect_match_before_deadline_witness :
  exists w'',
    @SSHChannel.read_channel_expect (Sim.library false 4) Sim.platform
      1 "lo" (-1) 0 Sim.w_login
    = Some (Ok "logi", w'').
Proof.
  epose proof (@read_channel_expect_match_before_deadline
                 (Sim.library false 4) Sim.platform _
                 (@SSHChannel.read_buffer (Sim.library false 4) Sim.platform)
                 "lo" (-1)%Z 0%Z Sim.w_login _ _ 0%nat _ _ _ _)
    as Hw.
  do 3 (lapply Hw; [clear Hw; intro Hw | by_evaluation]).
  destruct Hw as [Hw _].
  do 2 (lapply Hw; [clear Hw; intro Hw | by_evaluation]).
  destruct (Hw 1%nat (le_n 1)) as [w'' Hret].
  exists w''. exact Hret.
Defined.

(** ** The single poll of the SSH channel *)

Section ReadBufferProofs.
Context `{Library} `{Platform}.

End ReadBufferProofs.


(** ** The logging of writes *)

Section LogWritesProofs.
Context `{Library} `{Platform} {S : Type} `{!ChannelAttrs S}.

(** The body of the [try] of [log_writes] leaves the channel object as it
    found it. *)
Lemma log_writes_try_self out_data (w : World S) :
  self (snd (log_writes_try out_data w)) = self w.
Proof.
  unfold log_writes_try, bind, get_self, raise, log_debug, ask, call, ret.
  cbn [self env logged].
  destruct (write_bytes out_data (get_encoding (self w))) as [b|x];
    [|reflexivity].
  destruct (get_session_log (self w)) as [sl|]; [|reflexivity].
  cbn [self env logged].
  destruct (SessionLog_fin sl (env w) || SessionLog_record_writes sl (env w));
    [|reflexivity].
  cbn [self env logged].
  destruct (SessionLog_write sl out_data (env w)) as [[[]|x] e']; reflexivity.
Qed.

(** C10. After the wrapped write has returned, [log_writes] passes the
    text to the session log when a session log is configured and its [fin]
    flag or its [record_writes] flag is set (one of the two is enough), and
    leaves the outside world alone otherwise.  A [UnicodeDecodeError] raised
    by the logging is swallowed: the call returns, and the channel object
    is as the wrapped write left it. *)
Theorem log_writes_session_log
    (func : string -> M S unit) out_data (w w1 : World S) :
  func out_data w = (Ok tt, w1) ->
  (forall b,
      write_bytes out_data (get_encoding (self w1)) = Ok b ->
      let logged' :=
        app (logged w1) [("write_channel: " ++ str_bytes b)%string] in
      match get_session_log (self w1) with
      | Some sl =>
          if SessionLog_fin sl (env w1)
             || SessionLog_record_writes sl (env w1)
          then
            log_writes func out_data w
            = (match fst (SessionLog_write sl out_data (env w1)) with
               | Ok _ => Ok tt
               | Raise x =>
                   if is_UnicodeDecodeError x then Ok tt else Raise x
               end,
               mkWorld (self w1)
                 (snd (SessionLog_write sl out_data (env w1))) logged')
          else
            log_writes func out_data w
            = (Ok tt, mkWorld (self w1) (env w1) logged')
      | None =>
          log_writes func out_data w
          = (Ok tt, mkWorld (self w1) (env w1) logged')
      end)
  /\ (forall msg w2,
         log_writes_try out_data w1 = (Raise (UnicodeDecodeError msg), w2) ->
         log_writes func out_data w = (Ok tt, w2)
         /\ self w2 = self w1).
Proof.
  intros Hfunc. split.
  - intros b Hb logged'. subst logged'.
    unfold log_writes, try_except, log_writes_try.
    unfold bind, get_self, raise, log_debug, ask, call, ret.
    rewrite Hfunc. cbn [self env logged]. rewrite Hb.
    destruct (get_session_log (self w1)) as [sl|]; [|reflexivity].
    cbn [self env logged].
    destruct (SessionLog_fin sl (env w1)
              || SessionLog_record_writes sl (env w1)); [|reflexivity].
    cbn [self env logged].
    destruct (SessionLog_write sl out_data (env w1)) as [[[]|x] e'];
      cbn [fst snd handle]; [reflexivity|].
    destruct (is_UnicodeDecodeError x); reflexivity.
  - intros msg w2 Htry. split.
    + unfold log_writes, try_except, bind. rewrite Hfunc, Htry. reflexivity.
    + pose proof (log_writes_try_self out_data w1) as Hself.
      rewrite Htry in Hself. exact Hself.
Qed.
End LogWritesProofs.

(** On the loop-back transport.  The text [show] is recorded when only
    [fin] is set and when only [record_writes] is set, and it is not when
    neither is; with Python 2 strings a text outside ASCII makes the
    logging raise [UnicodeDecodeError], and the call returns. *)
Lemma log_writes_session_log_witness :
  (forall fin rec,
      Sim.slog
        (env (snd (@SSHChannel.write_channel (Sim.library false 4)
                     Sim.platform "show"
                     (Sim.world (Sim.ssh_open "ascii" (Some tt))
                                (Sim.env0 [] fin rec (Ok tt))))))
      = if fin || rec then ["show"] else [])
  /\ fst (@SSHChannel.write_channel (Sim.library true 4) Sim.platform
            (String (ascii_of_nat 233) "")
            (Sim.world (Sim.ssh0 "ascii" (Some tt))
                       (Sim.env0 [] true true (Ok tt))))
     = Ok tt.
Proof.
  split.
  - intros fin rec. unfold SSHChannel.write_channel.
    match goal with
    | |- context [@log_writes ?L ?P ?S ?A ?f ?o ?w] =>
        edestruct (@log_writes_session_log L P S A f o w) as [Hlog _];
          [reflexivity|];
        specialize (Hlog (Sim.bytes_of "show") eq_refl);
        remember (@log_writes L P S A f o w) as r eqn:Er in *; clear Er
    end.
    destruct fin, rec; vm_compute in Hlog; rewrite Hlog; reflexivity.
  - unfold SSHChannel.write_channel.
    match goal with
    | |- context [@log_writes ?L ?P ?S ?A ?f ?o ?w] =>
        edestruct (@log_writes_session_log L P S A f o w) as [_ Hraise];
          [reflexivity|];
        edestruct Hraise as [Hret _]; [reflexivity|];
        remember (@log_writes L P S A f o w) as r eqn:Er in *; clear Er
    end.
    rewrite Hret. reflexivity.
Defined.

(** ** Errors of [SSHChannel.establish_connection] *)

Section EstablishProofs.
Context `{Library} `{Platform}.

(** [close] on an object whose two attributes are bound, when the client
    closes without an exception: both attributes are removed. *)
Lemma SSHChannel_close_bound (w : World SSHChannel.t) client conn e' :
  SSHChannel.remote_conn_pre (self w) = Bound client ->
  SSHChannel.remote_conn (self w) = Bound conn ->
  SSHClient_close client (env w) = (Ok tt, e') ->
  SSHChannel.close w
  = (Ok tt,
     mkWorld
       (SSHChannel.set_remote_conn_pre Missing
          (SSHChannel.set_remote_conn Missing (self w)))
       e' (logged w)).
Proof.
  intros Hpre Hconn Hclose.
  unfold SSHChannel.close, try_finally, SSHChannel.getattr_remote_conn_pre,
    SSHChannel.del_remote_conn, SSHChannel.del_remote_conn_pre.
  unfold bind, get_self, set_self, call, ret, raise.
  cbn [self env logged]. rewrite Hpre. cbn [self env logged].
  rewrite Hclose. cbn [self env logged]. rewrite Hconn.
  cbn [self env logged SSHChannel.remote_conn_pre
       SSHChannel.set_remote_conn].
  rewrite Hpre. reflexivity.
Qed.

(** [close] on an object whose attribute [remote_conn] has been removed:
    the client is closed, then [del self.remote_conn] raises
    [AttributeError], whatever the client's [close] did; the client stays
    in the object. *)
Lemma SSHChannel_close_unbound (w : World SSHChannel.t) client r e' :
  SSHChannel.remote_conn_pre (self w) = Bound client ->
  SSHChannel.remote_conn (self w) = Missing ->
  SSHClient_close client (env w) = (r, e') ->
  SSHChannel.close w
  = (Raise (SSHChannel.no_attribute "remote_conn"),
     mkWorld (self w) e' (logged w)).
Proof.
  intros Hpre Hconn Hclose.
  unfold SSHChannel.close, try_finally, SSHChannel.getattr_remote_conn_pre,
    SSHChannel.del_remote_conn, SSHChannel.del_remote_conn_pre.
  unfold bind, get_self, set_self, call, ret, raise.
  cbn [self env logged]. rewrite Hpre. cbn [self env logged].
  rewrite Hclose. cbn [self env logged]. rewrite Hconn.
  destruct r as [[]|x]; reflexivity.
Qed.

(** [_build_ssh_client] leaves the channel object as it is, whether it
    returns or raises. *)
Lemma SSHChannel_build_ssh_client_self no_auth (w : World SSHChannel.t) :
  self (snd (SSHChannel._build_ssh_client no_auth w)) = self w.
Proof.
  unfold SSHChannel._build_ssh_client.
  unfold bind, get_self, call, call', ask, effect, ret, raise.
  destruct (SSHClient_new no_auth (env w)) as [c e1].
  cbn [self env logged fst snd].
  destruct (truthy (system_host_keys (SSHChannel.ssh_hostkey_args (self w))));
    cbn [self env logged fst snd];
    [destruct (load_system_host_keys c e1) as [[[]|x] e2];
     cbn [self env logged fst snd]; [|reflexivity] | ];
    (destruct (truthy (alt_host_keys (SSHChannel.ssh_hostkey_args (self w))));
     cbn [self env logged fst snd];
     [destruct (alt_key_file (SSHChannel.ssh_hostkey_args (self w)))
        as [file|]; cbn [self env logged fst snd]; [|reflexivity];
      match goal with
      | |- context [path_isfile file ?e] =>
          destruct (path_isfile file e); cbn [self env logged fst snd];
          [destruct (load_host_keys c file e) as [[[]|x'] e3];
           cbn [self env logged fst snd] | ]
      end | ]);
    reflexivity.
Qed.

Lemma is_AuthenticationException_SSHException (x : exn) :
  is_AuthenticationException x = true -> is_SSHException x = true.
Proof.
  destruct x; cbn [is_AuthenticationException is_SSHException];
    try discriminate; try reflexivity.
  intros ->. apply orb_true_r.
Qed.

(** [establish_connection] when [connect] raises [x].  The first clause
    whose class [x] has runs [close]; when [close] returns, the clause
    raises its exception, and when [close] raises, that is what comes
    out.  With no such clause [x] comes out, and [close] is not run. *)
Lemma SSHChannel_establish_connection_connect_raises
    width height (w w1 : World SSHChannel.t) client x e2 :
  SSHChannel._build_ssh_client false w = (Ok client, w1) ->
  connect client (SSHChannel.ssh_params (self w1)) (env w1) = (Raise x, e2) ->
  let dev := SSHChannel.device_type (self w1) in
  let host := str_opt (hostname (SSHChannel.ssh_params (self w1))) in
  let port :=
    str_int (match port (SSHChannel.ssh_params (self w1)) with
             | Some p => p
             | None => 22%Z
             end) in
  let w2 :=
    mkWorld (SSHChannel.set_remote_conn_pre (Bound client) (self w1))
      e2 (logged w1) in
  let after_close (x' : exn) : result unit * World SSHChannel.t :=
    match SSHChannel.close w2 with
    | (Ok _, w3) => (Raise x', w3)
    | (Raise x'', w3) => (Raise x'', w3)
    end in
  SSHChannel.establish_connection width height w
  = if is_socket_error x then
      after_close
        (NetmikoTimeoutException
           (lstrip (if contains "Name or service not known" (str_exn x)
                    then SSHChannel.dns_failure_msg host port
                    else SSHChannel.tcp_failed_msg dev host port)))
    else if is_SSHException x then
      after_close
        (if contains "No existing session" (str_exn x)
         then NetmikoTimeoutException SSHChannel.no_session_msg
         else x)
    else (Raise x, w2).
Proof.
  intros Hbuild Hconnect dev host port w2 after_close.
  unfold SSHChannel.establish_connection.
  unfold bind at 1. rewrite Hbuild.
  unfold try_except, SSHChannel.getattr_remote_conn_pre.
  unfold bind, get_self, set_self, call, ret, raise.
  cbn [self env logged SSHChannel.remote_conn_pre
       SSHChannel.set_remote_conn_pre SSHChannel.ssh_params
       SSHChannel.device_type].
  rewrite Hconnect. cbn [handle]. fold w2 dev host port.
  destruct (is_socket_error x).
  - subst after_close. cbn beta. destruct (SSHChannel.close w2) as [[[]|x'] w3];
      reflexivity.
  - destruct (is_SSHException x) eqn:Hssh.
    + subst after_close. cbn beta.
      destruct (SSHChannel.close w2) as [[[]|x'] w3]; [|reflexivity].
      destruct (contains "No existing session" (str_exn x)); reflexivity.
    + destruct (is_AuthenticationException x) eqn:Hauth; [|reflexivity].
      apply is_AuthenticationException_SSHException in Hauth. congruence.
Qed.

(** On an object whose [remote_conn] attribute is bound (as [__init__]
    leaves it) and whose client closes without an exception, the failures
    of [connect] are translated.  A [socket.error] becomes a
    [NetmikoTimeoutException] whose message names the device type and
    host:port, or, when the text of [x] has [Name or service not known],
    is the DNS message.  An [SSHException] with [No existing session] in
    its text becomes a [NetmikoTimeoutException] that recommends a larger
    [conn_timeout]; any other [SSHException] is raised again as it is.  In
    each case [close] has run: the client is closed and the two attributes
    are removed. *)
Lemma SSHChannel_establish_connection_translates
    width height (w w1 : World SSHChannel.t) client conn x e2 e3 :
  SSHChannel._build_ssh_client false w = (Ok client, w1) ->
  SSHChannel.remote_conn (self w1) = Bound conn ->
  connect client (SSHChannel.ssh_params (self w1)) (env w1) = (Raise x, e2) ->
  SSHClient_close client e2 = (Ok tt, e3) ->
  let dev := SSHChannel.device_type (self w1) in
  let host := str_opt (hostname (SSHChannel.ssh_params (self w1))) in
  let port :=
    str_int (match port (SSHChannel.ssh_params (self w1)) with
             | Some p => p
             | None => 22%Z
             end) in
  let closed (w' : World SSHChannel.t) :=
    env w' = e3
    /\ SSHChannel.remote_conn (self w') = Missing
    /\ SSHChannel.remote_conn_pre (self w') = Missing in
  (is_socket_error x = true ->
   exists msg w',
     SSHChannel.establish_connection width height w
     = (Raise (NetmikoTimeoutException msg), w')
     /\ closed w'
     /\ contains (host ++ ":" ++ port) msg = true
     /\ if contains "Name or service not known" (str_exn x)
        then msg = SSHChannel.dns_failure_msg host port
             /\ contains "DNS failure" msg = true
        else contains dev msg = true)
  /\ (is_socket_error x = false ->
      is_SSHException x = true ->
      exists w',
        SSHChannel.establish_connection width height w
        = (if contains "No existing session" (str_exn x)
           then Raise (NetmikoTimeoutException SSHChannel.no_session_msg)
           else Raise x, w')
        /\ closed w'
        /\ contains "try increasing 'conn_timeout'" SSHChannel.no_session_msg
           = true).
Proof.
  intros Hbuild Hconn Hconnect Hclose dev host port closed.
  set (s1 := SSHChannel.set_remote_conn_pre (Bound client) (self w1)).
  assert (Hclosed :
            SSHChannel.close (mkWorld s1 e2 (logged w1))
            = (Ok tt,
               mkWorld (SSHChannel.set_remote_conn_pre Missing
                          (SSHChannel.set_remote_conn Missing s1))
                 e3 (logged w1))).
  { apply (@SSHChannel_close_bound (mkWorld s1 e2 (logged w1)) client conn);
      [reflexivity | exact Hconn | exact Hclose]. }
  pose proof (@SSHChannel_establish_connection_connect_raises
                width height _ _ _ _ _ Hbuild Hconnect) as Hrun.
  cbn zeta in Hrun. fold s1 dev host port in Hrun. rewrite Hclosed in Hrun.
  split.
  - intros Hsock. rewrite Hsock in Hrun.
    do 2 eexists. split; [exact Hrun|]. split; [repeat split|].
    destruct (contains "Name or service not known" (str_exn x)).
    + change (lstrip (SSHChannel.dns_failure_msg host port))
        with (SSHChannel.dns_failure_msg host port).
      split; [|split; reflexivity].
      unfold SSHChannel.dns_failure_msg.
      do 2 apply contains_app_r. apply contains_refl.
    + change (lstrip (SSHChannel.tcp_failed_msg dev host port))
        with (SSHChannel.tcp_failed_msg dev host port).
      unfold SSHChannel.tcp_failed_msg. split.
      * do 15 apply contains_app_r.
        replace (host ++ ":" ++ port ++ nl ++ nl)
          with ((host ++ ":" ++ port) ++ nl ++ nl)
          by (now rewrite !append_assoc).
        apply contains_app_l, contains_refl.
      * do 13 apply contains_app_r. apply contains_app_l, contains_refl.
  - intros Hnot Hssh. rewrite Hnot, Hssh in Hrun.
    eexists. split.
    { rewrite Hrun.
      destruct (contains "No existing session" (str_exn x)); reflexivity. }
    split; [repeat split | reflexivity].
Qed.

(** C6.  The translation of a failure of [connect] is lost on a second
    attempt.  On an object as [__init__] leaves it, whose client closes
    without an exception, a first [establish_connection] whose [connect]
    raises a [socket.error] or an [SSHException] raises the exception of
    the taxonomy, once [close] has removed the two attributes.  A second
    [establish_connection] on the same object whose [connect] fails in
    the same way raises [AttributeError]: the [close] of the handler
    closes the new client, then fails at [del self.remote_conn], and
    neither the time-out exception nor the exception of [connect] comes
    out. *)
Theorem SSHChannel_establish_connection_second_failure
    width height (w w1 : World SSHChannel.t) client conn x e2 e3 :
  SSHChannel._build_ssh_client false w = (Ok client, w1) ->
  SSHChannel.remote_conn (self w1) = Bound conn ->
  connect client (SSHChannel.ssh_params (self w1)) (env w1) = (Raise x, e2) ->
  is_socket_error x || is_SSHException x = true ->
  SSHClient_close client e2 = (Ok tt, e3) ->
  exists x1 w2,
    SSHChannel.establish_connection width height w = (Raise x1, w2)
    /\ (is_socket_error x = true
        -> exists msg, x1 = NetmikoTimeoutException msg)
    /\ (is_socket_error x = false
        -> x1 = if contains "No existing session" (str_exn x)
                then NetmikoTimeoutException SSHChannel.no_session_msg
                else x)
    /\ forall client' w3 x' e5 r e6,
        SSHChannel._build_ssh_client false w2 = (Ok client', w3) ->
        connect client' (SSHChannel.ssh_params (self w3)) (env w3)
        = (Raise x', e5) ->
        is_socket_error x' || is_SSHException x' = true ->
        SSHClient_close client' e5 = (r, e6) ->
        SSHChannel.establish_connection width height w2
        = (Raise (SSHChannel.no_attribute "remote_conn"),
           mkWorld (SSHChannel.set_remote_conn_pre (Bound client') (self w3))
             e6 (logged w3)).
Proof.
  intros Hbuild Hconn Hconnect Hx Hclose.
  set (s1 := SSHChannel.set_remote_conn_pre (Bound client) (self w1)).
  assert (Hclosed :
            SSHChannel.close (mkWorld s1 e2 (logged w1))
            = (Ok tt,
               mkWorld (SSHChannel.set_remote_conn_pre Missing
                          (SSHChannel.set_remote_conn Missing s1))
                 e3 (logged w1))).
  { apply (@SSHChannel_close_bound (mkWorld s1 e2 (logged w1)) client conn);
      [reflexivity | exact Hconn | exact Hclose]. }
  pose proof (@SSHChannel_establish_connection_connect_raises
                width height _ _ _ _ _ Hbuild Hconnect) as Hrun.
  cbn zeta in Hrun. fold s1 in Hrun. rewrite Hclosed in Hrun.
  assert (Hsecond :
            forall w2 : World SSHChannel.t,
              SSHChannel.remote_conn (self w2) = Missing ->
              forall client' w3 x' e5 r e6,
                SSHChannel._build_ssh_client false w2 = (Ok client', w3) ->
                connect client' (SSHChannel.ssh_params (self w3)) (env w3)
                = (Raise x', e5) ->
                is_socket_error x' || is_SSHException x' = true ->
                SSHClient_close client' e5 = (r, e6) ->
                SSHChannel.establish_connection width height w2
                = (Raise (SSHChannel.no_attribute "remote_conn"),
                   mkWorld (SSHChannel.set_remote_conn_pre (Bound client')
                              (self w3)) e6 (logged w3))).
  { intros w2 Hgone client' w3 x' e5 r e6 Hbuild' Hconnect' Hx' Hclose'.
    pose proof (SSHChannel_build_ssh_client_self false w2) as Hself.
    rewrite Hbuild' in Hself. cbn [snd] in Hself.
    rewrite (@SSHChannel_establish_connection_connect_raises
               width height _ _ _ _ _ Hbuild' Hconnect').
    cbn zeta.
    assert (Hgone' : SSHChannel.remote_conn
                       (SSHChannel.set_remote_conn_pre (Bound client')
                          (self w3)) = Missing)
      by (cbn [SSHChannel.remote_conn SSHChannel.set_remote_conn_pre];
          rewrite Hself; exact Hgone).
    rewrite (@SSHChannel_close_unbound
               (mkWorld (SSHChannel.set_remote_conn_pre (Bound client')
                           (self w3)) e5 (logged w3))
               client' r e6 eq_refl Hgone' Hclose').
    cbn [self logged].
    destruct (is_socket_error x'); [reflexivity|].
    cbn [orb] in Hx'. rewrite Hx'. reflexivity. }
  destruct (is_socket_error x) eqn:Hsock.
  - do 2 eexists. split; [exact Hrun|]. split; [eauto|].
    split; [discriminate|]. apply Hsecond. reflexivity.
  - cbn [orb] in Hx. rewrite Hx in Hrun.
    do 2 eexists. split; [exact Hrun|]. split; [discriminate|].
    split; [reflexivity|]. apply Hsecond. reflexivity.
Qed.
End EstablishProofs.

(** A refused connection, twice on the same object of the loop-back
    platform: the first call raises the time-out exception with the
    device type and host:port, the second one [AttributeError]. *)
Lemma SSHChannel_establish_connection_second_failure_witness :
  let refused := socket_error "[Errno 111] Connection refused" in
  exists msg w2 w3,
    @SSHChannel.establish_connection Sim.platform 511 1000
      (Sim.world (Sim.ssh0 "ascii" None)
         (Sim.env0 [] false false (Raise refused)))
    = (Raise (NetmikoTimeoutException msg), w2)
    /\ contains "cisco_ios rtr1:22" msg = true
    /\ @SSHChannel.establish_connection Sim.platform 511 1000 w2
       = (Raise (AttributeError
                   "'SSHChannel' object has no attribute 'remote_conn'"),
          w3).
Proof.
  intros refused.
  epose proof (@SSHChannel_establish_connection_second_failure Sim.platform
                 511%Z 1000%Z
                 (Sim.world (Sim.ssh0 "ascii" None)
                    (Sim.env0 [] false false (Raise refused)))
                 _ tt _ _ _ _) as Hw.
  do 5 (lapply Hw; [clear Hw; intro Hw | by_evaluation]).
  destruct Hw as (x1 & w2 & Hrun & Hsock & _ & Hsecond).
  destruct (Hsock eq_refl) as (msg & ->).
  vm_compute in Hrun. injection Hrun as <- <-.
  do 3 eexists. split; [vm_compute; reflexivity|].
  split; [vm_compute; reflexivity|].
  eapply Hsecond; by_evaluation.
Defined.

(** ** Write, then read, on the loop-back transport *)

Section LoopbackProofs.
Context `{Library}.
#[local] Existing Instance Sim.platform.

(** A write on the open loop-back channel puts the encoded text on the
    wire. *)
Lemma loopback_write text (w : World SSHChannel.t) b :
  Sim.waiting [] w ->
  write_bytes text (SSHChannel.encoding (self w)) = Ok b ->
  exists w1, SSHChannel.write_channel text w = (Ok tt, w1) /\ Sim.waiting b w1.
Proof.
  intros (Hconn & Hwire & Heof) Hb.
  unfold SSHChannel.write_channel, log_writes, try_except, log_writes_try.
  unfold SSHChannel.getattr_remote_conn.
  unfold bind, get_self, raise, log_debug, ask, call, ret.
  cbn [self env logged get_session_log get_encoding SSHChannel.attrs].
  rewrite Hconn. cbn [self env logged]. rewrite Hb.
  cbn [sendall Sim.platform self env logged]. rewrite Hb.
  cbn [self env logged].
  destruct (SSHChannel.session_log (self w)) as [sl|].
  - cbn [SessionLog_fin SessionLog_record_writes SessionLog_write
         Sim.platform self env logged Sim.set_wire Sim.slog_fin
         Sim.slog_record_writes].
    destruct (Sim.slog_fin (env w) || Sim.slog_record_writes (env w));
      cbn [self env logged handle]; eexists; (split; [reflexivity|]);
      repeat split; cbn [self env Sim.wire Sim.eof Sim.set_wire Sim.set_slog];
      try assumption; rewrite Hwire; reflexivity.
  - cbn [self env logged]. eexists. split; [reflexivity|].
    repeat split; cbn [self env Sim.wire Sim.eof Sim.set_wire];
      try assumption; rewrite Hwire; reflexivity.
Qed.

(** One poll of the open loop-back channel takes what is on the wire, when
    that is no more than [MAX_BUFFER] bytes. *)
Lemma loopback_read_buffer (w : World SSHChannel.t) b :
  Sim.waiting b w ->
  (Z.of_nat (length b) <= MAX_BUFFER)%Z ->
  exists w1,
    SSHChannel.read_buffer w
    = (Ok (match b with [] => "" | _ => bytes_decode "utf-8" b end), w1)
    /\ Sim.waiting [] w1.
Proof.
  intros (Hconn & Hwire & Heof) Hlen.
  unfold SSHChannel.read_buffer, log_reads, SSHChannel.getattr_remote_conn.
  unfold bind, get_self, raise, log_debug, call, call', ret.
  cbn [self env logged get_session_log SSHChannel.attrs].
  rewrite Hconn.
  cbn [recv_ready recv Sim.platform self env logged].
  rewrite Hwire, Heof.
  destruct b as [|x b].
  - cbn [Sim.is_nil negb orb self env logged].
    destruct (SSHChannel.session_log (self w)) as [sl|];
      cbn [SessionLog_write Sim.platform self env logged];
      eexists; (split; [reflexivity|]); repeat split;
      cbn [self env Sim.wire Sim.eof Sim.set_slog]; assumption.
  - cbn [Sim.is_nil negb orb self env logged]. rewrite !Hwire.
    assert (Hfit : (length (x :: b) <= Z.to_nat MAX_BUFFER)%nat) by lia.
    rewrite firstn_all2 by exact Hfit. rewrite skipn_all2 by exact Hfit.
    cbn [length Nat.eqb append self env logged].
    destruct (SSHChannel.session_log (self w)) as [sl|];
      cbn [SessionLog_write Sim.platform self env logged];
      eexists; (split; [reflexivity|]); repeat split;
      cbn [self env Sim.wire Sim.eof Sim.set_slog Sim.set_wire]; assumption.
Qed.
(** C8, as the code has it.  On the loop-back transport, a write of at
    most [MAX_BUFFER] bytes followed by [read_channel] returns the bytes
    written (what [write_bytes] makes of the text and the configured
    encoding) decoded as UTF-8, whatever the configured encoding is, with
    what cannot be decoded ignored, and with the escape codes stripped. *)
Theorem SSHChannel_write_read_loopback
    text (w : World SSHChannel.t) b fuel :
  Sim.waiting [] w ->
  write_bytes text (SSHChannel.encoding (self w)) = Ok b ->
  (Z.of_nat (length b) <= MAX_BUFFER)%Z ->
  bytes_decode "utf-8" [] = "" ->
  (2 <= fuel)%nat ->
  exists w1 w2,
    SSHChannel.write_channel text w = (Ok tt, w1)
    /\ SSHChannel.read_channel fuel w1
       = Some (Ok (strip_ansi_escape_codes (bytes_decode "utf-8" b)), w2).
Proof.
  intros Hw Hb Hlen Hdec Hfuel.
  destruct (loopback_write text Hw Hb) as (w1 & Hwrite & Hw1).
  destruct (loopback_read_buffer Hw1 Hlen) as (w2 & Hread & Hw2).
  assert (Hnil : (Z.of_nat (@length byte []) <= MAX_BUFFER)%Z)
    by (cbn [length]; lia).
  destruct (loopback_read_buffer Hw2 Hnil) as (w3 & Hread' & _).
  exists w1. destruct fuel as [|[|fuel]]; try lia.
  unfold SSHChannel.read_channel, bindP, lift, ret.
  cbn [while_true]. unfold bind at 1. rewrite Hread.
  set (d := match b with [] => "" | _ => bytes_decode "utf-8" b end).
  assert (Hd : d = bytes_decode "utf-8" b)
    by (subst d; destruct b; [now rewrite Hdec | reflexivity]).
  cbn [append]. destruct (d =? "")%string eqn:Hempty.
  - exists w2. split; [exact Hwrite|]. rewrite Hd. reflexivity.
  - unfold bind at 1. rewrite Hread'. cbn [String.eqb].
    exists w3. split; [exact Hwrite|].
    rewrite append_nil_r, Hd. reflexivity.
Qed.
End LoopbackProofs.

(** C8, as the specification states it, fails on the loop-back
    transport, with [write_bytes] as netmiko has it and [MAX_BUFFER] at
    65535, in three ways.  The read does not use the configured encoding:
    with [utf-16-le] the text of [a] and U+0000 is written as the bytes 61
    00, which that codec decodes to [a], and the read returns both
    characters.  The read strips the escape codes: the text [show] with
    the code ESC[K written after it comes back as [show].  And the read
    decodes each piece of [MAX_BUFFER] bytes on its own: of a text of
    65534 letters and U+00E9 in UTF-8 the two bytes of the last character
    fall in two pieces, and the character is lost. *)
Lemma SSHChannel_write_read_configured_encoding_counterexample :
  let L := Sim.library false 65535 in
  let claimed (text enc : string) :=
    exists fuel b w1 w2,
      @write_bytes L text enc = Ok b
      /\ @SSHChannel.write_channel L Sim.platform text
           (Sim.world (Sim.ssh_open enc None) Samples.idle)
         = (Ok tt, w1)
      /\ @SSHChannel.read_channel L Sim.platform fuel w1
         = Some (Ok (@bytes_decode L enc b), w2) in
  ~ claimed Samples.text_a_nul "utf-16-le"
  /\ ~ claimed Samples.text_erase "ascii"
  /\ ~ claimed Samples.text_long "utf-8".
Proof.
  intros L claimed.
  repeat split; intros (fuel & b & w1 & w2 & Hb & Hwrite & Hread);
    apply (f_equal (fun r : result (list byte) =>
                      match r with Ok b' => b' | Raise _ => [] end))
      in Hb; subst b;
    apply (f_equal snd) in Hwrite; cbn [snd] in Hwrite; subst w1;
    apply (f_equal (fun r : option (result string * World SSHChannel.t) =>
                      match r with
                      | Some (Ok s, _) => Some (N.of_nat (String.length s))
                      | _ => None
                      end)) in Hread;
    destruct fuel as [|[|fuel]]; vm_compute in Hread; discriminate Hread.
Qed.

(** The text [show] in ASCII comes back as it was written. *)
Lemma SSHChannel_write_read_loopback_witness :
  exists w1 w2,
    @SSHChannel.write_channel (Sim.library false 65535) Sim.platform "show"
      (Sim.world (Sim.ssh_open "ascii" None)
                 (Sim.env0 [] false false (Ok tt)))
    = (Ok tt, w1)
    /\ @SSHChannel.read_channel (Sim.library false 65535) Sim.platform 2 w1
       = Some (Ok "show", w2).
Proof.
  epose proof (@SSHChannel_write_read_loopback (Sim.library false 65535)
                 "show"
                 (Sim.world (Sim.ssh_open "ascii" None)
                            (Sim.env0 [] false false (Ok tt)))
                 (Sim.bytes_of "show") 2%nat) as Hw.
  lapply Hw; [clear Hw; intro Hw | repeat split].
  do 4 (lapply Hw; [clear Hw; intro Hw | by_evaluation]).
  exact Hw.
Defined.

(** ** [close] *)

Section CloseProofs.
Context `{Platform}.

(** [TelnetChannel.close] returns in every state and leaves the handle
    [None]. *)
Lemma TelnetChannel_close_returns (w : World TelnetChannel.t) :
  exists w',
    TelnetChannel.close w = (Ok tt, w')
    /\ TelnetChannel.remote_conn (self w') = None.
Proof.
  unfold TelnetChannel.close, try_finally, try_except.
  unfold bind, get_self, set_self, call, ret.
  destruct (TelnetChannel.remote_conn (self w)) as [c|].
  - destruct (Telnet_close c (env w)) as [[[]|x] e'];
      cbn [handle is_Exception self env logged];
      eexists; split; reflexivity.
  - eexists; split; reflexivity.
Qed.

(** [SerialChannel.close] has no [except]: the exception of the port is
    raised to the caller, after the handle is set to [None]. *)
Lemma SerialChannel_close_propagates (w : World SerialChannel.t) c x e' :
  SerialChannel.remote_conn (self w) = Some c ->
  Serial_close c (env w) = (Raise x, e') ->
  exists w',
    SerialChannel.close w = (Raise x, w')
    /\ SerialChannel.remote_conn (self w') = None.
Proof.
  intros Hc Hx.
  unfold SerialChannel.close, try_finally.
  unfold bind, get_self, set_self, call, ret.
  rewrite Hc, Hx. cbn [self env logged]. eexists; split; reflexivity.
Qed.

(** After a [close] that returned, the SSH channel object has neither
    attribute. *)
Lemma SSHChannel_close_removes (w w1 : World SSHChannel.t) :
  SSHChannel.close w = (Ok tt, w1) ->
  SSHChannel.remote_conn (self w1) = Missing
  /\ SSHChannel.remote_conn_pre (self w1) = Missing.
Proof.
  unfold SSHChannel.close, try_finally, SSHChannel.getattr_remote_conn_pre,
    SSHChannel.del_remote_conn, SSHChannel.del_remote_conn_pre.
  unfold bind, get_self, set_self, call, ret, raise.
  cbn [self env logged].
  destruct (SSHChannel.remote_conn_pre (self w)) as [|client] eqn:Hpre.
  - destruct (SSHChannel.remote_conn (self w)); [discriminate|].
    cbn [self env logged SSHChannel.remote_conn_pre
         SSHChannel.set_remote_conn].
    rewrite Hpre. discriminate.
  - destruct (SSHClient_close client (env w)) as [[[]|x] e'];
      cbn [self env logged];
      (destruct (SSHChannel.remote_conn (self w)); [discriminate|]);
      cbn [self env logged SSHChannel.remote_conn_pre
           SSHChannel.set_remote_conn];
      rewrite Hpre; intros [= <-]; split; reflexivity.
Qed.

(** [SSHChannel.close] on an object without the attribute
    [remote_conn_pre] raises [AttributeError]. *)
Lemma SSHChannel_close_without_client (w : World SSHChannel.t) :
  SSHChannel.remote_conn_pre (self w) = Missing ->
  exists msg w', SSHChannel.close w = (Raise (AttributeError msg), w').
Proof.
  intros Hpre.
  unfold SSHChannel.close, try_finally, SSHChannel.getattr_remote_conn_pre,
    SSHChannel.del_remote_conn, SSHChannel.del_remote_conn_pre.
  unfold bind, get_self, set_self, call, ret, raise.
  cbn [self env logged]. rewrite Hpre. cbn [self env logged].
  destruct (SSHChannel.remote_conn (self w)).
  - do 2 eexists. reflexivity.
  - cbn [self env logged SSHChannel.remote_conn_pre
         SSHChannel.set_remote_conn].
    rewrite Hpre. do 2 eexists. reflexivity.
Qed.

(** C4, on the SSH channel.  [close] on a channel that was never opened
    raises [AttributeError]: [__init__] does not assign [remote_conn_pre].
    And a [close] that follows a [close] that returned raises
    [AttributeError] too: the first one removed the attributes. *)
Theorem SSHChannel_close_raises_unless_open :
  (forall params dev hostkey_args enc slog keys pwd e l,
      exists msg w',
        SSHChannel.close
          (mkWorld (SSHChannel.init params dev hostkey_args enc slog keys pwd)
                   e l)
        = (Raise (AttributeError msg), w'))
  /\ (forall w w1 : World SSHChannel.t,
         SSHChannel.close w = (Ok tt, w1) ->
         exists msg w2,
           SSHChannel.close w1 = (Raise (AttributeError msg), w2)).
Proof.
  split.
  - intros. apply SSHChannel_close_without_client. reflexivity.
  - intros w w1 Hfirst. apply SSHChannel_close_without_client.
    apply (SSHChannel_close_removes _ Hfirst).
Qed.
End CloseProofs.

(** On the loop-back platform an open channel is closed twice. *)
Lemma SSHChannel_close_raises_unless_open_witness :
  exists w1 msg w2,
    @SSHChannel.close Sim.platform
      (Sim.world (Sim.ssh_open "ascii" None)
                 (Sim.env0 [] false false (Ok tt)))
    = (Ok tt, w1)
    /\ @SSHChannel.close Sim.platform w1 = (Raise (AttributeError msg), w2).
Proof.
  eexists.
  destruct (proj2 (@SSHChannel_close_raises_unless_open Sim.platform)
              (Sim.world (Sim.ssh_open "ascii" None)
                         (Sim.env0 [] false false (Ok tt)))
              _ eq_refl) as (msg & w2 & Hsecond).
  exists msg, w2. split; [reflexivity | exact Hsecond].
Defined.

(** ** [is_alive] before [establish_connection] *)

Section IsAliveProofs.
Context `{Library} `{Platform}.

Lemma TelnetChannel_is_alive_not_connected params dev enc slog e l :
  fst (TelnetChannel.is_alive
         (mkWorld (TelnetChannel.init params dev enc slog) e l))
  = Ok false.
Proof. reflexivity. Qed.

Lemma SSHChannel_is_alive_not_connected
    params dev hostkey_args enc slog keys pwd e l :
  fst (SSHChannel.is_alive
         (mkWorld (SSHChannel.init params dev hostkey_args enc slog keys pwd)
                  e l))
  = Ok false.
Proof. reflexivity. Qed.

(** C7, on the serial channel.  [SerialChannel.is_alive] has the body
    [pass]: in every state, and so before [establish_connection], the call
    returns [None], which is not the value [False]; the world is left as it
    was. *)
Theorem SerialChannel_is_alive_returns_None :
  forall settings dev enc slog e l,
    let w := mkWorld (SerialChannel.init settings dev enc slog) e l in
    SerialChannel.is_alive w = (Ok None, w)
    /\ fst (SerialChannel.is_alive w) <> Ok (Some false).
Proof.
  intros. split; [reflexivity | discriminate].
Qed.
End IsAliveProofs.

(** ** The timing read *)

Section TimingProofs.
Context `{Library} `{Platform}.

(** A round of [SSHChannel.read_channel_timing] whose first read has data:
    the data is appended, and the loop goes on unless the clock is past
    the deadline. *)
Lemma SSHChannel_timing_round_data
    fuel delay_factor read_timeout channel_data w new_data w2 now e3 :
  SSHChannel.read_channel fuel
    (SSHChannel.slept (Channel.loop_sleep_time * delay_factor) w)
  = Some (Ok new_data, w2) ->
  new_data <> "" ->
  time_time (env w2) = (now, e3) ->
  SSHChannel.timing_body fuel delay_factor read_timeout channel_data w
  = Some (Ok (if Qgtb now read_timeout
              then Break (channel_data ++ new_data)
              else Continue (channel_data ++ new_data)),
          mkWorld (self w2) e3 (logged w2)).
Proof.
  intros Hread Hdata Hnow.
  unfold SSHChannel.timing_body, bindP, lift, effect, ret, call'.
  unfold SSHChannel.slept in Hread. rewrite Hread.
  apply String.eqb_neq in Hdata. rewrite Hdata. cbn [negb].
  rewrite Hnow. destruct (Qgtb now read_timeout); reflexivity.
Qed.

(** A round whose first read is empty and whose second read, after the
    longer sleep, is empty too: the loop ends with the data gathered. *)
Lemma SSHChannel_timing_round_quiet
    fuel delay_factor read_timeout channel_data w w2 w4 :
  SSHChannel.read_channel fuel
    (SSHChannel.slept (Channel.loop_sleep_time * delay_factor) w)
  = Some (Ok "", w2) ->
  SSHChannel.read_channel fuel
    (SSHChannel.slept (SSHChannel.final_delay * delay_factor) w2)
  = Some (Ok "", w4) ->
  SSHChannel.timing_body fuel delay_factor read_timeout channel_data w
  = Some (Ok (Break channel_data), w4).
Proof.
  intros Hread Hread'.
  unfold SSHChannel.timing_body, bindP, lift, effect, ret, call'.
  unfold SSHChannel.slept in Hread, Hread'. rewrite Hread. cbn [String.eqb negb].
  rewrite Hread'. reflexivity.
Qed.

(** A round whose first read is empty and whose second read has data: the
    data is appended and the loop goes on, unless the clock is past the
    deadline. *)
Lemma SSHChannel_timing_round_resumes
    fuel delay_factor read_timeout channel_data w w2 new_data w4 now e5 :
  SSHChannel.read_channel fuel
    (SSHChannel.slept (Channel.loop_sleep_time * delay_factor) w)
  = Some (Ok "", w2) ->
  SSHChannel.read_channel fuel
    (SSHChannel.slept (SSHChannel.final_delay * delay_factor) w2)
  = Some (Ok new_data, w4) ->
  new_data <> "" ->
  time_time (env w4) = (now, e5) ->
  SSHChannel.timing_body fuel delay_factor read_timeout channel_data w
  = Some (Ok (if Qgtb now read_timeout
              then Break (channel_data ++ new_data)
              else Continue (channel_data ++ new_data)),
          mkWorld (self w4) e5 (logged w4)).
Proof.
  intros Hread Hread' Hdata Hnow.
  unfold SSHChannel.timing_body, bindP, lift, effect, ret, call'.
  unfold SSHChannel.slept in Hread, Hread'. rewrite Hread. cbn [String.eqb negb].
  rewrite Hread'. apply String.eqb_neq in Hdata. rewrite Hdata.
  rewrite Hnow. destruct (Qgtb now read_timeout); reflexivity.
Qed.

(** C3, on the Telnet and serial channels.  [read_channel_timing] of
    [TelnetChannel] and of [SerialChannel] has the body [pass]: the call
    returns [None] at once; it does not sleep and does not read, and the
    world is left as it was. *)
Theorem read_channel_timing_not_implemented :
  (forall delay_factor timeout (w : World TelnetChannel.t),
      TelnetChannel.read_channel_timing delay_factor timeout w
      = (Ok None, w))
  /\ (forall delay_factor timeout (w : World SerialChannel.t),
         SerialChannel.read_channel_timing delay_factor timeout w
         = (Ok None, w)).
Proof.
  split; reflexivity.
Qed.
End TimingProofs.

(** * Further properties *)

(** Unfolding of the operations on worlds. *)
Ltac run :=
  unfold bind, ret, raise, call, call', effect, ask, get_self, set_self,
    log_debug, log_error, try_except, try_finally;
  cbn [self env logged handle fst snd].

(** ** The pattern read: exceptions, fuel and termination *)

Section ExpectMore.
Context `{Library} `{Platform} {S : Type}.
Variable read_buffer : M S string.

Abbreviation expect_body' := (Channel.expect_body read_buffer).
Abbreviation quiet_polls' := (Channel.quiet_polls read_buffer).
Abbreviation read_channel_expect' :=
  (Channel.read_channel_expect read_buffer).

(** X1. An exception of a poll of [read_channel_expect] (the [EOFError] of
    a closed stream, say) is raised to the caller as it is, in the world
    the poll left; and a pattern that does not compile raises [re.error]
    after the first poll, not before it. *)
Theorem read_channel_expect_poll_exception
    pattern timeout re_flags w t0 w0 n output wn fuel :
  Channel.expect_start pattern w = (t0, w0) ->
  quiet_polls' n pattern re_flags (t0 + inject_Z timeout)%Q "" w0
  = Some (output, wn) ->
  (n < fuel)%nat ->
  (forall x w',
      read_buffer wn = (Raise x, w') ->
      read_channel_expect' fuel pattern timeout re_flags w
      = Some (Raise x, w'))
  /\ (forall new w' msg,
         read_buffer wn = (Ok new, w') ->
         re_search pattern (output ++ new) re_flags = ReError msg ->
         read_channel_expect' fuel pattern timeout re_flags w
         = Some (Raise (re_error msg), w')).
Proof.
  intros Hstart Hq Hfuel. split.
  - intros x w' Hrd.
    rewrite (read_channel_expect_unfold read_buffer) with (1 := Hstart).
    assert (Hb : expect_body' pattern re_flags (t0 + inject_Z timeout)%Q
                   output wn = (Raise x, w'))
      by (unfold Channel.expect_body, bind; rewrite Hrd; reflexivity).
    rewrite (expect_loop_ends read_buffer)
      with (1 := Hq) (2 := Hfuel) (3 := Hb);
      [reflexivity | intros a; discriminate].
  - intros new w' msg Hrd Hre.
    rewrite (read_channel_expect_unfold read_buffer) with (1 := Hstart).
    assert (Hb : expect_body' pattern re_flags (t0 + inject_Z timeout)%Q
                   output wn = (Raise (re_error msg), w'))
      by (unfold Channel.expect_body, bind, raise; rewrite Hrd, Hre;
          reflexivity).
    rewrite (expect_loop_ends read_buffer)
      with (1 := Hq) (2 := Hfuel) (3 := Hb);
      [reflexivity | intros a; discriminate].
Qed.

(** The loop runs out of fuel exactly when every round went round
    again. *)
Lemma expect_loop_out_of_fuel pattern re_flags read_timeout fuel :
  forall output w,
    while_true fuel
      (fun o => lift (expect_body' pattern re_flags read_timeout o))
      output w = None
    <-> exists output' w',
        quiet_polls' fuel pattern re_flags read_timeout output w
        = Some (output', w').
Proof.
  induction fuel as [|fuel IH]; intros output w.
  - cbn. split; [intros _; eauto | reflexivity].
  - cbn [while_true Channel.quiet_polls]. unfold lift at 1.
    destruct (expect_body' pattern re_flags read_timeout output w)
      as [[[b|a]|x] w1].
    + split; [discriminate | intros (o & w' & Hq); discriminate].
    + apply IH.
    + split; [discriminate | intros (o & w' & Hq); discriminate].
Qed.

(** A round goes round again exactly when its poll returns, [re.search]
    finds no match and the clock is not past the deadline; the text of
    the poll is added and the round ends with the sleep. *)
Lemma expect_body_continue_iff pattern re_flags read_timeout output w
    output' w' :
  expect_body' pattern re_flags read_timeout output w
  = (Ok (Continue output'), w')
  <-> exists new w1,
      read_buffer w = (Ok new, w1)
      /\ re_search pattern (output ++ new) re_flags = NoMatch
      /\ (fst (time_time (env w1)) <= read_timeout)%Q
      /\ output' = output ++ new
      /\ w' = mkWorld (self w1)
                (time_sleep Channel.loop_sleep_time
                   (snd (time_time (env w1))))
                (logged w1).
Proof.
  unfold Channel.expect_body, bind, call', effect, ret, raise.
  destruct (read_buffer w) as [[new|x] w1].
  - destruct (re_search pattern (output ++ new) re_flags) eqn:Hre.
    + split; [discriminate|].
      intros (new' & w1' & [= <- <-] & Hre' & _). congruence.
    + destruct (time_time (env w1)) as [now e'] eqn:Ht.
      destruct (Qgtb now read_timeout) eqn:Hgt; cbn [self env logged].
      * split; [discriminate|].
        intros (new' & w1' & [= <- <-] & _ & Hle & _).
        rewrite Ht in Hle. cbn [fst] in Hle.
        apply Qgtb_false in Hle. congruence.
      * split.
        -- intros [= <- <-]. exists new, w1. rewrite Ht. cbn [fst snd].
           repeat split; try reflexivity; try exact Hre.
           apply Qgtb_false, Hgt.
        -- intros (new' & w1' & [= <- <-] & _ & _ & -> & ->).
           rewrite Ht. reflexivity.
    + split; [discriminate|].
      intros (new' & w1' & [= <- <-] & Hre' & _). congruence.
  - split; [discriminate|]. intros (new' & w1' & Heq & _). discriminate Heq.
Qed.

(** The rounds that go round again are the rounds that find nothing. *)
Lemma quiet_polls_polled_without_match n pattern re_flags read_timeout :
  forall output w,
    (exists output' w',
        quiet_polls' n pattern re_flags read_timeout output w
        = Some (output', w'))
    <-> polled_without_match read_buffer n pattern re_flags read_timeout
          output w.
Proof.
  induction n as [|n IH]; intros output w.
  - cbn. split; [intros _; exact I | intros _; eauto].
  - cbn [Channel.quiet_polls polled_without_match]. split.
    + intros (o' & w' & Hq).
      destruct (expect_body' pattern re_flags read_timeout output w)
        as [[[b|a]|x] w1] eqn:Hb; try discriminate.
      apply expect_body_continue_iff in Hb.
      destruct Hb as (new & w2 & Hrd & Hre & Hle & -> & ->).
      exists new, w2. repeat split; try assumption.
      apply IH. eauto.
    + intros (new & w1 & Hrd & Hre & Hle & Hrest).
      assert (Hb : expect_body' pattern re_flags read_timeout output w
                   = (Ok (Continue (output ++ new)),
                      mkWorld (self w1)
                        (time_sleep Channel.loop_sleep_time
                           (snd (time_time (env w1))))
                        (logged w1)))
        by (apply expect_body_continue_iff; exists new, w1;
            repeat split; assumption).
      rewrite Hb. apply IH. exact Hrest.
Qed.

(** X2. [read_channel_expect] is still running after [fuel] rounds exactly
    when each of these rounds polled without an exception, found no match
    in the text gathered and read a clock that was not past the deadline.
    In every other case it has returned or raised. *)
Theorem read_channel_expect_running_iff_quiet
    pattern timeout re_flags w t0 w0 fuel :
  Channel.expect_start pattern w = (t0, w0) ->
  (read_channel_expect' fuel pattern timeout re_flags w = None
   <-> polled_without_match read_buffer fuel pattern re_flags
         (t0 + inject_Z timeout)%Q "" w0).
Proof.
  intros Hstart.
  rewrite (read_channel_expect_unfold read_buffer) with (1 := Hstart).
  rewrite <- quiet_polls_polled_without_match.
  rewrite <- expect_loop_out_of_fuel.
  destruct (while_true fuel _ "" w0) as [[[o|x] w1]|];
    split; try discriminate; reflexivity.
Qed.
End ExpectMore.

Section ExpectTermination.
Context `{Library} `{Platform} {S : Type}.
Variable read_buffer : M S string.

(** The time shown by the clock of the outside world. *)
Variable clock : Env -> Q.

(** A reading of the clock is not before the time shown, and the time
    shown afterwards is not before the reading. *)
Hypothesis time_time_clock :
  forall e,
    (clock e <= fst (time_time e))%Q
    /\ (fst (time_time e) <= clock (snd (time_time e)))%Q.

(** A sleep of [d] seconds takes at least [d] seconds. *)
Hypothesis time_sleep_clock :
  forall d e, (clock e + d <= clock (time_sleep d e))%Q.

(** The clock does not go back during a poll. *)
Hypothesis read_buffer_clock :
  forall w, (clock (env w) <= clock (env (snd (read_buffer w))))%Q.

(** The world after a round that goes round again: the poll, the reading
    of the clock and the sleep. *)
Lemma expect_body_continue_world pattern re_flags read_timeout output w
    output' w' :
  Channel.expect_body read_buffer pattern re_flags read_timeout output w
  = (Ok (Continue output'), w') ->
  exists w1,
    w1 = snd (read_buffer w)
    /\ env w' = time_sleep Channel.loop_sleep_time
                  (snd (time_time (env w1)))
    /\ (fst (time_time (env w1)) <= read_timeout)%Q.
Proof.
  unfold Channel.expect_body, bind, call', effect, ret, raise.
  destruct (read_buffer w) as [[new|x] w1]; [|discriminate].
  destruct (re_search pattern (output ++ new) re_flags); try discriminate.
  destruct (time_time (env w1)) as [now e'] eqn:Ht.
  destruct (Qgtb now read_timeout) eqn:Hgt; [discriminate|].
  intros [= <- <-]. exists w1. cbn [snd fst env]. rewrite Ht.
  repeat split. exact (proj1 (Qgtb_false _ _) Hgt).
Qed.

(** With the clock [n] hundredths of a second or less before the
    deadline, the loop ends within [n + 1] rounds. *)
Lemma expect_loop_terminates pattern re_flags read_timeout n :
  forall output w,
    (read_timeout < clock (env w) + inject_Z (Z.of_nat n) * (1 # 100))%Q ->
    while_true (Datatypes.S n)
      (fun o => lift (Channel.expect_body read_buffer pattern re_flags
                        read_timeout o))
      output w
    <> None.
Proof.
  induction n as [|n IH]; intros output w Hd;
    cbn [while_true]; unfold lift at 1;
    destruct (Channel.expect_body read_buffer pattern re_flags read_timeout
                output w) as [[[b|a]|x] w'] eqn:Hb; try discriminate;
    destruct (expect_body_continue_world _ _ _ _ _ Hb)
      as (w1 & -> & Henv & Hle);
    pose proof (read_buffer_clock w) as Hrd;
    destruct (time_time_clock (env (snd (read_buffer w)))) as [Ht1 Ht2].
  - exfalso. change (inject_Z (Z.of_nat 0)) with 0%Q in Hd. lra.
  - apply IH. rewrite Henv.
    pose proof (time_sleep_clock Channel.loop_sleep_time
                  (snd (time_time (env (snd (read_buffer w)))))) as Hs.
    unfold Channel.loop_sleep_time in Hs |- *.
    rewrite Nat2Z.inj_succ, <- Z.add_1_r, inject_Z_plus in Hd.
    change (inject_Z 1) with 1%Q in Hd. lra.
Qed.

(** X3. With a clock that shows the time ([time.time] reads it,
    [time.sleep] takes at least the time slept, a poll does not turn it
    back), [read_channel_expect] ends: within [100 * timeout + 2] rounds
    of its loop it has returned or raised. *)
Theorem read_channel_expect_terminates pattern timeout re_flags w :
  exists r w',
    Channel.read_channel_expect read_buffer
      (Z.to_nat (100 * timeout) + 2) pattern timeout re_flags w
    = Some (r, w').
Proof.
  destruct (Channel.expect_start pattern w) as [t0 w0] eqn:Hstart.
  rewrite (read_channel_expect_unfold read_buffer) with (1 := Hstart).
  replace (Z.to_nat (100 * timeout) + 2)%nat
    with (Datatypes.S (Z.to_nat (100 * timeout) + 1)) by lia.
  pose proof (@expect_loop_terminates pattern re_flags
                (t0 + inject_Z timeout)%Q
                (Z.to_nat (100 * timeout) + 1) "" w0) as Hend.
  destruct (while_true _ _ "" w0) as [[[o|x] w1]|]; eauto.
  exfalso. apply Hend; [|reflexivity].
  unfold Channel.expect_start in Hstart.
  destruct (time_time_clock (env w)) as [_ Ht].
  destruct (time_time (env w)) as [now e]. injection Hstart as <- <-.
  cbn [env fst snd] in *.
  assert (Hz : (100 * timeout < Z.of_nat (Z.to_nat (100 * timeout) + 1))%Z)
    by lia.
  rewrite Zlt_Qlt, inject_Z_mult in Hz.
  change (inject_Z 100) with 100%Q in Hz. lra.
Qed.
End ExpectTermination.

(** On the loop-back transport the poll of the SSH channel leaves the
    clock as it is. *)
Lemma Sim_read_buffer_now (L : Library)
    (w : @World Sim.platform (@SSHChannel.t Sim.platform)) :
  Sim.now (env (snd (@SSHChannel.read_buffer L Sim.platform w)))
  = Sim.now (env w).
Proof.
  unfold SSHChannel.read_buffer, log_reads, SSHChannel.getattr_remote_conn.
  run. cbn [get_session_log SSHChannel.attrs].
  destruct (SSHChannel.remote_conn (self w)) as [|[c|]];
    cbn [self env logged fst snd]; try reflexivity.
  - cbn [recv_ready recv Sim.platform self env logged fst snd].
    destruct (negb (Sim.is_nil (Sim.wire (env w))) || Sim.eof (env w));
      cbn [self env logged fst snd].
    + destruct (length (firstn (Z.to_nat MAX_BUFFER) (Sim.wire (env w)))
                =? 0)%nat; cbn [self env logged fst snd];
        [reflexivity|].
      destruct (SSHChannel.session_log (self w)); reflexivity.
    + destruct (SSHChannel.session_log (self w)); reflexivity.
  - destruct (SSHChannel.session_log (self w)); reflexivity.
Qed.

(** The stream ends after the first four bytes: the second poll raises
    [EOFError], and so does the call.  And the pattern of one open
    parenthesis raises [re.error] once the first poll is done. *)
Lemma read_channel_expect_poll_exception_witness :
  (exists w',
      @SSHChannel.read_channel_expect (Sim.library false 4) Sim.platform
        2 "zz" 10 0 Samples.w_closing
      = Some (Raise (EOFError "Channel stream closed by remote device."),
              w'))
  /\ (exists msg w',
         @SSHChannel.read_channel_expect (Samples.strict_library 4)
           Sim.platform 1 "(" 10 0 Sim.w_login
         = Some (Raise (re_error msg), w')
         /\ Sim.wire (env w') = Sim.bytes_of "n: more").
Proof.
  split.
  - epose proof (@read_channel_expect_poll_exception
                   (Sim.library false 4) Sim.platform _
                   (@SSHChannel.read_buffer (Sim.library false 4)
                      Sim.platform)
                   "zz" 10%Z 0%Z Samples.w_closing _ _ 1%nat _ _ 2%nat)
      as Hw.
    do 3 (lapply Hw; [clear Hw; intro Hw | by_evaluation]).
    destruct Hw as [Hpoll _]. eexists. apply Hpoll. reflexivity.
  - epose proof (@read_channel_expect_poll_exception
                   (Samples.strict_library 4) Sim.platform _
                   (@SSHChannel.read_buffer (Samples.strict_library 4)
                      Sim.platform)
                   "(" 10%Z 0%Z Sim.w_login _ _ 0%nat _ _ 1%nat) as Hw.
    do 3 (lapply Hw; [clear Hw; intro Hw | by_evaluation]).
    destruct Hw as [_ Hre]. do 2 eexists. split.
    + eapply Hre; [vm_compute; reflexivity | reflexivity].
    + reflexivity.
Defined.

(** Two rounds for the pattern [zz], ten seconds before the deadline: the
    call is still running.  And with the deadline behind the clock it is
    not: the first round has raised. *)
Lemma read_channel_expect_running_iff_quiet_witness :
  @SSHChannel.read_channel_expect (Sim.library false 4) Sim.platform
    2 "zz" 10 0 Sim.w_login
  = None
  /\ @SSHChannel.read_channel_expect (Sim.library false 4) Sim.platform
       2 "zz" (-1) 0 Sim.w_login
     <> None.
Proof.
  split.
  - eapply (proj2 (@read_channel_expect_running_iff_quiet
                     (Sim.library false 4) Sim.platform _
                     (@SSHChannel.read_buffer (Sim.library false 4)
                        Sim.platform)
                     "zz" 10%Z 0%Z Sim.w_login _ _ 2%nat eq_refl)).
    cbn [polled_without_match].
    do 2 eexists. split; [vm_compute; reflexivity|].
    split; [vm_compute; reflexivity|]. split; [vm_compute; discriminate|].
    do 2 eexists. split; [vm_compute; reflexivity|].
    split; [vm_compute; reflexivity|]. split; [vm_compute; discriminate|].
    exact I.
  - intros Hnone.
    apply (proj1 (@read_channel_expect_running_iff_quiet
                    (Sim.library false 4) Sim.platform _
                    (@SSHChannel.read_buffer (Sim.library false 4)
                       Sim.platform)
                    "zz" (-1)%Z 0%Z Sim.w_login _ _ 2%nat eq_refl))
      in Hnone.
    cbn [polled_without_match] in Hnone.
    destruct Hnone as (new & w1 & Hrd & _ & Hle & _).
    vm_compute in Hrd. injection Hrd as <- <-.
    vm_compute in Hle. apply Hle. reflexivity.
Defined.

(** The clock of the loop-back transport shows the time: with a timeout
    of three seconds the call ends within 302 rounds. *)
Lemma read_channel_expect_terminates_witness :
  exists r w',
    @SSHChannel.read_channel_expect (Sim.library false 4) Sim.platform
      (Z.to_nat (100 * 3) + 2) "zz" 3 0 Sim.w_login
    = Some (r, w').
Proof.
  apply (@read_channel_expect_terminates
           (Sim.library false 4) Sim.platform _
           (@SSHChannel.read_buffer (Sim.library false 4) Sim.platform)
           Sim.now).
  - intros e. split; apply Qle_refl.
  - intros d e. apply Qle_refl.
  - intros w. rewrite Sim_read_buffer_now. apply Qle_refl.
Defined.

(** ** Reads of the SSH channel *)

Section ReadMore.
Context `{Library} `{Platform}.

(** [log_reads] around a function that returned [output], with a session
    log that takes it. *)
Lemma log_reads_recorded {S : Type} `{!ChannelAttrs S}
    (func : M S string) (w w1 : World S) output e' :
  func w = (Ok output, w1) ->
  recorded (self w1) output (env w1) e' ->
  log_reads func w
  = (Ok output,
     mkWorld (self w1) e' (logged w1 ++ ["read_channel: " ++ output])).
Proof.
  intros Hf Hrec. unfold log_reads. run. rewrite Hf. cbn [self env logged].
  unfold recorded in Hrec.
  destruct (get_session_log (self w1)) as [sl|];
    cbn [self env logged]; [rewrite Hrec | rewrite Hrec]; reflexivity.
Qed.

(** X4. A poll of the SSH channel that finds bytes takes them with one
    [recv] of at most [MAX_BUFFER] bytes and returns them decoded as UTF-8;
    the text goes to the session log when there is one, whatever the flags
    of the log are. *)
Theorem SSHChannel_read_buffer_data
    (w : World SSHChannel.t) c e1 outbuf e2 e3 :
  SSHChannel.remote_conn (self w) = Bound (Some c) ->
  recv_ready c (env w) = (true, e1) ->
  recv c MAX_BUFFER e1 = (Ok outbuf, e2) ->
  outbuf <> [] ->
  recorded (self w) (bytes_decode "utf-8" outbuf) e2 e3 ->
  SSHChannel.read_buffer w
  = (Ok (bytes_decode "utf-8" outbuf),
     mkWorld (self w) e3
       (logged w ++ ["read_channel: " ++ bytes_decode "utf-8" outbuf])).
Proof.
  intros Hconn Hready Hrecv Hne Hrec.
  unfold SSHChannel.read_buffer.
  apply log_reads_recorded with (w1 := mkWorld (self w) e2 (logged w));
    [|exact Hrec].
  unfold SSHChannel.getattr_remote_conn. run.
  rewrite Hconn. cbn [self env logged].
  rewrite Hready. cbn [self env logged]. rewrite Hrecv.
  destruct outbuf; [now elim Hne | reflexivity].
Qed.

(** The loop of [read_channel] over polls that returned some text. *)
Lemma read_channel_loop_polls n :
  forall output w output' w' fuel,
    read_channel_polls n output w = Some (output', w') ->
    while_true (n + fuel)
      (fun output => lift (
         new_output <- SSHChannel.read_buffer ;;
         let output := output ++ new_output in
         if (new_output =? "")%string then ret (Break output)
         else ret (Continue output)))
      output w
    = while_true fuel
        (fun output => lift (
           new_output <- SSHChannel.read_buffer ;;
           let output := output ++ new_output in
           if (new_output =? "")%string then ret (Break output)
           else ret (Continue output)))
        output' w'.
Proof.
  induction n as [|n IH]; intros output w output' w' fuel Hp.
  - injection Hp as -> ->. reflexivity.
  - cbn [read_channel_polls] in Hp. cbn [Nat.add while_true].
    unfold lift at 1. unfold bind at 1.
    destruct (SSHChannel.read_buffer w) as [[new|x] w1]; [|discriminate].
    destruct (new =? "")%string; [discriminate|].
    unfold ret at 1. now apply IH.
Qed.

(** X5. [SSHChannel.read_channel] gathers the polls up to the first one
    that returns the empty string, and returns what it gathered with the
    escape codes stripped; an exception of a poll is raised as it is, and
    what was gathered is not returned. *)
Theorem SSHChannel_read_channel_drains
    n (w : World SSHChannel.t) output wn fuel :
  read_channel_polls n "" w = Some (output, wn) ->
  (n < fuel)%nat ->
  (forall w',
      SSHChannel.read_buffer wn = (Ok "", w') ->
      SSHChannel.read_channel fuel w
      = Some (Ok (strip_ansi_escape_codes output), w'))
  /\ (forall x w',
         SSHChannel.read_buffer wn = (Raise x, w') ->
         SSHChannel.read_channel fuel w = Some (Raise x, w')).
Proof.
  intros Hp Hfuel.
  replace fuel with (n + Datatypes.S (fuel - Datatypes.S n))%nat by lia.
  split.
  - intros w' Hrd. unfold SSHChannel.read_channel, bindP.
    rewrite read_channel_loop_polls with (1 := Hp).
    cbn [while_true]. unfold lift, bind. rewrite Hrd.
    cbn [String.eqb]. unfold ret. rewrite append_nil_r. reflexivity.
  - intros x w' Hrd. unfold SSHChannel.read_channel, bindP.
    rewrite read_channel_loop_polls with (1 := Hp).
    cbn [while_true]. unfold lift, bind. rewrite Hrd. reflexivity.
Qed.

(** X6. Bytes that decode to nothing end the read: when the first poll of
    [read_channel] takes bytes of which none can be decoded, the call
    returns after that one poll, and what else is ready stays unread. *)
Theorem SSHChannel_read_channel_undecodable
    (w : World SSHChannel.t) c e1 outbuf e2 e3 fuel :
  SSHChannel.remote_conn (self w) = Bound (Some c) ->
  recv_ready c (env w) = (true, e1) ->
  recv c MAX_BUFFER e1 = (Ok outbuf, e2) ->
  outbuf <> [] ->
  bytes_decode "utf-8" outbuf = "" ->
  recorded (self w) "" e2 e3 ->
  SSHChannel.read_channel (Datatypes.S fuel) w
  = Some (Ok (strip_ansi_escape_codes ""),
          mkWorld (self w) e3 (logged w ++ ["read_channel: "])).
Proof.
  intros Hconn Hready Hrecv Hne Hdec Hrec.
  assert (Hrd : SSHChannel.read_buffer w
                = (Ok "", mkWorld (self w) e3
                            (logged w ++ ["read_channel: "]))).
  { unfold SSHChannel.read_buffer.
    apply log_reads_recorded with (w1 := mkWorld (self w) e2 (logged w));
      [|exact Hrec].
    unfold SSHChannel.getattr_remote_conn. run.
    rewrite Hconn. cbn [self env logged].
    rewrite Hready. cbn [self env logged]. rewrite Hrecv, Hdec.
    destruct outbuf; [now elim Hne | reflexivity]. }
  unfold SSHChannel.read_channel, bindP. cbn [while_true].
  unfold lift, bind. rewrite Hrd. reflexivity.
Qed.
End ReadMore.

(** The text [show] is waiting; the session log has neither flag set and
    still gets the text. *)
Lemma SSHChannel_read_buffer_data_witness :
  exists w',
    @SSHChannel.read_buffer (Sim.library false 65535) Sim.platform
      (Sim.world (Sim.ssh_open "ascii" (Some tt))
                 (Sim.env0 (Sim.bytes_of "show") false false (Ok tt)))
    = (Ok "show", w')
    /\ Sim.slog (env w') = ["show"].
Proof.
  epose proof (@SSHChannel_read_buffer_data (Sim.library false 65535)
                 Sim.platform
                 (Sim.world (Sim.ssh_open "ascii" (Some tt))
                    (Sim.env0 (Sim.bytes_of "show") false false (Ok tt)))
                 tt _ (Sim.bytes_of "show") _ _) as Hw.
  do 3 (lapply Hw; [clear Hw; intro Hw | by_evaluation]).
  lapply Hw; [clear Hw; intro Hw | discriminate].
  lapply Hw; [clear Hw; intro Hw | vm_compute; reflexivity].
  eexists. split; [exact Hw | reflexivity].
Defined.

(** Reads of four bytes: three polls gather [login: more], the fourth is
    empty.  And on the channel whose stream has ended the second poll
    raises, and the four bytes of the first are not returned. *)
Lemma SSHChannel_read_channel_drains_witness :
  (exists w',
      @SSHChannel.read_channel (Sim.library false 4) Sim.platform 4
        Sim.w_login
      = Some (Ok "login: more", w'))
  /\ (exists x w',
         @SSHChannel.read_channel (Sim.library false 4) Sim.platform 2
           Samples.w_closing
         = Some (Raise x, w')).
Proof.
  split.
  - epose proof (@SSHChannel_read_channel_drains (Sim.library false 4)
                   Sim.platform 3%nat Sim.w_login _ _ 4%nat) as Hw.
    do 2 (lapply Hw; [clear Hw; intro Hw | by_evaluation]).
    destruct Hw as [Hdone _]. eexists. apply Hdone. vm_compute. reflexivity.
  - epose proof (@SSHChannel_read_channel_drains (Sim.library false 4)
                   Sim.platform 1%nat Samples.w_closing _ _ 2%nat) as Hw.
    do 2 (lapply Hw; [clear Hw; intro Hw | by_evaluation]).
    destruct Hw as [_ Hraise]. do 2 eexists. apply Hraise.
    vm_compute. reflexivity.
Defined.

(** Reads of one byte: the byte E9 decodes to nothing, the read ends and
    the letter [a] stays on the wire. *)
Lemma SSHChannel_read_channel_undecodable_witness :
  exists w',
    @SSHChannel.read_channel (Sim.library false 1) Sim.platform 1
      Samples.w_e9_a
    = Some (Ok "", w')
    /\ Sim.wire (env w') = [x61].
Proof.
  epose proof (@SSHChannel_read_channel_undecodable (Sim.library false 1)
                 Sim.platform Samples.w_e9_a tt _ [xe9] _ _ 0%nat) as Hw.
  do 3 (lapply Hw; [clear Hw; intro Hw | by_evaluation]).
  lapply Hw; [clear Hw; intro Hw | discriminate].
  do 2 (lapply Hw; [clear Hw; intro Hw | vm_compute; reflexivity]).
  eexists. split; [exact Hw | reflexivity].
Defined.

(** ** [SSHChannel.establish_connection]: success, and what is not
    translated *)

Section EstablishMore.
Context `{Library} `{Platform}.

(** [establish_connection], unfolded up to the result of [connect]. *)
Ltac to_connect Hbuild Hconnect :=
  unfold SSHChannel.establish_connection;
  unfold bind at 1; rewrite Hbuild;
  unfold try_except, SSHChannel.getattr_remote_conn_pre;
  unfold bind, get_self, set_self, call, ret, raise, effect;
  cbn [self env logged SSHChannel.remote_conn_pre
       SSHChannel.set_remote_conn_pre SSHChannel.set_remote_conn
       SSHChannel.ssh_params SSHChannel.device_type
       SSHChannel.blocking_timeout SSHChannel.keepalive];
  rewrite Hconnect;
  cbn [self env logged handle SSHChannel.remote_conn_pre
       SSHChannel.set_remote_conn_pre SSHChannel.set_remote_conn
       SSHChannel.ssh_params SSHChannel.device_type
       SSHChannel.blocking_timeout SSHChannel.keepalive].

(** X7. When [connect] and [invoke_shell] return, the object holds the
    client and the shell channel (also when its attribute [remote_conn]
    had been removed by an earlier [close]), the blocking timeout of the
    object is set on the channel, and the keepalive is set on the transport
    when it is not 0, and only then. *)
Theorem SSHChannel_establish_connection_opens
    width height (w w1 : World SSHChannel.t) client e2 conn e3 :
  SSHChannel._build_ssh_client false w = (Ok client, w1) ->
  connect client (SSHChannel.ssh_params (self w1)) (env w1) = (Ok tt, e2) ->
  invoke_shell client "vt100" width height e2 = (Ok conn, e3) ->
  let s :=
    SSHChannel.set_remote_conn (Bound (Some conn))
      (SSHChannel.set_remote_conn_pre (Bound client) (self w1)) in
  let e4 := settimeout conn (SSHChannel.blocking_timeout (self w1)) e3 in
  let k := SSHChannel.keepalive (self w1) in
  SSHChannel.establish_connection width height w
  = if (k =? 0)%Z then (Ok tt, mkWorld s e4 (logged w1))
    else (fst (set_keepalive conn k e4),
          mkWorld s (snd (set_keepalive conn k e4)) (logged w1)).
Proof.
  intros Hbuild Hconnect Hshell s e4 k. subst s e4 k.
  to_connect Hbuild Hconnect. rewrite Hshell.
  cbn [self env logged SSHChannel.keepalive SSHChannel.blocking_timeout
       SSHChannel.set_remote_conn SSHChannel.set_remote_conn_pre].
  destruct (SSHChannel.keepalive (self w1) =? 0)%Z; [reflexivity|].
  destruct (set_keepalive conn _ _) as [[[]|x] e5]; reflexivity.
Qed.

(** X8. An exception of [invoke_shell] is raised as it is, and nothing is
    cleaned up: [close] is not called, the client stays connected and
    stays in the object. *)
Theorem SSHChannel_establish_connection_shell_fails
    width height (w w1 : World SSHChannel.t) client e2 x e3 :
  SSHChannel._build_ssh_client false w = (Ok client, w1) ->
  connect client (SSHChannel.ssh_params (self w1)) (env w1) = (Ok tt, e2) ->
  invoke_shell client "vt100" width height e2 = (Raise x, e3) ->
  SSHChannel.establish_connection width height w
  = (Raise x,
     mkWorld (SSHChannel.set_remote_conn_pre (Bound client) (self w1))
       e3 (logged w1)).
Proof.
  intros Hbuild Hconnect Hshell.
  to_connect Hbuild Hconnect. rewrite Hshell. reflexivity.
Qed.

(** X9. A rejected authentication is not translated.  paramiko's
    [AuthenticationException] is an [SSHException], and the clause for
    [SSHException] comes first: it runs [close], and when [close] returns
    the exception is raised again as it is (or, with [No existing
    session] in its text, becomes the time-out exception); when [close]
    raises, the exception of [close] comes out.  The clause that builds
    [NetmikoAuthenticationException] is never reached: the call raises
    that exception only if the [close] of the client raised it. *)
Theorem SSHChannel_establish_connection_authentication
    width height (w w1 : World SSHChannel.t) client msg e2 :
  SSHChannel._build_ssh_client false w = (Ok client, w1) ->
  connect client (SSHChannel.ssh_params (self w1)) (env w1)
  = (Raise (AuthenticationException msg), e2) ->
  let w2 :=
    mkWorld (SSHChannel.set_remote_conn_pre (Bound client) (self w1))
      e2 (logged w1) in
  SSHChannel.establish_connection width height w
  = (match fst (SSHChannel.close w2) with
     | Ok _ =>
         if contains "No existing session" msg
         then Raise (NetmikoTimeoutException SSHChannel.no_session_msg)
         else Raise (AuthenticationException msg)
     | Raise x => Raise x
     end,
     snd (SSHChannel.close w2))
  /\ forall msg' w',
      SSHChannel.establish_connection width height w
      = (Raise (NetmikoAuthenticationException msg'), w') ->
      fst (SSHClient_close client e2)
      = Raise (NetmikoAuthenticationException msg').
Proof.
  intros Hbuild Hconnect w2.
  assert (Hrun :
            SSHChannel.establish_connection width height w
            = (match fst (SSHChannel.close w2) with
               | Ok _ =>
                   if contains "No existing session" msg
                   then Raise (NetmikoTimeoutException
                                 SSHChannel.no_session_msg)
                   else Raise (AuthenticationException msg)
               | Raise x => Raise x
               end,
               snd (SSHChannel.close w2))).
  { to_connect Hbuild Hconnect. fold w2.
    cbn [is_socket_error is_SSHException inherits str_exn].
    destruct (SSHChannel.close w2) as [[[]|x] w3]; cbn [fst snd];
      [|reflexivity].
    destruct (contains "No existing session" msg); reflexivity. }
  split; [exact Hrun|].
  intros msg' w'. rewrite Hrun. clear Hrun.
  unfold SSHChannel.close, try_finally, SSHChannel.getattr_remote_conn_pre,
    SSHChannel.del_remote_conn, SSHChannel.del_remote_conn_pre.
  subst w2. run.
  cbn [SSHChannel.remote_conn_pre SSHChannel.set_remote_conn_pre
       SSHChannel.remote_conn SSHChannel.set_remote_conn self env logged].
  destruct (SSHClient_close client e2) as [r e3].
  cbn [fst snd self env logged SSHChannel.remote_conn_pre
       SSHChannel.set_remote_conn_pre SSHChannel.remote_conn
       SSHChannel.set_remote_conn].
  destruct (SSHChannel.remote_conn (self w1)) as [|conn];
    cbn [fst snd self env logged SSHChannel.remote_conn_pre
         SSHChannel.set_remote_conn_pre SSHChannel.remote_conn
         SSHChannel.set_remote_conn].
  - destruct r as [[]|x]; cbn [fst snd]; intros Heq;
      unfold SSHChannel.no_attribute in Heq; discriminate Heq.
  - destruct r as [[]|x]; cbn [fst snd].
    + destruct (contains "No existing session" msg); intros Heq;
        discriminate Heq.
    + intros Heq. injection Heq as -> _. reflexivity.
Qed.

(** X10. On an object whose attribute [remote_conn] has been removed (a
    [close], or a failed [establish_connection], removes it), a failure of
    [connect] is not translated: the [close] of the handler raises
    [AttributeError], which is what the caller gets, whatever the failure
    was; the client has been closed and stays in the object. *)
Theorem SSHChannel_establish_connection_retry_masks
    width height (w w1 : World SSHChannel.t) client x e2 r e3 :
  SSHChannel._build_ssh_client false w = (Ok client, w1) ->
  SSHChannel.remote_conn (self w1) = Missing ->
  connect client (SSHChannel.ssh_params (self w1)) (env w1)
  = (Raise x, e2) ->
  is_socket_error x || is_SSHException x = true ->
  SSHClient_close client e2 = (r, e3) ->
  SSHChannel.establish_connection width height w
  = (Raise (SSHChannel.no_attribute "remote_conn"),
     mkWorld (SSHChannel.set_remote_conn_pre (Bound client) (self w1))
       e3 (logged w1)).
Proof.
  intros Hbuild Hconn Hconnect Hx Hclose.
  to_connect Hbuild Hconnect.
  assert (Hc : SSHChannel.close
                 (mkWorld (SSHChannel.set_remote_conn_pre (Bound client)
                             (self w1)) e2 (logged w1))
               = (Raise (SSHChannel.no_attribute "remote_conn"),
                  mkWorld (SSHChannel.set_remote_conn_pre (Bound client)
                             (self w1)) e3 (logged w1))).
  { unfold SSHChannel.close, try_finally,
      SSHChannel.getattr_remote_conn_pre, SSHChannel.del_remote_conn.
    run. cbn [SSHChannel.remote_conn_pre SSHChannel.set_remote_conn_pre].
    cbn [self env logged]. rewrite Hclose. cbn [self env logged SSHChannel.remote_conn
                         SSHChannel.set_remote_conn_pre].
    rewrite Hconn. destruct r as [[]|x']; reflexivity. }
  destruct (is_socket_error x).
  - rewrite Hc. reflexivity.
  - cbn [orb] in Hx. rewrite Hx, Hc. reflexivity.
Qed.
End EstablishMore.

(** On the loop-back platform [connect] and [invoke_shell] return, and the
    keepalive of the object is 0. *)
Lemma SSHChannel_establish_connection_opens_witness :
  exists w',
    @SSHChannel.establish_connection Sim.platform 511 1000
      (Sim.world (Sim.ssh0 "ascii" None) Samples.idle)
    = (Ok tt, w')
    /\ SSHChannel.remote_conn (self w') = Bound (Some tt)
    /\ SSHChannel.remote_conn_pre (self w') = Bound tt.
Proof.
  epose proof (@SSHChannel_establish_connection_opens Sim.platform
                 511%Z 1000%Z
                 (Sim.world (Sim.ssh0 "ascii" None) Samples.idle)
                 _ tt _ tt _) as Hw.
  do 3 (lapply Hw; [clear Hw; intro Hw | by_evaluation]).
  eexists. split; [exact Hw | split; reflexivity].
Defined.

(** [invoke_shell] raises: the exception comes out and the client is still
    in the object. *)
Lemma SSHChannel_establish_connection_shell_fails_witness :
  let f := Samples.shell_fault in
  exists w',
    @SSHChannel.establish_connection (Samples.platform f) 511 1000
      (Samples.world f (Samples.ssh0 f "ascii" None) Samples.idle)
    = (Raise (SSHException "Channel closed."), w')
    /\ SSHChannel.remote_conn_pre (self w') = Bound tt.
Proof.
  intros f.
  epose proof (@SSHChannel_establish_connection_shell_fails
                 (Samples.platform f) 511%Z 1000%Z
                 (Samples.world f (Samples.ssh0 f "ascii" None)
                    Samples.idle)
                 _ tt _ _ _) as Hw.
  do 3 (lapply Hw; [clear Hw; intro Hw | by_evaluation]).
  eexists. split; [exact Hw | reflexivity].
Defined.

(** The server rejects the password, on a new object and then on the same
    object again: the first call raises the exception of paramiko, the
    second one the [AttributeError] of [close]. *)
Lemma SSHChannel_establish_connection_authentication_witness :
  let rejected := AuthenticationException "Authentication failed." in
  exists w' w'',
    @SSHChannel.establish_connection Sim.platform 511 1000
      (Sim.world (Sim.ssh0 "ascii" None)
         (Sim.env0 [] false false (Raise rejected)))
    = (Raise rejected, w')
    /\ @SSHChannel.establish_connection Sim.platform 511 1000 w'
       = (Raise (AttributeError
                   "'SSHChannel' object has no attribute 'remote_conn'"),
          w'').
Proof.
  intros rejected.
  epose proof (@SSHChannel_establish_connection_authentication Sim.platform
                 511%Z 1000%Z
                 (Sim.world (Sim.ssh0 "ascii" None)
                    (Sim.env0 [] false false (Raise rejected)))
                 _ tt _ _) as Hw.
  do 2 (lapply Hw; [clear Hw; intro Hw | by_evaluation]).
  destruct Hw as [Hrun _]. do 2 eexists. split; [exact Hrun|].
  match goal with
  | |- @SSHChannel.establish_connection _ _ _ ?W = _ =>
      epose proof (@SSHChannel_establish_connection_authentication
                     Sim.platform 511%Z 1000%Z W _ tt _ _) as Hw
  end.
  do 2 (lapply Hw; [clear Hw; intro Hw | by_evaluation]).
  destruct Hw as [Hrun' _]. exact Hrun'.
Defined.

(** A refused connection, twice on the same object: the first call raises
    the time-out exception, the second one [AttributeError]. *)
Lemma SSHChannel_establish_connection_retry_masks_witness :
  exists msg w' msg' w'',
    @SSHChannel.establish_connection Sim.platform 511 1000
      (Sim.world (Sim.ssh0 "ascii" None)
         (Sim.env0 [] false false
            (Raise (socket_error "[Errno 111] Connection refused"))))
    = (Raise (NetmikoTimeoutException msg), w')
    /\ @SSHChannel.establish_connection Sim.platform 511 1000 w'
       = (Raise (AttributeError msg'), w'').
Proof.
  do 2 eexists. exists "'SSHChannel' object has no attribute 'remote_conn'".
  eexists. split; [vm_compute; reflexivity|].
  match goal with
  | |- @SSHChannel.establish_connection _ _ _ ?W = _ =>
      epose proof (@SSHChannel_establish_connection_retry_masks
                     Sim.platform 511%Z 1000%Z W _ tt _ _ _ _) as Hw
  end.
  do 5 (lapply Hw; [clear Hw; intro Hw | by_evaluation]).
  exact Hw.
Defined.

(** ** The SSH channel: [close], and the channel after [close] *)

Section SSHMore.
Context `{Library} `{Platform}.

(** X11. With both attributes in the object, [SSHChannel.close] ends as
    the [close] of the client ends: an exception of paramiko is not
    swallowed but raised to the caller.  In both cases the two attributes
    are removed from the object. *)
Theorem SSHChannel_close_as_client
    (w : World SSHChannel.t) client conn r e' :
  SSHChannel.remote_conn_pre (self w) = Bound client ->
  SSHChannel.remote_conn (self w) = Bound conn ->
  SSHClient_close client (env w) = (r, e') ->
  SSHChannel.close w
  = (r, mkWorld
          (SSHChannel.set_remote_conn_pre Missing
             (SSHChannel.set_remote_conn Missing (self w)))
          e' (logged w)).
Proof.
  intros Hpre Hconn Hclose.
  unfold SSHChannel.close, SSHChannel.getattr_remote_conn_pre,
    SSHChannel.del_remote_conn, SSHChannel.del_remote_conn_pre.
  run. rewrite Hpre. cbn [self env logged]. rewrite Hclose.
  cbn [self env logged]. rewrite Hconn.
  cbn [self env logged SSHChannel.remote_conn_pre
       SSHChannel.set_remote_conn].
  rewrite Hpre. destruct r as [[]|x]; reflexivity.
Qed.

(** [log_writes] around a write that raises. *)
Lemma log_writes_raises {S : Type} `{!ChannelAttrs S}
    (func : string -> M S unit) out_data (w w1 : World S) x :
  func out_data w = (Raise x, w1) ->
  log_writes func out_data w = (Raise x, w1).
Proof.
  intros Hf. unfold log_writes, bind. rewrite Hf. reflexivity.
Qed.

(** X12. After a [close] that returned, the object is not a closed
    channel but a broken one: [is_alive], [write_channel], [read_buffer]
    and [read_channel] raise [AttributeError], since they read the
    attribute [remote_conn], which [close] has removed. *)
Theorem SSHChannel_use_after_close (w w1 : World SSHChannel.t) :
  SSHChannel.close w = (Ok tt, w1) ->
  let missing := SSHChannel.no_attribute "remote_conn" in
  SSHChannel.is_alive w1 = (Raise missing, w1)
  /\ (forall text, SSHChannel.write_channel text w1 = (Raise missing, w1))
  /\ SSHChannel.read_buffer w1 = (Raise missing, w1)
  /\ (forall fuel,
         SSHChannel.read_channel (Datatypes.S fuel) w1
         = Some (Raise missing, w1)).
Proof.
  intros Hclose missing. subst missing.
  destruct (SSHChannel_close_removes _ Hclose) as [Hconn _].
  assert (Hg : SSHChannel.getattr_remote_conn w1
               = (Raise (SSHChannel.no_attribute "remote_conn"), w1)).
  { unfold SSHChannel.getattr_remote_conn. run. rewrite Hconn.
    reflexivity. }
  assert (Hrb : SSHChannel.read_buffer w1
                = (Raise (SSHChannel.no_attribute "remote_conn"), w1)).
  { unfold SSHChannel.read_buffer, log_reads. unfold bind at 1.
    unfold bind at 1. rewrite Hg. reflexivity. }
  split; [|split; [|split]].
  - unfold SSHChannel.is_alive, bind. rewrite Hg. reflexivity.
  - intros text. unfold SSHChannel.write_channel.
    apply log_writes_raises. unfold bind. rewrite Hg. reflexivity.
  - exact Hrb.
  - intros fuel. unfold SSHChannel.read_channel, bindP.
    cbn [while_true]. unfold lift, bind. rewrite Hrb. reflexivity.
Qed.

(** X13. On a connected SSH channel, a write whose bytes cannot be made
    ([write_bytes] raises) or cannot be sent ([sendall] raises) raises
    that exception to the caller, also when it is a [UnicodeDecodeError];
    then nothing is logged and nothing goes to the session log. *)
Theorem SSHChannel_write_channel_fails
    (w : World SSHChannel.t) c text :
  SSHChannel.remote_conn (self w) = Bound (Some c) ->
  (forall x,
      write_bytes text (SSHChannel.encoding (self w)) = Raise x ->
      SSHChannel.write_channel text w = (Raise x, w))
  /\ (forall b x e',
         write_bytes text (SSHChannel.encoding (self w)) = Ok b ->
         sendall c b (env w) = (Raise x, e') ->
         SSHChannel.write_channel text w
         = (Raise x, mkWorld (self w) e' (logged w))).
Proof.
  intros Hconn. split.
  - intros x Hb. unfold SSHChannel.write_channel.
    apply log_writes_raises. unfold SSHChannel.getattr_remote_conn. run.
    rewrite Hconn. cbn [self env logged]. rewrite Hb.
    destruct w; reflexivity.
  - intros b x e' Hb Hsend. unfold SSHChannel.write_channel.
    apply log_writes_raises. unfold SSHChannel.getattr_remote_conn. run.
    rewrite Hconn. cbn [self env logged]. rewrite Hb, Hsend. reflexivity.
Qed.

(** [SSHChannel.write_channel] leaves the object as it is. *)
Lemma SSHChannel_write_channel_self (w : World SSHChannel.t) text :
  self (snd (SSHChannel.write_channel text w)) = self w.
Proof.
  unfold SSHChannel.write_channel, log_writes.
  unfold bind at 1.
  match goal with
  | |- context [match ?f w with _ => _ end] =>
      assert (Hf : self (snd (f w)) = self w)
  end.
  { unfold SSHChannel.getattr_remote_conn. run.
    destruct (SSHChannel.remote_conn (self w)) as [|[c|]];
      cbn [self env logged snd]; try reflexivity.
    destruct (write_bytes text (SSHChannel.encoding (self w)));
      [|reflexivity].
    destruct (sendall c a (env w)) as [[[]|x] e']; reflexivity. }
  match goal with
  | |- context [match ?f w with _ => _ end] =>
      destruct (f w) as [[[]|x] w1]
  end; cbn [snd] in Hf |- *; [|exact Hf].
  unfold bind, try_except, ret.
  pose proof (log_writes_try_self text w1) as Htry.
  destruct (log_writes_try text w1) as [[[]|x] w2]; cbn [snd] in Htry.
  - cbn [snd]. congruence.
  - cbn [handle]. destruct (is_UnicodeDecodeError x); unfold ret, raise;
      cbn [snd]; congruence.
Qed.

(** X14. [SSHChannel.is_alive] on a connected channel writes the null
    character with [write_channel] and then asks the transport.  A
    [socket.error] or an [EOFError] of the write or of the transport makes
    it return [False]; any other exception is raised to the caller; with
    no exception it returns what the transport answers. *)
Theorem SSHChannel_is_alive_connected
    (w : World SSHChannel.t) c r w1 :
  SSHChannel.remote_conn (self w) = Bound (Some c) ->
  SSHChannel.write_channel (String zero EmptyString)
    (mkWorld (self w) (env w) (logged w ++ ["Sending the NULL byte"]))
  = (r, w1) ->
  let unable (x : exn) (e : Env) :=
    if is_socket_error x || is_EOFError x
    then (Ok false, mkWorld (self w1) e (logged w1 ++ ["Unable to send"]))
    else (Raise x, mkWorld (self w1) e (logged w1)) in
  SSHChannel.is_alive w
  = match r with
    | Raise x => unable x (env w1)
    | Ok _ =>
        match transport_is_active c (env w1) with
        | (Ok active, e2) => (Ok active, mkWorld (self w1) e2 (logged w1))
        | (Raise x, e2) => unable x e2
        end
    end.
Proof.
  intros Hconn Hwrite unable. subst unable.
  pose proof (SSHChannel_write_channel_self
                (mkWorld (self w) (env w)
                   (logged w ++ ["Sending the NULL byte"]))
                (String zero EmptyString)) as Hself.
  rewrite Hwrite in Hself. cbn [snd self] in Hself.
  assert (Hconn1 : SSHChannel.remote_conn (self w1) = Bound (Some c))
    by (rewrite Hself; exact Hconn).
  clear Hself.
  unfold SSHChannel.is_alive. unfold bind at 1.
  unfold SSHChannel.getattr_remote_conn at 1. run. rewrite Hconn.
  cbn [self env logged]. rewrite Hwrite.
  destruct r as [[]|x].
  - unfold SSHChannel.getattr_remote_conn. run. rewrite Hconn1.
    cbn [self env logged].
    destruct (transport_is_active c (env w1)) as [[active|x] e2];
      [reflexivity|].
    cbn [self env logged handle].
    destruct (is_socket_error x || is_EOFError x); destruct w1; reflexivity.
  - cbn [handle].
    destruct (is_socket_error x || is_EOFError x); destruct w1; reflexivity.
Qed.
End SSHMore.

(** The [close] of the client raises: [SSHChannel.close] raises it, and the
    attributes are gone. *)
Lemma SSHChannel_close_as_client_witness :
  let f := Samples.client_close_fault in
  exists w',
    @SSHChannel.close (Samples.platform f)
      (Samples.world f (Samples.ssh_open f "ascii" None) Samples.idle)
    = (Raise (socket_error "close"), w')
    /\ SSHChannel.remote_conn (self w') = Missing
    /\ SSHChannel.remote_conn_pre (self w') = Missing.
Proof.
  intros f.
  epose proof (@SSHChannel_close_as_client (Samples.platform f)
                 (Samples.world f (Samples.ssh_open f "ascii" None)
                    Samples.idle)
                 tt (Some tt) _ _) as Hw.
  do 3 (lapply Hw; [clear Hw; intro Hw | by_evaluation]).
  eexists. split; [exact Hw | split; reflexivity].
Defined.

(** An open channel is closed, and then asked whether it is alive. *)
Lemma SSHChannel_use_after_close_witness :
  exists w1 msg,
    @SSHChannel.close Sim.platform
      (Sim.world (Sim.ssh_open "ascii" None) Samples.idle)
    = (Ok tt, w1)
    /\ @SSHChannel.is_alive (Sim.library false 4) Sim.platform w1
       = (Raise (AttributeError msg), w1).
Proof.
  epose proof (@SSHChannel_use_after_close (Sim.library false 4)
                 Sim.platform
                 (Sim.world (Sim.ssh_open "ascii" None) Samples.idle) _)
    as Hw.
  lapply Hw; [clear Hw; intro Hw | by_evaluation].
  destruct Hw as [Halive _].
  do 2 eexists. split; [reflexivity | exact Halive].
Defined.

(** A text that Python 2 cannot encode, on an open channel: the write
    raises [UnicodeDecodeError].  And a [sendall] that raises: the write
    raises, and the session log, which records writes, stays empty. *)
Lemma SSHChannel_write_channel_fails_witness :
  (exists x w',
      @SSHChannel.write_channel (Sim.library true 4) Sim.platform
        (String (ascii_of_nat 233) "")
        (Sim.world (Sim.ssh_open "ascii" None) Samples.idle)
      = (Raise (UnicodeDecodeError x), w'))
  /\ (let f := Samples.sendall_fault in
      exists w',
        @SSHChannel.write_channel (Sim.library false 4) (Samples.platform f)
          "show"
          (Samples.world f (Samples.ssh_open f "ascii" (Some tt))
             (Sim.env0 [] true true (Ok tt)))
        = (Raise (socket_error "Socket is closed"), w')
        /\ Sim.slog (env w') = []).
Proof.
  split.
  - destruct (@SSHChannel_write_channel_fails (Sim.library true 4)
                Sim.platform
                (Sim.world (Sim.ssh_open "ascii" None) Samples.idle)
                tt (String (ascii_of_nat 233) "") eq_refl) as [Henc _].
    do 2 eexists. apply Henc. reflexivity.
  - intros f.
    destruct (@SSHChannel_write_channel_fails (Sim.library false 4)
                (Samples.platform f)
                (Samples.world f (Samples.ssh_open f "ascii" (Some tt))
                   (Sim.env0 [] true true (Ok tt)))
                tt "show" eq_refl) as [_ Hsend].
    eexists. split.
    + eapply Hsend; reflexivity.
    + reflexivity.
Defined.

(** The probe of a channel whose [sendall] raises [socket.error] answers
    [False], and so does the probe of a channel whose [sendall] raises
    [socket.timeout]; the probe of the loop-back channel answers what the
    transport answers. *)
Lemma SSHChannel_is_alive_connected_witness :
  (let f := Samples.sendall_fault in
   fst (@SSHChannel.is_alive (Sim.library false 4) (Samples.platform f)
          (Samples.world f (Samples.ssh_open f "ascii" None) Samples.idle))
   = Ok false)
  /\ (let f := Samples.sendall_timeout_fault in
      fst (@SSHChannel.is_alive (Sim.library false 4) (Samples.platform f)
             (Samples.world f (Samples.ssh_open f "ascii" None)
                Samples.idle))
      = Ok false)
  /\ fst (@SSHChannel.is_alive (Sim.library false 4) Sim.platform
            (Sim.world (Sim.ssh_open "ascii" None) Samples.idle))
     = Ok true.
Proof.
  split; [|split].
  - intros f.
    epose proof (@SSHChannel_is_alive_connected (Sim.library false 4)
                   (Samples.platform f)
                   (Samples.world f (Samples.ssh_open f "ascii" None)
                      Samples.idle)
                   tt _ _ eq_refl) as Hw.
    lapply Hw; [clear Hw; intro Hw | vm_compute; reflexivity].
    rewrite Hw. reflexivity.
  - intros f.
    epose proof (@SSHChannel_is_alive_connected (Sim.library false 4)
                   (Samples.platform f)
                   (Samples.world f (Samples.ssh_open f "ascii" None)
                      Samples.idle)
                   tt _ _ eq_refl) as Hw.
    lapply Hw; [clear Hw; intro Hw | vm_compute; reflexivity].
    rewrite Hw. reflexivity.
  - epose proof (@SSHChannel_is_alive_connected (Sim.library false 4)
                   Sim.platform
                   (Sim.world (Sim.ssh_open "ascii" None) Samples.idle)
                   tt _ _ eq_refl) as Hw.
    lapply Hw; [clear Hw; intro Hw | vm_compute; reflexivity].
    rewrite Hw. reflexivity.
Defined.

(** ** The Telnet channel *)

Section TelnetMore.
Context `{Library} `{Platform}.


(** X16. [TelnetChannel.is_alive] on a connected channel.  Without a
    socket in the Telnet object the probe answers [False] and sends
    nothing.  With a socket it sends IAC NOP three times and answers
    [True]; an exception of the first send that is not an
    [AttributeError] (a broken pipe, say) is raised to the caller. *)
Theorem TelnetChannel_is_alive_connected (w : World TelnetChannel.t) c :
  TelnetChannel.remote_conn (self w) = Some c ->
  let l := (logged w ++ ["Sending IAC + NOP"])%list in
  (Telnet_get_socket c (env w) = None ->
   TelnetChannel.is_alive w = (Ok false, mkWorld (self w) (env w) l))
  /\ (forall sk e1 e2 e3,
         Telnet_get_socket c (env w) = Some sk ->
         Socket_sendall sk TelnetChannel.IAC_NOP (env w) = (Ok tt, e1) ->
         Socket_sendall sk TelnetChannel.IAC_NOP e1 = (Ok tt, e2) ->
         Socket_sendall sk TelnetChannel.IAC_NOP e2 = (Ok tt, e3) ->
         TelnetChannel.is_alive w = (Ok true, mkWorld (self w) e3 l))
  /\ (forall sk x e1,
         Telnet_get_socket c (env w) = Some sk ->
         Socket_sendall sk TelnetChannel.IAC_NOP (env w) = (Raise x, e1) ->
         is_AttributeError x = false ->
         TelnetChannel.is_alive w = (Raise x, mkWorld (self w) e1 l)).
Proof.
  intros Hc l. subst l.
  unfold TelnetChannel.is_alive, TelnetChannel.socket_sendall. run.
  rewrite Hc. cbn [self env logged].
  split; [|split].
  - intros Hsock. rewrite Hsock. reflexivity.
  - intros sk e1 e2 e3 Hsock H1 H2 H3. rewrite Hsock.
    cbn [self env logged]. rewrite H1. cbn [self env logged].
    rewrite H2. cbn [self env logged]. rewrite H3. reflexivity.
  - intros sk x e1 Hsock H1 Hx. rewrite Hsock.
    cbn [self env logged]. rewrite H1. cbn [handle]. rewrite Hx.
    reflexivity.
Qed.

(** X17. A Telnet channel that is not connected cannot be read: the
    [assert] of [read_buffer] and of [read_channel] fails, and
    [read_channel_expect] raises that [AssertionError] at its first poll,
    before it sleeps ([SSHChannel.read_buffer] returns the empty string
    there). *)
Theorem TelnetChannel_read_not_connected (w : World TelnetChannel.t) :
  TelnetChannel.remote_conn (self w) = None ->
  TelnetChannel.read_buffer w = (Raise (AssertionError ""), w)
  /\ TelnetChannel.read_channel w = (Raise (AssertionError ""), w)
  /\ forall fuel pattern timeout re_flags,
       TelnetChannel.read_channel_expect (Datatypes.S fuel) pattern timeout
         re_flags w
       = Some (Raise (AssertionError ""),
               snd (Channel.expect_start pattern w)).
Proof.
  intros Hc.
  assert (Hrb : forall w0 : World TelnetChannel.t,
             self w0 = self w ->
             TelnetChannel.read_buffer w0 = (Raise (AssertionError ""), w0)).
  { intros w0 Hs. unfold TelnetChannel.read_buffer, log_reads. run.
    rewrite Hs, Hc. reflexivity. }
  split; [|split].
  - apply Hrb. reflexivity.
  - unfold TelnetChannel.read_channel, ansi_strip, log_reads. run.
    rewrite Hc. reflexivity.
  - intros fuel pattern timeout re_flags.
    unfold TelnetChannel.read_channel_expect.
    destruct (Channel.expect_start pattern w) as [t0 w0] eqn:Hstart.
    rewrite (read_channel_expect_unfold TelnetChannel.read_buffer)
      with (1 := Hstart).
    cbn [while_true snd]. unfold lift, Channel.expect_body.
    unfold bind at 1. rewrite Hrb; [reflexivity|].
    unfold Channel.expect_start in Hstart.
    destruct (time_time (env w)). injection Hstart as _ <-. reflexivity.
Qed.

(** X18. [TelnetChannel.read_channel] returns what [read_very_eager] has,
    decoded as UTF-8 and with the escape codes stripped; the logger and
    the session log get the text as it was before the stripping.  An
    exception of telnetlib (the [EOFError] of a closed connection) is
    raised as it is. *)
Theorem TelnetChannel_read_channel_strips_after_log
    (w : World TelnetChannel.t) c :
  TelnetChannel.remote_conn (self w) = Some c ->
  (forall b e1 e2,
      Telnet_read_very_eager c (env w) = (Ok b, e1) ->
      recorded (self w) (bytes_decode "utf-8" b) e1 e2 ->
      TelnetChannel.read_channel w
      = (Ok (strip_ansi_escape_codes (bytes_decode "utf-8" b)),
         mkWorld (self w) e2
           (logged w ++ ["read_channel: " ++ bytes_decode "utf-8" b])))
  /\ (forall x e1,
         Telnet_read_very_eager c (env w) = (Raise x, e1) ->
         TelnetChannel.read_channel w
         = (Raise x, mkWorld (self w) e1 (logged w))).
Proof.
  intros Hc. split.
  - intros b e1 e2 Hread Hrec.
    unfold TelnetChannel.read_channel, ansi_strip. unfold bind at 1.
    rewrite log_reads_recorded
      with (w1 := mkWorld (self w) e1 (logged w))
           (output := bytes_decode "utf-8" b) (e' := e2);
      [reflexivity | | exact Hrec].
    run. rewrite Hc. cbn [self env logged]. rewrite Hread. reflexivity.
  - intros x e1 Hread.
    unfold TelnetChannel.read_channel, ansi_strip, log_reads. run.
    rewrite Hc. cbn [self env logged]. rewrite Hread. reflexivity.
Qed.
End TelnetMore.

(** The three cases of the probe: no socket, a socket, a broken pipe. *)
Lemma TelnetChannel_is_alive_connected_witness :
  (let f := Samples.no_socket_fault in
   fst (@TelnetChannel.is_alive (Samples.platform f)
          (Samples.world f (Samples.telnet_open f None) Samples.idle))
   = Ok false)
  /\ fst (@TelnetChannel.is_alive (Samples.platform Samples.no_faults)
            (Samples.world Samples.no_faults
               (Samples.telnet_open Samples.no_faults None) Samples.idle))
     = Ok true
  /\ (let f := Samples.socket_send_fault in
      fst (@TelnetChannel.is_alive (Samples.platform f)
             (Samples.world f (Samples.telnet_open f None) Samples.idle))
      = Raise Samples.BrokenPipeError).
Proof.
  split; [|split].
  - intros f.
    destruct (@TelnetChannel_is_alive_connected (Samples.platform f)
                (Samples.world f (Samples.telnet_open f None) Samples.idle)
                tt eq_refl) as (Hnone & _ & _).
    rewrite (Hnone eq_refl). reflexivity.
  - destruct (@TelnetChannel_is_alive_connected
                (Samples.platform Samples.no_faults)
                (Samples.world Samples.no_faults
                   (Samples.telnet_open Samples.no_faults None)
                   Samples.idle)
                tt eq_refl) as (_ & Hsent & _).
    rewrite (Hsent tt _ _ _ eq_refl eq_refl eq_refl eq_refl). reflexivity.
  - intros f.
    destruct (@TelnetChannel_is_alive_connected (Samples.platform f)
                (Samples.world f (Samples.telnet_open f None) Samples.idle)
                tt eq_refl) as (_ & _ & Hraise).
    rewrite (Hraise tt _ _ eq_refl eq_refl eq_refl). reflexivity.
Defined.

(** A Telnet channel as [__init__] builds it is read with a pattern. *)
Lemma TelnetChannel_read_not_connected_witness :
  exists w',
    @TelnetChannel.read_channel_expect (Sim.library false 4)
      (Samples.platform Samples.no_faults) 1 "login:" 10 0
      (Samples.world Samples.no_faults
         (Samples.telnet0 Samples.no_faults None) Samples.idle)
    = Some (Raise (AssertionError ""), w').
Proof.
  destruct (@TelnetChannel_read_not_connected (Sim.library false 4)
              (Samples.platform Samples.no_faults)
              (Samples.world Samples.no_faults
                 (Samples.telnet0 Samples.no_faults None) Samples.idle)
              eq_refl) as (_ & _ & Hexpect).
  eexists. apply Hexpect.
Defined.

(** The device sends [a], the code ESC[K and [b]: the caller gets [ab],
    the session log gets the five characters. *)
Lemma TelnetChannel_read_channel_strips_after_log_witness :
  let raw := "a" ++ String (ascii_of_nat 27) "[Kb" in
  exists w',
    @TelnetChannel.read_channel (Sim.library false 4)
      (Samples.platform Samples.no_faults)
      (Samples.world Samples.no_faults
         (Samples.telnet_open Samples.no_faults (Some tt))
         (Sim.env0 (Sim.bytes_of raw) false false (Ok tt)))
    = (Ok "ab", w')
    /\ Sim.slog (env w') = [raw].
Proof.
  intros raw.
  destruct (@TelnetChannel_read_channel_strips_after_log
              (Sim.library false 4) (Samples.platform Samples.no_faults)
              (Samples.world Samples.no_faults
                 (Samples.telnet_open Samples.no_faults (Some tt))
                 (Sim.env0 (Sim.bytes_of raw) false false (Ok tt)))
              tt eq_refl) as [Hread _].
  epose proof (Hread (Sim.bytes_of raw) _ _) as Hr.
  do 2 (lapply Hr; [clear Hr; intro Hr | vm_compute; reflexivity]).
  eexists. split; [exact Hr | reflexivity].
Defined.

(** ** The serial channel *)

Section SerialMore.
Context `{Library} `{Platform} `{!SerialPort}.

(** X19. [SerialChannel.close] ends as the [close] of the port ends: an
    exception of pyserial is raised to the caller ([TelnetChannel.close]
    swallows it).  In every case the handle is [None] afterwards, and a
    second [close] returns without a call to the port. *)
Theorem SerialChannel_close_as_port (w : World SerialChannel.t) :
  let r := match SerialChannel.remote_conn (self w) with
           | Some c => Serial_close c (env w)
           | None => (Ok tt, env w)
           end in
  let w' := mkWorld (SerialChannel.set_remote_conn None (self w)) (snd r)
              (logged w) in
  SerialChannel.close w = (fst r, w')
  /\ SerialChannel.close w' = (Ok tt, w').
Proof.
  cbv zeta. unfold SerialChannel.close. run.
  destruct (SerialChannel.remote_conn (self w)) as [c|].
  - destruct (Serial_close c (env w)) as [[[]|x] e']; split; reflexivity.
  - split; reflexivity.
Qed.

(** X20. [SerialChannel.establish_connection] opens the port with the
    settings of the object and keeps it as the handle; the [close] that
    follows closes that port.  An exception of [serial.Serial] is raised as
    it is, and the object is left as it was. *)
Theorem SerialChannel_establish_connection_opens
    width height (w : World SerialChannel.t) :
  (forall conn e1,
      Serial_new (SerialChannel.serial_settings (self w)) (env w)
      = (Ok conn, e1) ->
      let w1 := mkWorld (SerialChannel.set_remote_conn (Some conn) (self w))
                  e1 (logged w) in
      SerialChannelIO.establish_connection width height w = (Ok tt, w1)
      /\ SerialChannel.close w1
         = (fst (Serial_close conn e1),
            mkWorld (SerialChannel.set_remote_conn None (self w1))
              (snd (Serial_close conn e1)) (logged w)))
  /\ (forall x e1,
         Serial_new (SerialChannel.serial_settings (self w)) (env w)
         = (Raise x, e1) ->
         SerialChannelIO.establish_connection width height w
         = (Raise x, mkWorld (self w) e1 (logged w))).
Proof.
  split.
  - intros conn e1 Hnew w1. subst w1.
    unfold SerialChannelIO.establish_connection, SerialChannelIO.login,
      SerialChannel.close.
    run. rewrite Hnew. cbn [self env logged SerialChannel.remote_conn
                           SerialChannel.set_remote_conn].
    split; [reflexivity|].
    destruct (Serial_close conn e1) as [[[]|x] e2]; reflexivity.
  - intros x e1 Hnew.
    unfold SerialChannelIO.establish_connection. run. rewrite Hnew.
    reflexivity.
Qed.

(** X21. [SerialChannel.read_channel].  Without a handle it returns the
    empty string (stripped) and does not touch a port.  With a handle it
    reads as many bytes as the port reports waiting; when nothing waits
    after that, it returns them decoded as UTF-8 and stripped, and the
    session log has the text before the stripping. *)
Theorem SerialChannel_read_channel_reads
    (w : World SerialChannel.t) fuel :
  (SerialChannel.remote_conn (self w) = None ->
   forall e',
     recorded (self w) "" (env w) e' ->
     SerialChannelIO.read_channel fuel w
     = Some (Ok (strip_ansi_escape_codes ""),
             mkWorld (self w) e' (logged w ++ ["read_channel: "])))
  /\ (forall c b e1 e2,
         SerialChannel.remote_conn (self w) = Some c ->
         (0 < Serial_in_waiting c (env w))%Z ->
         Serial_read c (Serial_in_waiting c (env w)) (env w) = (Ok b, e1) ->
         (Serial_in_waiting c e1 <= 0)%Z ->
         recorded (self w) (bytes_decode "utf-8" b) e1 e2 ->
         (2 <= fuel)%nat ->
         SerialChannelIO.read_channel fuel w
         = Some (Ok (strip_ansi_escape_codes (bytes_decode "utf-8" b)),
                 mkWorld (self w) e2
                   (logged w
                    ++ ["read_channel: " ++ bytes_decode "utf-8" b]))).
Proof.
  split.
  - intros Hc e' Hrec.
    unfold SerialChannelIO.read_channel, SerialChannelIO.read_channel_raw.
    unfold bindP, lift, get_self. rewrite Hc. unfold ret at 1.
    unfold ansi_strip. unfold bind at 1.
    rewrite log_reads_recorded
      with (w1 := w) (output := "") (e' := e');
      [reflexivity | reflexivity | exact Hrec].
  - intros c b e1 e2 Hc Hwait Hread Hdone Hrec Hfuel.
    destruct fuel as [|[|fuel]]; try lia.
    unfold SerialChannelIO.read_channel, SerialChannelIO.read_channel_raw.
    unfold bindP at 1. unfold bindP at 1. unfold lift at 1.
    unfold get_self at 1. rewrite Hc.
    cbn [while_true]. unfold lift at 1 2.
    unfold SerialChannelIO.read_channel_round. run.
    apply Z.ltb_lt in Hwait. rewrite Hwait. cbn [self env logged].
    rewrite Hread. cbn [self env logged].
    apply Z.ltb_ge in Hdone. rewrite Hdone. cbn [append].
    unfold lift, ansi_strip. unfold bind at 1.
    rewrite log_reads_recorded
      with (w1 := mkWorld (self w) e1 (logged w))
           (output := bytes_decode "utf-8" b) (e' := e2);
      [reflexivity | reflexivity | exact Hrec].
Qed.
End SerialMore.

(** The port opens, and the port is busy. *)
Lemma SerialChannel_establish_connection_opens_witness :
  (exists w1,
      @SerialChannelIO.establish_connection
        (Samples.platform Samples.no_faults)
        (Samples.serial_port Samples.no_faults false) 511 1000
        (Samples.world Samples.no_faults
           (Samples.serial0 Samples.no_faults) Samples.idle)
      = (Ok tt, w1)
      /\ SerialChannel.remote_conn (self w1) = Some tt)
  /\ (exists x w1,
         @SerialChannelIO.establish_connection
           (Samples.platform Samples.no_faults)
           (Samples.serial_port Samples.no_faults true) 511 1000
           (Samples.world Samples.no_faults
              (Samples.serial0 Samples.no_faults) Samples.idle)
         = (Raise x, w1)
         /\ SerialChannel.remote_conn (self w1) = None).
Proof.
  split.
  - destruct (@SerialChannel_establish_connection_opens
                (Samples.platform Samples.no_faults)
                (Samples.serial_port Samples.no_faults false) 511%Z 1000%Z
                (Samples.world Samples.no_faults
                   (Samples.serial0 Samples.no_faults) Samples.idle))
      as [Hopen _].
    destruct (Hopen tt _ eq_refl) as [Hrun _].
    eexists. split; [exact Hrun | reflexivity].
  - destruct (@SerialChannel_establish_connection_opens
                (Samples.platform Samples.no_faults)
                (Samples.serial_port Samples.no_faults true) 511%Z 1000%Z
                (Samples.world Samples.no_faults
                   (Samples.serial0 Samples.no_faults) Samples.idle))
      as [_ Hbusy].
    do 2 eexists. split; [exact (Hbusy _ _ eq_refl) | reflexivity].
Defined.

(** A port that was not opened, and an open port on which [show] waits. *)
Lemma SerialChannel_read_channel_reads_witness :
  (exists w',
      @SerialChannelIO.read_channel (Sim.library false 4)
        (Samples.platform Samples.no_faults)
        (Samples.serial_port Samples.no_faults false) 0
        (Samples.world Samples.no_faults
           (Samples.serial0 Samples.no_faults) Samples.idle)
      = Some (Ok "", w'))
  /\ (exists w',
         @SerialChannelIO.read_channel (Sim.library false 4)
           (Samples.platform Samples.no_faults)
           (Samples.serial_port Samples.no_faults false) 2
           (Samples.world Samples.no_faults
              (Samples.serial_open Samples.no_faults)
              (Sim.env0 (Sim.bytes_of "show") false false (Ok tt)))
         = Some (Ok "show", w')).
Proof.
  split.
  - destruct (@SerialChannel_read_channel_reads (Sim.library false 4)
                (Samples.platform Samples.no_faults)
                (Samples.serial_port Samples.no_faults false)
                (Samples.world Samples.no_faults
                   (Samples.serial0 Samples.no_faults) Samples.idle)
                0%nat) as [Hnone _].
    eexists. exact (Hnone eq_refl _ eq_refl).
  - destruct (@SerialChannel_read_channel_reads (Sim.library false 4)
                (Samples.platform Samples.no_faults)
                (Samples.serial_port Samples.no_faults false)
                (Samples.world Samples.no_faults
                   (Samples.serial_open Samples.no_faults)
                   (Sim.env0 (Sim.bytes_of "show") false false (Ok tt)))
                2%nat) as [_ Hread].
    epose proof (Hread tt (Sim.bytes_of "show") _ _ eq_refl) as Hr.
    do 5 (lapply Hr; [clear Hr; intro Hr | by_evaluation]).
    eexists. exact Hr.
Defined.

(** ** [SSHChannel._build_ssh_client] *)

Section BuildProofs.
Context `{Platform}.

(** X22. [_build_ssh_client] does not change the channel object and logs
    nothing.  The client it returns is the one it made first, and the last
    thing it does is to set the host-key policy: [RejectPolicy] when
    [ssh_strict] is set and true, [AutoAddPolicy] in every other case. *)
Theorem SSHChannel_build_ssh_client_policy
    no_auth (w w1 : World SSHChannel.t) client :
  SSHChannel._build_ssh_client no_auth w = (Ok client, w1) ->
  self w1 = self w
  /\ logged w1 = logged w
  /\ client = fst (SSHClient_new no_auth (env w))
  /\ exists e',
       env w1
       = set_missing_host_key_policy client
           (if truthy (ssh_strict (SSHChannel.ssh_hostkey_args (self w)))
            then RejectPolicy else AutoAddPolicy)
           e'.
Proof.
  unfold SSHChannel._build_ssh_client. run.
  destruct (SSHClient_new no_auth (env w)) as [c e1].
  cbn [self env logged fst snd];
    (destruct (truthy (system_host_keys
                         (SSHChannel.ssh_hostkey_args (self w))));
     cbn [self env logged];
     [destruct (load_system_host_keys c e1) as [[[]|x] e2];
      cbn [self env logged]; [|discriminate] | ]);
    (destruct (truthy (alt_host_keys
                         (SSHChannel.ssh_hostkey_args (self w))));
     cbn [self env logged];
     [destruct (alt_key_file (SSHChannel.ssh_hostkey_args (self w)))
        as [file|]; cbn [self env logged]; [|discriminate];
      match goal with
      | |- context [path_isfile file ?e] =>
          destruct (path_isfile file e); cbn [self env logged];
          [destruct (load_host_keys c file e) as [[[]|x'] e3];
           cbn [self env logged]; [|discriminate] | ]
      end | ]);
    intros Heq; injection Heq as <- <-;
    cbn [self env logged]; repeat split; eexists;
    destruct (truthy (ssh_strict (SSHChannel.ssh_hostkey_args (self w))));
    reflexivity.
Qed.

(** X23. The alternate host keys.  With [alt_host_keys] set and no
    [alt_key_file] in the arguments, [establish_connection] raises
    [KeyError] before it connects, and the object is as it was.  With an
    [alt_key_file] that is not a file, the keys are not loaded and nothing
    is reported: the client is made and gets its policy. *)
Theorem SSHChannel_alt_host_keys
    width height (w : World SSHChannel.t) :
  let args := SSHChannel.ssh_hostkey_args (self w) in
  truthy (system_host_keys args) = false ->
  truthy (alt_host_keys args) = true ->
  (alt_key_file args = None ->
   SSHChannel.establish_connection width height w
   = (Raise (KeyError "alt_key_file"),
      mkWorld (self w) (snd (SSHClient_new false (env w))) (logged w)))
  /\ (forall file,
         alt_key_file args = Some file ->
         path_isfile file (snd (SSHClient_new false (env w))) = false ->
         SSHChannel._build_ssh_client false w
         = (Ok (fst (SSHClient_new false (env w))),
            mkWorld (self w)
              (set_missing_host_key_policy
                 (fst (SSHClient_new false (env w)))
                 (if truthy (ssh_strict args)
                  then RejectPolicy else AutoAddPolicy)
                 (snd (SSHClient_new false (env w))))
              (logged w))).
Proof.
  intros args Hsys Halt. subst args. split.
  - intros Hfile. unfold SSHChannel.establish_connection.
    unfold bind at 1. unfold SSHChannel._build_ssh_client. run.
    destruct (SSHClient_new false (env w)) as [c e1].
    cbn [self env logged fst snd]. rewrite Hsys. cbn [self env logged].
    rewrite Halt, Hfile. reflexivity.
  - intros file Hfile Hisfile. unfold SSHChannel._build_ssh_client. run.
    destruct (SSHClient_new false (env w)) as [c e1].
    cbn [self env logged fst snd] in *. rewrite Hsys. cbn [self env logged].
    rewrite Halt, Hfile. cbn [self env logged]. rewrite Hisfile.
    cbn [self env logged].
    destruct (truthy (ssh_strict _)); reflexivity.
Qed.
End BuildProofs.

(** Strict host keys on the loop-back platform; and alternate host keys
    without a file name, and with the name of a file that is not there. *)
Lemma SSHChannel_build_ssh_client_policy_witness :
  let args := {| system_host_keys := Some true; alt_host_keys := None;
                 alt_key_file := None; ssh_strict := Some true |} in
  exists w1,
    @SSHChannel._build_ssh_client Sim.platform false
      (Sim.world (Samples.ssh_with args) Samples.idle)
    = (Ok tt, w1)
    /\ self w1 = Samples.ssh_with args.
Proof.
  intros args. subst args. eexists. split; [vm_compute; reflexivity|].
  match goal with
  | |- self ?w1 = Samples.ssh_with ?args =>
      exact (proj1 (@SSHChannel_build_ssh_client_policy Sim.platform false
                      (Sim.world (Samples.ssh_with args) Samples.idle)
                      w1 tt eq_refl))
  end.
Defined.

Lemma SSHChannel_alt_host_keys_witness :
  (let args := {| system_host_keys := None; alt_host_keys := Some true;
                  alt_key_file := None; ssh_strict := None |} in
   fst (@SSHChannel.establish_connection Sim.platform 511 1000
          (Sim.world (Samples.ssh_with args) Samples.idle))
   = Raise (KeyError "alt_key_file"))
  /\ (let args := {| system_host_keys := None; alt_host_keys := Some true;
                     alt_key_file := Some "/root/.ssh/known_hosts";
                     ssh_strict := None |} in
      fst (@SSHChannel._build_ssh_client Sim.platform false
             (Sim.world (Samples.ssh_with args) Samples.idle))
      = Ok tt).
Proof.
  split.
  - intros args.
    destruct (@SSHChannel_alt_host_keys Sim.platform 511%Z 1000%Z
                (Sim.world (Samples.ssh_with args) Samples.idle)
                eq_refl eq_refl) as [Hkey _].
    rewrite (Hkey eq_refl). reflexivity.
  - intros args.
    destruct (@SSHChannel_alt_host_keys Sim.platform 511%Z 1000%Z
                (Sim.world (Samples.ssh_with args) Samples.idle)
                eq_refl eq_refl) as [_ Hnofile].
    rewrite (Hnofile "/root/.ssh/known_hosts" eq_refl eq_refl).
    reflexivity.
Defined.

(** ** [SSHChannel.read_channel_timing]: silence, deadline, and a peer
    that never stops *)

Section TimingMore.
Context `{Library} `{Platform}.

(** The rounds that go round again are skipped by the loop. *)
Lemma timing_loop_rounds n fuel delay_factor read_timeout :
  forall channel_data w channel_data' w' k,
    timing_rounds n fuel delay_factor read_timeout channel_data w
    = Some (channel_data', w') ->
    while_true (n + k)
      (SSHChannel.timing_body fuel delay_factor read_timeout)
      channel_data w
    = while_true k (SSHChannel.timing_body fuel delay_factor read_timeout)
        channel_data' w'.
Proof.
  induction n as [|n IH]; intros channel_data w channel_data' w' k Hr.
  - injection Hr as -> ->. reflexivity.
  - cbn [timing_rounds] in Hr. cbn [Nat.add while_true].
    destruct (SSHChannel.timing_body fuel delay_factor read_timeout
                channel_data w) as [[[[b|a]|x] w1]|]; try discriminate.
    now apply IH.
Qed.

(** The world in which the loop of [read_channel_timing] is entered. *)
Lemma read_channel_timing_unfold fuel delay_factor timeout
    (w : World SSHChannel.t) now e :
  time_time (env w) = (now, e) ->
  SSHChannel.read_channel_timing fuel delay_factor timeout w
  = while_true fuel
      (SSHChannel.timing_body fuel delay_factor (now + inject_Z timeout)%Q)
      "" (mkWorld (self w) e (logged w)).
Proof.
  intros Ht. unfold SSHChannel.read_channel_timing, bindP, lift, call'.
  rewrite Ht. reflexivity.
Qed.

(** X24. On a channel that stays silent, [read_channel_timing] returns the
    empty string after two sleeps and two reads: the sleep of
    [0.01 * delay_factor] seconds and a read that is empty, the sleep of
    [2 * delay_factor] seconds and a second read that is empty.  The
    clock is not read again and no exception is raised, whatever the
    timeout is. *)
Theorem SSHChannel_read_channel_timing_silence
    fuel delay_factor timeout (w : World SSHChannel.t) now e w2 w4 :
  time_time (env w) = (now, e) ->
  SSHChannel.read_channel (Datatypes.S fuel)
    (SSHChannel.slept (Channel.loop_sleep_time * delay_factor)
       (mkWorld (self w) e (logged w)))
  = Some (Ok "", w2) ->
  SSHChannel.read_channel (Datatypes.S fuel)
    (SSHChannel.slept (SSHChannel.final_delay * delay_factor) w2)
  = Some (Ok "", w4) ->
  SSHChannel.read_channel_timing (Datatypes.S fuel) delay_factor timeout w
  = Some (Ok "", w4).
Proof.
  intros Ht Hread Hread'.
  rewrite read_channel_timing_unfold with (1 := Ht).
  cbn [while_true].
  rewrite SSHChannel_timing_round_quiet with (1 := Hread) (2 := Hread').
  reflexivity.
Qed.

(** X25. When the clock is past the deadline at the end of a round of
    [read_channel_timing] in which data was read, the call returns all the
    data it has gathered; it raises nothing.  The clock is read only at
    the end of a round. *)
Theorem SSHChannel_read_channel_timing_deadline
    n fuel delay_factor timeout (w : World SSHChannel.t) now e
    channel_data wn new_data w2 now' e3 :
  time_time (env w) = (now, e) ->
  timing_rounds n fuel delay_factor (now + inject_Z timeout)%Q ""
    (mkWorld (self w) e (logged w))
  = Some (channel_data, wn) ->
  SSHChannel.read_channel fuel
    (SSHChannel.slept (Channel.loop_sleep_time * delay_factor) wn)
  = Some (Ok new_data, w2) ->
  new_data <> "" ->
  time_time (env w2) = (now', e3) ->
  (now + inject_Z timeout < now')%Q ->
  (n < fuel)%nat ->
  SSHChannel.read_channel_timing fuel delay_factor timeout w
  = Some (Ok (channel_data ++ new_data),
          mkWorld (self w2) e3 (logged w2)).
Proof.
  intros Ht Hrounds Hread Hdata Ht' Hlate Hfuel.
  rewrite read_channel_timing_unfold with (1 := Ht).
  replace fuel with (n + Datatypes.S (fuel - Datatypes.S n))%nat at 1
    by lia.
  rewrite timing_loop_rounds with (1 := Hrounds).
  cbn [while_true].
  rewrite SSHChannel_timing_round_data
    with (1 := Hread) (2 := Hdata) (3 := Ht').
  apply Qgtb_true in Hlate. rewrite Hlate. reflexivity.
Qed.
End TimingMore.

Section ChattyPeer.
Context `{Library} `{Platform}.

(** The worlds in which the peer is sending. *)
Variable sending : World SSHChannel.t -> Prop.

(** While the peer is sending, a poll returns some text, and the peer is
    still sending. *)
Hypothesis sending_poll :
  forall w,
    sending w ->
    exists new_output w',
      SSHChannel.read_buffer w = (Ok new_output, w')
      /\ new_output <> ""
      /\ sending w'.

(** A sleep, or a reading of the clock, does not stop the peer. *)
Hypothesis sending_sleep :
  forall d w, sending w -> sending (SSHChannel.slept d w).

Hypothesis sending_clock :
  forall w,
    sending w ->
    sending (mkWorld (self w) (snd (time_time (env w))) (logged w)).

Lemma read_channel_loop_sending fuel :
  forall output w,
    sending w ->
    while_true fuel
      (fun output => lift (
         new_output <- SSHChannel.read_buffer ;;
         let output := output ++ new_output in
         if (new_output =? "")%string then ret (Break output)
         else ret (Continue output)))
      output w
    = None.
Proof.
  induction fuel as [|fuel IH]; intros output w Hs; [reflexivity|].
  cbn [while_true]. unfold lift at 1. unfold bind at 1.
  destruct (sending_poll Hs) as (new & w' & Hrd & Hne & Hs').
  rewrite Hrd. apply String.eqb_neq in Hne. rewrite Hne.
  unfold ret at 1. now apply IH.
Qed.

(** X26. While the peer goes on sending, [read_channel] does not return:
    its loop has no bound of its own.  And [read_channel_timing] does not
    return either, whatever its timeout is: it reads the clock only
    between two calls of [read_channel], and the first call does not
    end. *)
Theorem SSHChannel_reads_unbounded (w : World SSHChannel.t) :
  sending w ->
  forall fuel,
    SSHChannel.read_channel fuel w = None
    /\ forall delay_factor timeout,
         SSHChannel.read_channel_timing fuel delay_factor timeout w = None.
Proof.
  intros Hs fuel. split.
  - unfold SSHChannel.read_channel, bindP.
    rewrite read_channel_loop_sending by exact Hs. reflexivity.
  - intros delay_factor timeout.
    destruct (time_time (env w)) as [now e] eqn:Ht.
    rewrite read_channel_timing_unfold with (1 := Ht).
    destruct fuel as [|fuel]; [reflexivity|].
    cbn [while_true]. unfold SSHChannel.timing_body.
    unfold bindP at 1. unfold bindP at 1. unfold lift at 1.
    unfold effect at 1.
    pose proof (sending_clock Hs) as Hs0. rewrite Ht in Hs0.
    cbn [snd] in Hs0.
    pose proof (sending_sleep (Channel.loop_sleep_time * delay_factor)%Q
                  Hs0) as Hs1.
    unfold SSHChannel.slept in Hs1. cbn [self env logged] in Hs1 |- *.
    unfold SSHChannel.read_channel at 1. unfold bindP at 1.
    rewrite read_channel_loop_sending by exact Hs1. reflexivity.
Qed.
End ChattyPeer.

(** A silent loop-back channel, with a delay factor of 1: the call returns
    the empty string, 2.01 seconds later. *)
Lemma SSHChannel_read_channel_timing_silence_witness :
  exists w4,
    @SSHChannel.read_channel_timing (Sim.library false 4) Sim.platform
      1 1 10 (Sim.world (Sim.ssh_open "ascii" None) Samples.idle)
    = Some (Ok "", w4)
    /\ (Sim.now (env w4) == 201 # 100)%Q.
Proof.
  epose proof (@SSHChannel_read_channel_timing_silence
                 (Sim.library false 4) Sim.platform 0%nat 1%Q 10%Z
                 (Sim.world (Sim.ssh_open "ascii" None) Samples.idle)
                 _ _ _ _) as Hw.
  do 3 (lapply Hw; [clear Hw; intro Hw | by_evaluation]).
  eexists. split; [exact Hw | vm_compute; reflexivity].
Defined.

(** A timeout of 0 seconds: the first round reads [login: more], the clock
    is past the deadline, and the text is returned. *)
Lemma SSHChannel_read_channel_timing_deadline_witness :
  exists w',
    @SSHChannel.read_channel_timing (Sim.library false 4) Sim.platform
      4 1 0 Sim.w_login
    = Some (Ok "login: more", w').
Proof.
  epose proof (@SSHChannel_read_channel_timing_deadline
                 (Sim.library false 4) Sim.platform 0%nat 4%nat 1%Q 0%Z
                 Sim.w_login _ _ _ _ _ _ _ _) as Hw.
  do 3 (lapply Hw; [clear Hw; intro Hw | by_evaluation]).
  lapply Hw; [clear Hw; intro Hw | discriminate].
  do 3 (lapply Hw; [clear Hw; intro Hw | by_evaluation]).
  eexists. exact Hw.
Defined.

(** The peer that never stops sending: a thousand rounds are not
    enough. *)
Lemma SSHChannel_reads_unbounded_witness :
  @SSHChannel.read_channel (Sim.library false 4)
    (Samples.platform Samples.chatty_peer) 1000
    (Samples.world Samples.chatty_peer
       (Samples.ssh_open Samples.chatty_peer "ascii" None) Samples.idle)
  = None.
Proof.
  refine (proj1 (@SSHChannel_reads_unbounded (Sim.library false 4)
                   (Samples.platform Samples.chatty_peer)
                   (fun w => SSHChannel.remote_conn (self w)
                             = Bound (Some tt))
                   _ _ _
                   (Samples.world Samples.chatty_peer
                      (Samples.ssh_open Samples.chatty_peer "ascii" None)
                      Samples.idle)
                   eq_refl 1000%nat)).
  - intros w Hconn.
    unfold SSHChannel.read_buffer, log_reads,
      SSHChannel.getattr_remote_conn.
    run. cbn [get_session_log SSHChannel.attrs]. rewrite Hconn.
    cbn.
    destruct (SSHChannel.session_log (self w)) as [[]|];
      do 2 eexists; (split; [reflexivity|]);
      (split; [discriminate | exact Hconn]).
  - intros d w Hconn. exact Hconn.
  - intros w Hconn. exact Hconn.
Defined.

(** ** Writes without a connection *)

Section DroppedWrites.
Context `{Library} `{Platform}.

(** [log_writes] around a write that did nothing, with a session log that
    records writes and takes the text. *)
Lemma log_writes_recorded {S : Type} `{!ChannelAttrs S}
    (func : string -> M S unit) text (w : World S) b sl e' :
  func text w = (Ok tt, w) ->
  write_bytes text (get_encoding (self w)) = Ok b ->
  get_session_log (self w) = Some sl ->
  SessionLog_fin sl (env w) || SessionLog_record_writes sl (env w) = true ->
  SessionLog_write sl text (env w) = (Ok tt, e') ->
  log_writes func text w
  = (Ok tt,
     mkWorld (self w) e' (logged w ++ ["write_channel: " ++ str_bytes b])).
Proof.
  intros Hf Hb Hsl Hflag Hwrite.
  unfold log_writes, log_writes_try. run. rewrite Hf, Hb.
  cbn [self env logged]. rewrite Hsl. cbn [self env logged].
  rewrite Hflag. cbn [self env logged]. rewrite Hwrite. reflexivity.
Qed.

(** X27. A write on a channel that has no connection is dropped without a
    word: nothing is sent and nothing is raised.  The text is still logged,
    and a session log that records writes still gets it.  So it is with
    the three channels. *)
Theorem write_channel_not_connected text b sl :
  (forall (w : World TelnetChannel.t) e',
      TelnetChannel.remote_conn (self w) = None ->
      write_bytes text (TelnetChannel.encoding (self w)) = Ok b ->
      TelnetChannel.session_log (self w) = Some sl ->
      SessionLog_fin sl (env w) || SessionLog_record_writes sl (env w)
      = true ->
      SessionLog_write sl text (env w) = (Ok tt, e') ->
      TelnetChannel.write_channel text w
      = (Ok tt,
         mkWorld (self w) e'
           (logged w ++ ["write_channel: " ++ str_bytes b])))
  /\ (forall (w : World SSHChannel.t) e',
         SSHChannel.remote_conn (self w) = Bound None ->
         write_bytes text (SSHChannel.encoding (self w)) = Ok b ->
         SSHChannel.session_log (self w) = Some sl ->
         SessionLog_fin sl (env w) || SessionLog_record_writes sl (env w)
         = true ->
         SessionLog_write sl text (env w) = (Ok tt, e') ->
         SSHChannel.write_channel text w
         = (Ok tt,
            mkWorld (self w) e'
              (logged w ++ ["write_channel: " ++ str_bytes b])))
  /\ (forall (w : World SerialChannel.t) e',
         SerialChannel.remote_conn (self w) = None ->
         write_bytes text (SerialChannel.encoding (self w)) = Ok b ->
         SerialChannel.session_log (self w) = Some sl ->
         SessionLog_fin sl (env w) || SessionLog_record_writes sl (env w)
         = true ->
         SessionLog_write sl text (env w) = (Ok tt, e') ->
         SerialChannel.write_channel text w
         = (Ok tt,
            mkWorld (self w) e'
              (logged w ++ ["write_channel: " ++ str_bytes b]))).
Proof.
  split; [|split]; intros w e' Hconn Hb Hsl Hflag Hwrite.
  - unfold TelnetChannel.write_channel.
    apply log_writes_recorded with (sl := sl); try assumption.
    run. rewrite Hconn. destruct w; reflexivity.
  - unfold SSHChannel.write_channel.
    apply log_writes_recorded with (sl := sl); try assumption.
    unfold SSHChannel.getattr_remote_conn. run. rewrite Hconn.
    destruct w; reflexivity.
  - unfold SerialChannel.write_channel.
    apply log_writes_recorded with (sl := sl); try assumption.
    run. rewrite Hconn. destruct w; reflexivity.
Qed.
End DroppedWrites.

(** The text [show] is written to channels as [__init__] builds them; the
    session log records writes. *)
Lemma write_channel_not_connected_witness :
  (exists w',
      @TelnetChannel.write_channel (Sim.library false 4)
        (Samples.platform Samples.no_faults) "show"
        (Samples.world Samples.no_faults
           (Samples.telnet0 Samples.no_faults (Some tt))
           (Sim.env0 [] false true (Ok tt)))
      = (Ok tt, w')
      /\ Sim.slog (env w') = ["show"] /\ Sim.wire (env w') = [])
  /\ (exists w',
         @SSHChannel.write_channel (Sim.library false 4) Sim.platform "show"
           (Sim.world (Sim.ssh0 "ascii" (Some tt))
                      (Sim.env0 [] false true (Ok tt)))
         = (Ok tt, w')
         /\ Sim.slog (env w') = ["show"] /\ Sim.wire (env w') = []).
Proof.
  split.
  - destruct (@write_channel_not_connected (Sim.library false 4)
                (Samples.platform Samples.no_faults) "show"
                (Sim.bytes_of "show") tt) as (Htelnet & _ & _).
    eexists. split; [|split].
    + apply Htelnet; reflexivity.
    + reflexivity.
    + reflexivity.
  - destruct (@write_channel_not_connected (Sim.library false 4)
                Sim.platform "show" (Sim.bytes_of "show") tt)
      as (_ & Hssh & _).
    eexists. split; [|split].
    + apply Hssh; reflexivity.
    + reflexivity.
    + reflexivity.
Defined.
